(** * Smart-Building Energy Monitor: a shallow embedding of [app.py]

    The development models the parts of [app.py] that the specification
    talks about: the cloud client ([get_token], [get_device_info],
    [get_device_data]), the schedule evaluator
    ([check_and_execute_schedules]), one pass of the background collector
    ([collect_data_periodically]), the device deletion route
    ([delete_device]), the [readings] table with its [UNIQUE(device_id, ts)]
    constraint, and the tariff function ([calc_bill_bd]).

    Conventions.
    - Python exceptions are values of [exn]; code that can raise lives in
      the monad [M], a state monad over [world] with an exception result.
    - The third-party cloud and the wall clock are an oracle [cloud]: the
      [n]-th interaction of the process with the outside gets the answer
      the oracle gives at index [n].  Every sequence of answers is the
      behaviour of some oracle.
    - Python [float] is IEEE binary64 and is modelled by Rocq's primitive
      floats, which compute with the same rounding; what is stated of all
      inputs of the tariff is proved from the specification of these
      operations in [SpecFloat] and [FloatAxioms].
    - [print] calls are not modelled. *)

From Stdlib Require Import ZArith Lia Bool Ascii String List.
From Stdlib Require Import PrimFloat SpecFloat FloatOps FloatAxioms.
From stdpp Require Import gmap strings list fin_maps pretty.

Set Warnings "-inexact-float,-register-all".

Local Open Scope Z_scope.
Local Open Scope string_scope.

(** ** Python strings *)

Module PyStr.

(** A string is the UTF-8 encoding of a Python [str], one [ascii] per
    byte. *)
Definition utf8 (bytes : list N) : string :=
  string_of_list_ascii (map ascii_of_N bytes).

(** The characters [str.isspace] holds of, which are the ones [str.strip]
    removes: U+0009..U+000D, U+001C..U+0020, U+0085, U+00A0, U+1680,
    U+2000..U+200A, U+2028, U+2029, U+202F, U+205F and U+3000. *)
Definition whitespace : list string :=
  map utf8
    [[9]; [10]; [11]; [12]; [13]; [28]; [29]; [30]; [31]; [32];
     [194; 133]; [194; 160]; [225; 154; 128];
     [226; 128; 128]; [226; 128; 129]; [226; 128; 130]; [226; 128; 131];
     [226; 128; 132]; [226; 128; 133]; [226; 128; 134]; [226; 128; 135];
     [226; 128; 136]; [226; 128; 137]; [226; 128; 138];
     [226; 128; 168]; [226; 128; 169]; [226; 128; 175];
     [226; 129; 159]; [227; 128; 128]]%N.

(** [str.lower] on the ASCII range.  A character outside it is left as
    it is; [str.lower] may change it, to a character outside the ASCII
    range again (but for U+0130 and U+212A, which give [i] with a combining
    dot and [k]), so that comparisons with the English day names come out
    the same. *)
Definition lower_char (c : ascii) : ascii :=
  let n := N_of_ascii c in
  if ((65 <=? n) && (n <=? 90))%N then ascii_of_N (n + 32) else c.

Fixpoint lower (s : string) : string :=
  match s with
  | EmptyString => EmptyString
  | String c s' => String (lower_char c) (lower s')
  end.

Fixpoint rev_onto (s acc : string) : string :=
  match s with
  | EmptyString => acc
  | String c s' => rev_onto s' (String c acc)
  end.

Definition rev (s : string) : string := rev_onto s EmptyString.

Fixpoint skip (n : nat) (s : string) : string :=
  match n, s with
  | S n', String _ s' => skip n' s'
  | _, _ => s
  end.

(** What is left of [s] after the one of [chars] it starts with. *)
Definition after_one_of (chars : list string) (s : string) : option string :=
  match List.find (fun c => String.prefix c s) chars with
  | Some c => Some (skip (String.length c) s)
  | None => None
  end.

Fixpoint drop_leading (chars : list string) (fuel : nat) (s : string) : string :=
  match fuel with
  | O => s
  | S fuel' =>
      match after_one_of chars s with
      | Some rest => drop_leading chars fuel' rest
      | None => s
      end
  end.

Definition lstrip (s : string) : string :=
  drop_leading whitespace (String.length s) s.

(** In UTF-8 the bytes of a character end no other character, so the
    white space a string ends with is found from its last byte backwards. *)
Definition rstrip (s : string) : string :=
  rev (drop_leading (map rev whitespace) (String.length s) (rev s)).

Definition strip (s : string) : string := rstrip (lstrip s).

(** [s.split(sep)] for a one-character separator: never returns the empty
    list, [''.split(',')] is [['']]. *)
Fixpoint split (sep : ascii) (s : string) : list string :=
  match s with
  | EmptyString => [EmptyString]
  | String c s' =>
      if Ascii.eqb c sep then EmptyString :: split sep s'
      else match split sep s' with
           | [] => [String c EmptyString]
           | w :: ws => String c w :: ws
           end
  end.

(** [needle in hay] for two strings. *)
Definition contains (needle hay : string) : bool :=
  match String.index 0 needle hay with
  | Some _ => true
  | None => false
  end.

(** [x in l] for a list of strings. *)
Definition mem (x : string) (l : list string) : bool :=
  existsb (String.eqb x) l.

End PyStr.

(** ** Tariff: [calc_bill_bd] *)

Module Tariff.

Local Open Scope float_scope.

(** The six return expressions of [calc_bill_bd], one per tier, each a
    function of [kwh] as the source writes it. *)
Definition tier1 (kwh : float) : float := kwh * 3.75.
Definition tier2 (kwh : float) : float := (50 * 3.75) + (kwh - 50) * 4.19.
Definition tier3 (kwh : float) : float :=
  (50 * 3.75) + (25 * 4.19) + (kwh - 75) * 5.72.
Definition tier4 (kwh : float) : float :=
  (50 * 3.75) + (25 * 4.19) + (125 * 5.72) + (kwh - 200) * 6.00.
Definition tier5 (kwh : float) : float :=
  (50 * 3.75) + (25 * 4.19) + (125 * 5.72) + (100 * 6.00) + (kwh - 300) * 6.34.
Definition tier6 (kwh : float) : float :=
  (50 * 3.75) + (25 * 4.19) + (125 * 5.72) + (100 * 6.00) + (100 * 6.34)
  + (kwh - 400) * 9.94.

(** [calc_bill_bd] on binary64, the arithmetic Python runs. *)
Definition calc_bill_bd (kwh : float) : float :=
  if kwh <=? 50 then tier1 kwh
  else if kwh <=? 75 then tier2 kwh
  else if kwh <=? 200 then tier3 kwh
  else if kwh <=? 300 then tier4 kwh
  else if kwh <=? 400 then tier5 kwh
  else tier6 kwh.

(** Python's [==] on floats. *)
Definition py_eq (x y : float) : bool := x =? y.

End Tariff.

(** ** Binary64 as an ordered set

    What the statement on the order of the bills rests on: the binary64
    numbers are embedded in the integers by [rank], an order embedding, and
    the rounding of [SpecFloat] is the function [round] on ranks.  The
    operations of the tariff, [kwh - b], [_ * r] and [c + _], then act on
    ranks as monotone functions. *)

Module Binary64.

(** [N / 2^k] rounded to the nearest integer, ties to even. *)
Definition nearest_even (N k : Z) : Z :=
  let q := N / 2 ^ k in
  match Z.compare (2 * (N mod 2 ^ k)) (2 ^ k) with
  | Lt => q
  | Eq => if Z.even q then q else q + 1
  | Gt => q + 1
  end.

(** The largest rank, that of the infinities. *)
Definition top : Z := 2 ^ 2098.

(** The value [N * 2^-2148], [N >= 0], rounded to binary64, as a rank. *)
Definition round (N : Z) : Z :=
  if Z.eqb N 0 then 0
  else
    let E := Z.max (Z.log2 N + 1 - 2148 - 53) (-1074) in
    Z.min (nearest_even N (E + 2148) * 2 ^ (E + 1074)) top.

(** The order embedding of the binary64 numbers into the integers: the
    value in units of [2^-1074], the infinities just beyond. *)
Definition rank (x : spec_float) : Z :=
  match x with
  | S754_zero _ => 0
  | S754_nan => 0
  | S754_infinity s => if s then - top else top
  | S754_finite s m e =>
      if s then - (Zpos m * 2 ^ (e + 1074)) else Zpos m * 2 ^ (e + 1074)
  end.

(** The record after [j] shifts of [m]: the quotient, the last bit shifted
    out, and whether a bit before it was set. *)
Definition shifted (m j : Z) : shr_record :=
  if Z.eqb j 0 then {| shr_m := m; shr_r := false; shr_s := false |}
  else {| shr_m := m / 2 ^ j;
          shr_r := Z.odd (m / 2 ^ (j - 1));
          shr_s := negb (Z.eqb (m mod 2 ^ (j - 1)) 0) |}.

(** The second half of [binary_round_aux]: the rounded mantissa is brought
    back to 53 bits and the overflow is detected. *)
Definition renormalize (s : bool) (m1 E : Z) : spec_float :=
  let '(mrs, e) := shr_fexp prec emax m1 E loc_Exact in
  match shr_m mrs with
  | Z0 => S754_zero s
  | Zpos m => if Z.leb e (emax - prec) then S754_finite s m e else S754_infinity s
  | Zneg _ => S754_nan
  end.

(** The signed value [z * 2^-1074] rounded to binary64, as a rank. *)
Definition sround (z : Z) : Z :=
  if Z.ltb z 0 then - round (- z * 2 ^ 1074) else round (z * 2 ^ 1074).

(** [x] is a zero or a finite number. *)
Definition finite (x : spec_float) : Prop :=
  match x with
  | S754_zero _ | S754_finite _ _ _ => True
  | _ => False
  end.

(** The signed value [z * c * 2^-2148] rounded to binary64, as a rank:
    the product of a number of rank [z] and a positive one of rank [c]. *)
Definition mround (c z : Z) : Z :=
  if Z.ltb z 0 then - round (- z * c) else round (z * c).

(** The rank of a primitive float. *)
Definition frank (x : float) : Z := rank (Prim2SF x).

(** [x] is not a NaN. *)
Definition not_nan (x : float) : Prop := Prim2SF x <> S754_nan.

(** [f] keeps the order [<=] of binary64, the one Python's [<=] on floats
    decides. *)
Definition monotone (f : float -> float) : Prop :=
  forall x y, PrimFloat.leb x y = true -> PrimFloat.leb (f x) (f y) = true.

(** [f] maps numbers to numbers and acts on ranks as [G] does. *)
Definition ranked (f : float -> float) (G : Z -> Z) : Prop :=
  forall x, not_nan x -> not_nan (f x) /\ frank (f x) = G (frank x).

(** [g] between the infinities, which stay where they are. *)
Definition ext (g : Z -> Z) (z : Z) : Z :=
  if Z.leb top z then top else if Z.leb z (- top) then - top else g z.

(** [x] is finite and not a zero; [x] is so and positive. *)
Definition is_finite (x : float) : bool :=
  match Prim2SF x with S754_finite _ _ _ => true | _ => false end.

Definition is_positive (x : float) : bool :=
  match Prim2SF x with S754_finite false _ _ => true | _ => false end.

End Binary64.

(** ** Python values

    The values [json] decoding produces, with the Python operations the
    client applies to them and the exceptions those operations raise. *)

Inductive exn :=
| KeyError | TypeError | AttributeError | OverflowError
| HTTPError | RequestException | JSONDecodeError.

Inductive outcome (A : Type) :=
| Ret (a : A)
| Raise (e : exn).
Arguments Ret {A} a.
Arguments Raise {A} e.

Inductive pyval :=
| PNone
| PBool (b : bool)
| PInt (z : Z)
| PFloat (f : float)
| PStr (s : string)
| PList (items : list pyval)
| PDict (fields : list (string * pyval)).

(** A Python number: what the metering expressions of [get_device_data]
    evaluate to, a quotient (a [float]) or the default [0] (an [int]). *)
Inductive number :=
| IntNum (z : Z)
| FloatNum (f : float).

Module Py.

(** [bool(v)]. *)
Definition truthy (v : pyval) : bool :=
  match v with
  | PNone => false
  | PBool b => b
  | PInt z => negb (Z.eqb z 0)
  | PFloat f => negb (PrimFloat.eqb f 0%float)
  | PStr s => negb (String.eqb s "")
  | PList items => match items with [] => false | _ => true end
  | PDict fields => match fields with [] => false | _ => true end
  end.

(** Dictionary lookup; a decoded object holds each key once. *)
Fixpoint assoc (k : string) (fields : list (string * pyval)) : option pyval :=
  match fields with
  | [] => None
  | (k', v) :: rest => if String.eqb k k' then Some v else assoc k rest
  end.

(** [v == s] for a string literal [s]. *)
Definition eq_str (v : pyval) (s : string) : bool :=
  match v with
  | PStr s' => String.eqb s' s
  | _ => false
  end.

(** [k in v] for a string literal [k]. *)
Definition contains (k : string) (v : pyval) : outcome bool :=
  match v with
  | PDict fields => Ret (match assoc k fields with Some _ => true | None => false end)
  | PList items => Ret (existsb (fun x => eq_str x k) items)
  | PStr s => Ret (PyStr.contains k s)
  | _ => Raise TypeError
  end.

(** [v[k]] for a string literal [k]. *)
Definition getitem (v : pyval) (k : string) : outcome pyval :=
  match v with
  | PDict fields =>
      match assoc k fields with
      | Some x => Ret x
      | None => Raise KeyError
      end
  | _ => Raise TypeError
  end.

(** [v.get(k, default)]: only a dict has the method. *)
Definition get (v : pyval) (k : string) (default : pyval) : outcome pyval :=
  match v with
  | PDict fields =>
      Ret (match assoc k fields with Some x => x | None => default end)
  | _ => Raise AttributeError
  end.

Fixpoint chars (s : string) : list pyval :=
  match s with
  | EmptyString => []
  | String c s' => PStr (String c EmptyString) :: chars s'
  end.

(** [iter(v)]: the elements of a list, the keys of a dict, the characters
    of a string. *)
Definition iter (v : pyval) : outcome (list pyval) :=
  match v with
  | PList items => Ret items
  | PDict fields => Ret (map (fun kv => PStr (fst kv)) fields)
  | PStr s => Ret (chars s)
  | _ => Raise TypeError
  end.

(** [n / d] on ints: the correctly rounded quotient, [OverflowError] when
    it does not fit a float. *)
Definition int_truediv (n : Z) (d : positive) : outcome number :=
  let quotient (s : bool) (p : positive) :=
    match SFdiv prec emax (S754_finite s p 0) (S754_finite false d 0) with
    | S754_infinity _ => Raise OverflowError
    | q => Ret (FloatNum (SF2Prim q))
    end in
  match n with
  | Z0 => Ret (FloatNum 0%float)
  | Zpos p => quotient false p
  | Zneg p => quotient true p
  end.

Definition float_of_pos (d : positive) : float :=
  SF2Prim (binary_normalize prec emax (Zpos d) 0 false).

(** [v / d] for a positive int literal [d]. *)
Definition truediv (v : pyval) (d : positive) : outcome number :=
  match v with
  | PFloat f => Ret (FloatNum (PrimFloat.div f (float_of_pos d)))
  | PInt z => int_truediv z d
  | PBool b => int_truediv (if b then 1 else 0) d
  | _ => Raise TypeError
  end.

End Py.

(** ** The persistent store ([init_db]) *)

Record device_row := {
  d_id : Z;
  d_device_id : string;
  d_device_name : string;
  d_access_id : string;
  d_access_secret : string;
  d_created_at : Z }.

Record reading_row := {
  r_id : Z;
  r_device_id : string;
  r_ts : Z;
  r_voltage : option float;
  r_current : option float;
  r_power : option float }.

Record schedule_row := {
  s_id : Z;
  s_device_id : string;
  s_schedule_name : string;
  s_start_time : string;
  s_end_time : string;
  s_days : string;
  s_enabled : Z;
  s_created_at : Z }.

(** The three tables in row order, and the [AUTOINCREMENT] counter of
    [readings].  A [REAL] column holds a float or, as [None], NULL.  Foreign keys are declared but SQLite does not enforce them
    unless asked to, and [app.py] never asks. *)
Record database := {
  devices : list device_row;
  readings : list reading_row;
  readings_seq : Z;
  schedules : list schedule_row }.

(** An int that SQLite can hold: binding one outside 64 bits raises
    [OverflowError]. *)
Definition sqlite_int (z : Z) : bool := Z.leb (- 2 ^ 63) z && Z.ltb z (2 ^ 63).

Module Db.

(** What a [REAL] column gives back of the float [f] stored in it: NULL of
    a NaN, 0.0 of a zero of either sign (a float that is a small integer is
    kept as that integer), the float itself otherwise. *)
Definition real_cell (f : float) : option float :=
  if PrimFloat.is_nan f then None
  else if PrimFloat.eqb f 0 then Some 0%float
  else Some f.

(** A Python number bound to a parameter that goes into a [REAL] column:
    an int is stored as the nearest float, a float as [real_cell] has it. *)
Definition bind_real (v : number) : outcome (option float) :=
  match v with
  | IntNum z =>
      if sqlite_int z
      then Ret (Some (SF2Prim (binary_normalize prec emax z 0 false)))
      else Raise OverflowError
  | FloatNum f => Ret (real_cell f)
  end.

(** [SELECT 1 FROM devices WHERE device_id = ?] has a row. *)
Definition device_exists (device_id : string) (d : database) : bool :=
  existsb (fun dv => String.eqb (d_device_id dv) device_id) (devices d).

(** The row [UNIQUE(device_id, ts)] would collide with. *)
Definition same_key (device_id : string) (ts : Z) (r : reading_row) : bool :=
  String.eqb (r_device_id r) device_id && Z.eqb (r_ts r) ts.

(** [INSERT OR IGNORE INTO readings (device_id, ts, voltage, current,
    power) VALUES (?,?,?,?,?)], the values being bound.  The rowid is
    taken from the [AUTOINCREMENT] counter before [UNIQUE(device_id, ts)] is
    checked, so an ignored insert uses one up as well. *)
Definition insert_or_ignore_reading
    (device_id : string) (ts : Z) (voltage current power : option float)
    (d : database) : database :=
  let id := readings_seq d + 1 in
  {| devices := devices d;
     readings :=
       if existsb (same_key device_id ts) (readings d) then readings d
       else readings d ++
         [{| r_id := id; r_device_id := device_id; r_ts := ts;
             r_voltage := voltage; r_current := current; r_power := power |}];
     readings_seq := id;
     schedules := schedules d |}.

(** [DELETE FROM readings WHERE device_id = ?]. *)
Definition delete_readings (device_id : string) (d : database) : database :=
  {| devices := devices d;
     readings :=
       List.filter (fun r => negb (String.eqb (r_device_id r) device_id)) (readings d);
     readings_seq := readings_seq d;
     schedules := schedules d |}.

(** [DELETE FROM devices WHERE device_id = ?]. *)
Definition delete_device_row (device_id : string) (d : database) : database :=
  {| devices :=
       List.filter (fun dv => negb (String.eqb (d_device_id dv) device_id)) (devices d);
     readings := readings d;
     readings_seq := readings_seq d;
     schedules := schedules d |}.

(** [SELECT device_id, access_id, access_secret FROM devices]. *)
Definition list_devices (d : database) : list (string * string * string) :=
  map (fun dv => (d_device_id dv, d_access_id dv, d_access_secret dv)) (devices d).

(** [SELECT ... FROM schedules s JOIN devices d ON s.device_id =
    d.device_id WHERE s.enabled = 1]. *)
Definition enabled_schedules (d : database) : list (schedule_row * device_row) :=
  flat_map
    (fun s =>
       if Z.eqb (s_enabled s) 1 then
         map (fun dv => (s, dv))
           (List.filter (fun dv => String.eqb (s_device_id s) (d_device_id dv))
              (devices d))
       else [])
    (schedules d).

(** The readings of one device, in row order. *)
Definition readings_of (device_id : string) (d : database) : list reading_row :=
  List.filter (fun r => String.eqb (r_device_id r) device_id) (readings d).

End Db.

(** ** The outside world and the monad *)

Inductive http_method := GET | POST.

(** What a request carries, as far as the cloud can tell requests apart: the
    [client_id] and [access_token] headers, the path and the JSON body.  The
    [sign] and [t] headers (an HMAC of these and of the clock) are not
    modelled. *)
Record request := {
  req_method : http_method;
  req_path : string;
  req_client_id : string;
  req_access_token : option string;
  req_body : option pyval }.

(** What [requests.get]/[requests.post] comes back with: no reply at all
    (connection error, timeout: the call raises), or a status code and a
    body that is JSON ([Some]) or not ([None]). *)
Inductive reply :=
| NoReply
| Response (status_code : Z) (body : option pyval).

Inductive weekday :=
| Monday | Tuesday | Wednesday | Thursday | Friday | Saturday | Sunday.

(** The part of [datetime.now()] the program reads. *)
Record datetime := {
  dt_weekday : weekday;
  dt_hour : nat;
  dt_minute : nat }.

(** The environment: the answer to the [n]-th interaction of the process
    with the outside, be it an HTTP request or a look at the clock. *)
Record cloud := {
  respond : nat -> request -> reply;
  datetime_now : nat -> datetime;
  time_time : nat -> Z }.

(** The process and its store: the number of interactions so far, the
    requests sent (oldest first), the global [schedule_execution_tracker]
    and the database. *)
Record world := {
  ticks : nat;
  sent : list request;
  schedule_execution_tracker : gmap string string;
  db : database }.

Definition M (A : Type) : Type := world -> outcome A * world.

Definition ret {A} (a : A) : M A := fun w => (Ret a, w).

Definition raise {A} (e : exn) : M A := fun w => (Raise e, w).

Definition bind {A B} (m : M A) (k : A -> M B) : M B :=
  fun w =>
    match m w with
    | (Ret a, w') => k a w'
    | (Raise e, w') => (Raise e, w')
    end.

(** [try: body except Exception: handler]; what [body] did to the world
    before it raised stays done. *)
Definition try_except {A} (body : M A) (handler : exn -> M A) : M A :=
  fun w =>
    match body w with
    | (Ret a, w') => (Ret a, w')
    | (Raise e, w') => handler e w'
    end.

Definition lift {A} (o : outcome A) : M A := fun w => (o, w).

Declare Scope py_scope.
Delimit Scope py_scope with py.
Notation "'let*' x ':=' m 'in' k" := (bind m (fun x => k))
  (at level 10, x name, m at level 100, k at level 200) : py_scope.
Notation "m '>>' k" := (bind m (fun _ => k))
  (at level 100, k at level 200, right associativity) : py_scope.
Local Open Scope py_scope.

Definition exec {A} (m : M A) (w : world) : world := snd (m w).
Definition result {A} (m : M A) (w : world) : outcome A := fst (m w).

(** [for x in xs: body x], where [body] returns nothing. *)
Fixpoint for_each {A} (xs : list A) (body : A -> M unit) : M unit :=
  match xs with
  | [] => ret tt
  | x :: rest => body x >> for_each rest body
  end.

Definition with_tracker (t : gmap string string) (w : world) : world :=
  {| ticks := ticks w; sent := sent w;
     schedule_execution_tracker := t; db := db w |}.

Definition with_db (d : database) (w : world) : world :=
  {| ticks := ticks w; sent := sent w;
     schedule_execution_tracker := schedule_execution_tracker w; db := d |}.

(** The world after one more interaction: a request sent, or a look at the
    clock. *)
Definition record_request (r : request) (w : world) : world :=
  {| ticks := S (ticks w); sent := sent w ++ [r];
     schedule_execution_tracker := schedule_execution_tracker w; db := db w |}.

Definition tick (w : world) : world :=
  {| ticks := S (ticks w); sent := sent w;
     schedule_execution_tracker := schedule_execution_tracker w; db := db w |}.

Definition get_db : M database := fun w => (Ret (db w), w).
Definition modify_db (f : database -> database) : M unit :=
  fun w => (Ret tt, with_db (f (db w)) w).
Definition get_tracker : M (gmap string string) :=
  fun w => (Ret (schedule_execution_tracker w), w).
(** [schedule_execution_tracker[key] = value]. *)
Definition tracker_set (key value : string) : M unit :=
  fun w => (Ret tt, with_tracker (<[key := value]> (schedule_execution_tracker w)) w).

Section Client.

Variable C : cloud.

(** [requests.get(...)] and [requests.post(...)]: the request goes out,
    the oracle answers; no answer is an exception. *)
Definition requests_send (r : request) : M (Z * option pyval) :=
  fun w =>
    match respond C (ticks w) r with
    | NoReply => (Raise RequestException, record_request r w)
    | Response status_code body => (Ret (status_code, body), record_request r w)
    end.

(** [r.raise_for_status()]: 4xx and 5xx raise. *)
Definition raise_for_status (r : Z * option pyval) : M unit :=
  if Z.leb 400 (fst r) && Z.ltb (fst r) 600 then raise HTTPError else ret tt.

(** [r.json()]. *)
Definition json (r : Z * option pyval) : M pyval :=
  match snd r with
  | Some v => ret v
  | None => raise JSONDecodeError
  end.

(** [datetime.now()] and [int(time.time())]. *)
Definition now : M datetime :=
  fun w => (Ret (datetime_now C (ticks w)), tick w).
Definition unix_time : M Z :=
  fun w => (Ret (time_time C (ticks w)), tick w).

(** [sign(method, path, access_id, access_secret, body, token)] builds
    [access_id + (token or '') + t + ...]: a [TypeError] unless
    [token or ''] is a string.  On success it yields the token string that
    goes into the [access_token] header. *)
Definition sign (token : pyval) : M string :=
  if Py.truthy token then
    match token with
    | PStr s => ret s
    | _ => raise TypeError
    end
  else ret EmptyString.

Definition token_request (access_id : string) : request :=
  {| req_method := GET; req_path := "/v1.0/token?grant_type=1";
     req_client_id := access_id; req_access_token := None;
     req_body := None |}.

Definition get_token (access_id access_secret : string) : M pyval :=
  try_except
    (sign (PStr EmptyString) >>
     let* r := requests_send (token_request access_id) in
     raise_for_status r >>
     let* result := json r in
     let* has_result := lift (Py.contains "result" result) in
     let* has_token :=
       if has_result then
         let* inner := lift (Py.getitem result "result") in
         lift (Py.contains "access_token" inner)
       else ret false in
     if has_token then
       let* inner := lift (Py.getitem result "result") in
       lift (Py.getitem inner "access_token")
     else ret PNone)
    (fun _ => ret PNone).

Definition get_device_info (device_id access_id access_secret : string) : M pyval :=
  try_except
    (let* token := get_token access_id access_secret in
     if negb (Py.truthy token) then ret PNone
     else
       let* tok := sign token in
       let* r := requests_send
                   {| req_method := GET; req_path := "/v1.0/devices/" ++ device_id;
                      req_client_id := access_id; req_access_token := Some tok;
                      req_body := None |} in
       raise_for_status r >>
       let* result := json r in
       let* has_result := lift (Py.contains "result" result) in
       if has_result then lift (Py.getitem result "result") else ret PNone)
    (fun _ => ret PNone).

(** [next((f(d['value']) for d in data if d['code'] == code), default)]. *)
Fixpoint next_value {A} (items : list pyval) (code : string)
    (f : pyval -> outcome A) (default : A) : outcome A :=
  match items with
  | [] => Ret default
  | d :: rest =>
      match Py.getitem d "code" with
      | Raise e => Raise e
      | Ret c =>
          if Py.eq_str c code then
            match Py.getitem d "value" with
            | Raise e => Raise e
            | Ret v => f v
            end
          else next_value rest code f default
      end
  end.

Definition next_in {A} (data : pyval) (code : string)
    (f : pyval -> outcome A) (default : A) : M A :=
  let* items := lift (Py.iter data) in
  lift (next_value items code f default).

(** The tuple [(voltage, current, power, switch, is_online)]. *)
Record telemetry := {
  t_voltage : number;
  t_current : number;
  t_power : number;
  t_switch : pyval;
  t_is_online : pyval }.

(** [0, 0, 0, False, False]. *)
Definition zeroed : telemetry :=
  {| t_voltage := IntNum 0; t_current := IntNum 0; t_power := IntNum 0;
     t_switch := PBool false; t_is_online := PBool false |}.

Definition get_device_data (device_id access_id access_secret : string) : M telemetry :=
  let* device_info := get_device_info device_id access_id access_secret in
  if negb (Py.truthy device_info) then ret zeroed
  else
    let* is_online := lift (Py.get device_info "online" (PBool false)) in
    if negb (Py.truthy is_online) then ret zeroed
    else
      try_except
        (let* token := get_token access_id access_secret in
         if negb (Py.truthy token) then ret zeroed
         else
           let* tok := sign token in
           let* r := requests_send
                       {| req_method := GET;
                          req_path := "/v1.0/devices/" ++ device_id ++ "/status";
                          req_client_id := access_id; req_access_token := Some tok;
                          req_body := None |} in
           raise_for_status r >>
           let* response_data := json r in
           let* has_result := lift (Py.contains "result" response_data) in
           if negb has_result then ret zeroed
           else
             let* data := lift (Py.getitem response_data "result") in
             let* switch := next_in data "switch_1" Ret (PBool false) in
             let* voltage :=
               next_in data "cur_voltage" (fun v => Py.truediv v 10) (IntNum 0) in
             let* current :=
               next_in data "cur_current" (fun v => Py.truediv v 1000) (IntNum 0) in
             let* power :=
               next_in data "cur_power" (fun v => Py.truediv v 10) (IntNum 0) in
             ret {| t_voltage := voltage; t_current := current; t_power := power;
                    t_switch := switch; t_is_online := is_online |})
        (fun _ => ret zeroed).

End Client.

(** ** The clock as the evaluator reads it *)

(** [now.strftime('%A')] in the C locale. *)
Definition strftime_A (d : weekday) : string :=
  match d with
  | Monday => "Monday" | Tuesday => "Tuesday" | Wednesday => "Wednesday"
  | Thursday => "Thursday" | Friday => "Friday" | Saturday => "Saturday"
  | Sunday => "Sunday"
  end.

Definition two_digits (n : nat) : string :=
  String (ascii_of_nat (48 + Nat.div n 10))
    (String (ascii_of_nat (48 + Nat.modulo n 10)) EmptyString).

(** [now.strftime('%H:%M')]. *)
Definition strftime_HM (t : datetime) : string :=
  two_digits (dt_hour t) ++ ":" ++ two_digits (dt_minute t).

(** ** Schedule evaluator, collector pass and device deletion *)

Section Core.

Variable C : cloud.

(** [json.dumps({"commands": [{"code": "switch_1", "value": value}]})],
    kept as the value it serialises. *)
Definition switch_command (value : bool) : pyval :=
  PDict [("commands",
          PList [PDict [("code", PStr "switch_1"); ("value", PBool value)]])].

Definition command_request (device_id access_id tok : string) (value : bool) : request :=
  {| req_method := POST;
     req_path := "/v1.0/devices/" ++ device_id ++ "/commands";
     req_client_id := access_id; req_access_token := Some tok;
     req_body := Some (switch_command value) |}.

(** The [try] block of a transition: the ON block of the source with
    [value = True] and [tracker_key_on], the OFF block with
    [value = False] and [tracker_key_off]; the two are otherwise the same
    text. *)
Definition execute_transition (device_id access_id access_secret : string)
    (value : bool) (tracker_key current_time : string) : M unit :=
  try_except
    (let* token := get_token C access_id access_secret in
     if Py.truthy token then
       let* tok := sign token in
       let* response := requests_send C (command_request device_id access_id tok value) in
       if Z.eqb (fst response) 200 then tracker_set tracker_key current_time
       else ret tt
     else ret tt)
    (fun _ => ret tt).

(** [tracker_key in schedule_execution_tracker and
    schedule_execution_tracker[tracker_key] == current_time]. *)
Definition already_executed (tracker_key current_time : string) : M bool :=
  let* tracker := get_tracker in
  ret (match tracker !! tracker_key with
       | Some last_exec => String.eqb last_exec current_time
       | None => false
       end).

Definition tracker_key_on (schedule_id : Z) (current_day : string) : string :=
  pretty schedule_id ++ "_ON_" ++ current_day.
Definition tracker_key_off (schedule_id : Z) (current_day : string) : string :=
  pretty schedule_id ++ "_OFF_" ++ current_day.

Definition schedule_days (days : string) : list string :=
  map (fun day => PyStr.lower (PyStr.strip day)) (PyStr.split "," days).

(** The body of the [for ... in schedules] loop. *)
Definition evaluate_schedule (current_time current_day : string)
    (row : schedule_row * device_row) : M unit :=
  let s := fst row in
  let d := snd row in
  if negb (PyStr.mem current_day (schedule_days (s_days s))) then ret tt
  else if String.eqb current_time (s_start_time s) then
    let* skip := already_executed (tracker_key_on (s_id s) current_day) current_time in
    if skip then ret tt
    else execute_transition (s_device_id s) (d_access_id d) (d_access_secret d)
           true (tracker_key_on (s_id s) current_day) current_time
  else if String.eqb current_time (s_end_time s) then
    let* skip := already_executed (tracker_key_off (s_id s) current_day) current_time in
    if skip then ret tt
    else execute_transition (s_device_id s) (d_access_id d) (d_access_secret d)
           false (tracker_key_off (s_id s) current_day) current_time
  else ret tt.

Definition check_and_execute_schedules : M unit :=
  try_except
    (let* t := now C in
     let current_time := strftime_HM t in
     let current_day := PyStr.lower (strftime_A (dt_weekday t)) in
     let* d := get_db in
     match Db.enabled_schedules d with
     | [] => ret tt
     | schedules => for_each schedules (evaluate_schedule current_time current_day)
     end)
    (fun _ => ret tt).

(** The body of the [for ... in devices] loop of the collector. *)
Definition collect_device (dev : string * string * string) : M unit :=
  let device_id := fst (fst dev) in
  let access_id := snd (fst dev) in
  let access_secret := snd dev in
  try_except
    (let* d := get_db in
     if negb (Db.device_exists device_id d) then ret tt
     else
       let* t := get_device_data C device_id access_id access_secret in
       if Py.truthy (t_is_online t) then
         let* ts := unix_time C in
         let* d' := get_db in
         if Db.device_exists device_id d' then
           let* voltage := lift (Db.bind_real (t_voltage t)) in
           let* current := lift (Db.bind_real (t_current t)) in
           let* power := lift (Db.bind_real (t_power t)) in
           modify_db (Db.insert_or_ignore_reading device_id ts voltage current power)
         else ret tt
       else ret tt)
    (fun _ => ret tt).

(** One pass of the [while True] loop of [collect_data_periodically]:
    takes the latch [last_schedule_check_minute] and returns its new
    value.  The sleep between passes is not modelled. *)
Definition collect_data_pass (last_schedule_check_minute : Z) : M Z :=
  try_except
    (let* t := now C in
     let current_minute := Z.of_nat (dt_minute t) in
     let* latch :=
       if negb (Z.eqb current_minute last_schedule_check_minute)
       then check_and_execute_schedules >> ret current_minute
       else ret last_schedule_check_minute in
     let* d := get_db in
     for_each (Db.list_devices d) collect_device >> ret latch)
    (fun _ => ret last_schedule_check_minute).

(** The route [DELETE /api/devices/<device_id>]; the result is the HTTP
    status it answers with. *)
Definition delete_device (device_id : string) : M Z :=
  try_except
    (let* d := get_db in
     if negb (Db.device_exists device_id d) then ret 404
     else
       modify_db (Db.delete_readings device_id) >>
       modify_db (Db.delete_device_row device_id) >>
       ret 200)
    (fun _ => ret 500).

End Core.

(** ** Simulation harness *)

(** The cloud [C] with the clock stopped at [t]. *)
Definition at_time (C : cloud) (t : datetime) : cloud :=
  {| respond := respond C; datetime_now := fun _ => t; time_time := time_time C |}.

(** The minutes [from], [from + 1], ... ([count] of them) of a day, as
    (hour, minute). *)
Fixpoint minutes_from (from count : nat) : list (nat * nat) :=
  match count with
  | O => []
  | S k => (Nat.div from 60, Nat.modulo from 60) :: minutes_from (S from) k
  end.

Definition whole_day : list (nat * nat) := minutes_from 0 1440.

(** The simulated clock at minute [(h, m)] of day [day]. *)
Definition clock_at (day : weekday) (hm : nat * nat) : datetime :=
  {| dt_weekday := day; dt_hour := fst hm; dt_minute := snd hm |}.

(** One evaluation at the simulated minute. *)
Definition evaluate_at (C : cloud) (day : weekday) (hm : nat * nat) (w : world) : world :=
  exec (check_and_execute_schedules (at_time C (clock_at day hm))) w.

(** One evaluation per listed minute of day [day]. *)
Fixpoint run_minutes (C : cloud) (day : weekday) (ms : list (nat * nat))
    (w : world) : world :=
  match ms with
  | [] => w
  | hm :: rest => run_minutes C day rest (evaluate_at C day hm w)
  end.

(** Whole days, one after the other. *)
Fixpoint run_days (C : cloud) (days : list weekday) (w : world) : world :=
  match days with
  | [] => w
  | day :: rest => run_days C rest (run_minutes C day whole_day w)
  end.

(** The switch commands among the requests of a log, as [true] for ON and
    [false] for OFF. *)
Definition command_of (r : request) : option bool :=
  match req_method r, req_body r with
  | POST, Some (PDict [(_, PList [PDict [_; (_, PBool v)]])]) => Some v
  | _, _ => None
  end.

Definition commands (log : list request) : list bool :=
  omap command_of log.

(** A cloud that grants every token request and accepts every command. *)
Definition granted : reply :=
  Response 200 (Some (PDict [("result", PDict [("access_token", PStr "tok")])])).

Definition obliging : cloud :=
  {| respond := fun _ r =>
       match req_method r with
       | GET => granted
       | POST => Response 200 (Some (PDict [("success", PBool true)]))
       end;
     datetime_now := fun _ =>
       {| dt_weekday := Monday; dt_hour := 0; dt_minute := 0 |};
     time_time := fun _ => 0 |}.

(** ** Notions the statements use *)

(** The [readings] table holds each (device_id, ts) pair at most once. *)
Definition unique_keys (d : database) : Prop :=
  NoDup (map (fun r => (r_device_id r, r_ts r)) (readings d)).

(** What [get_token] makes of the reply to its request: the value under
    [result.access_token], or [None] for every reply that lacks it. *)
Definition token_of_reply (rp : reply) : pyval :=
  match rp with
  | Response status_code (Some (PDict fields)) =>
      if Z.leb 400 status_code && Z.ltb status_code 600 then PNone
      else match Py.assoc "result" fields with
           | Some (PDict inner) =>
               match Py.assoc "access_token" inner with
               | Some token => token
               | None => PNone
               end
           | _ => PNone
           end
  | _ => PNone
  end.

(** Every token request is granted a non-empty token string and every
    command is answered with status 200. *)
Definition succeeding (C : cloud) : Prop :=
  (forall n access_id, exists tok,
      token_of_reply (respond C n (token_request access_id)) = PStr tok /\
      tok <> EmptyString) /\
  (forall n r, req_method r = POST -> exists body, respond C n r = Response 200 body).

(** The ways the transport of a command can fail when the world is [w]: no
    token, a token that is not a string (so that [sign] raises), no reply to
    the command, or a reply whose status is not 200. *)
Inductive transport_failure (C : cloud) (w : world)
    (device_id access_id : string) (value : bool) : Prop :=
| token_unobtainable :
    Py.truthy (token_of_reply (respond C (ticks w) (token_request access_id))) = false ->
    transport_failure C w device_id access_id value
| token_unusable :
    Py.truthy (token_of_reply (respond C (ticks w) (token_request access_id))) = true ->
    (forall tok, token_of_reply (respond C (ticks w) (token_request access_id)) <> PStr tok) ->
    transport_failure C w device_id access_id value
| request_raised tok :
    token_of_reply (respond C (ticks w) (token_request access_id)) = PStr tok ->
    tok <> EmptyString ->
    respond C (S (ticks w)) (command_request device_id access_id tok value) = NoReply ->
    transport_failure C w device_id access_id value
| status_not_200 tok status_code body :
    token_of_reply (respond C (ticks w) (token_request access_id)) = PStr tok ->
    tok <> EmptyString ->
    respond C (S (ticks w)) (command_request device_id access_id tok value)
      = Response status_code body ->
    status_code <> 200 ->
    transport_failure C w device_id access_id value.

(** The commands issued between world [w] and a later world [w']. *)
Definition issued (w w' : world) : list bool :=
  commands (drop (length (sent w)) (sent w')).

(** The tracker key of the transition that [evaluate_schedule] takes up
    for [row] at [current_time] on [current_day], if it takes one up. *)
Definition triggered_key (current_time current_day : string)
    (row : schedule_row * device_row) : option string :=
  let s := fst row in
  if negb (PyStr.mem current_day (schedule_days (s_days s))) then None
  else if String.eqb current_time (s_start_time s)
       then Some (tracker_key_on (s_id s) current_day)
  else if String.eqb current_time (s_end_time s)
       then Some (tracker_key_off (s_id s) current_day)
  else None.

(** [true]: the transition taken up is the ON one. *)
Definition triggered_value (current_time : string)
    (row : schedule_row * device_row) : bool :=
  String.eqb current_time (s_start_time (fst row)).

Definition current_time_of (t : datetime) : string := strftime_HM t.
Definition current_day_of (t : datetime) : string :=
  PyStr.lower (strftime_A (dt_weekday t)).

(** A computation that leaves the database alone, whatever it returns. *)
Definition preserves_db {A} (m : M A) : Prop :=
  forall w, db (exec m w) = db w.

(** The run of [run_minutes] with, for each minute, the commands issued
    during its evaluation. *)
Fixpoint trace_minutes (C : cloud) (day : weekday) (ms : list (nat * nat))
    (w : world) : list (nat * nat * list bool) :=
  match ms with
  | [] => []
  | hm :: rest =>
      let w' := evaluate_at C day hm w in
      (hm, issued w w') :: trace_minutes C day rest w'
  end.

(** The minutes of a trace in which some command was issued. *)
Definition firings (tr : list (nat * nat * list bool)) : list (nat * nat * list bool) :=
  List.filter (fun x => match snd x with [] => false | _ => true end) tr.

(** Neither trigger time of the schedule falls on minute [hm]. *)
Definition quiet_at (start_time end_time : string) (hm : nat * nat) : bool :=
  negb (String.eqb (current_time_of (clock_at Monday hm)) start_time)
  && negb (String.eqb (current_time_of (clock_at Monday hm)) end_time).

(** ** Fixtures: a device with one Monday schedule, in a fresh process *)

Definition plug : device_row :=
  {| d_id := 1; d_device_id := "plug-1"; d_device_name := "Plug";
     d_access_id := "access-id"; d_access_secret := "access-secret";
     d_created_at := 0 |}.

Definition office_hours : schedule_row :=
  {| s_id := 1; s_device_id := "plug-1"; s_schedule_name := "Office hours";
     s_start_time := "08:00"; s_end_time := "18:00"; s_days := "monday";
     s_enabled := 1; s_created_at := 0 |}.

Definition fresh (d : database) : world :=
  {| ticks := 0; sent := []; schedule_execution_tracker := ∅; db := d |}.

Definition office : world :=
  fresh {| devices := [plug]; readings := []; readings_seq := 0;
           schedules := [office_hours] |}.

(** A schedule whose start and end fall on the same minute, and one that
    spans midnight. *)
Definition same_minute : schedule_row :=
  {| s_id := 2; s_device_id := "plug-1"; s_schedule_name := "Blink";
     s_start_time := "08:00"; s_end_time := "08:00"; s_days := "monday";
     s_enabled := 1; s_created_at := 0 |}.

Definition blink : world :=
  fresh {| devices := [plug]; readings := []; readings_seq := 0;
           schedules := [same_minute] |}.

Definition overnight : schedule_row :=
  {| s_id := 3; s_device_id := "plug-1"; s_schedule_name := "Night light";
     s_start_time := "22:00"; s_end_time := "06:00"; s_days := "monday";
     s_enabled := 1; s_created_at := 0 |}.

Definition night : world :=
  fresh {| devices := [plug]; readings := []; readings_seq := 0;
           schedules := [overnight] |}.

(** The seven days of a week, from Monday. *)
Definition week : list weekday :=
  [Monday; Tuesday; Wednesday; Thursday; Friday; Saturday; Sunday].

(** A cloud that never answers. *)
Definition unreachable : cloud :=
  {| respond := fun _ _ => NoReply;
     datetime_now := fun _ =>
       {| dt_weekday := Monday; dt_hour := 8; dt_minute := 0 |};
     time_time := fun _ => 0 |}.

(** A cloud that grants tokens and answers the metadata request with a
    [result] that is a string instead of an object. *)
Definition odd_metadata : cloud :=
  {| respond := fun _ r =>
       if String.eqb (req_path r) "/v1.0/token?grant_type=1" then granted
       else Response 200 (Some (PDict [("result", PStr "maintenance")]));
     datetime_now := fun _ =>
       {| dt_weekday := Monday; dt_hour := 8; dt_minute := 0 |};
     time_time := fun _ => 0 |}.

(** A cloud that grants tokens and reports every device offline. *)
Definition all_offline : cloud :=
  {| respond := fun _ r =>
       if String.eqb (req_path r) "/v1.0/token?grant_type=1" then granted
       else Response 200 (Some (PDict [("result", PDict [("online", PBool false)])]));
     datetime_now := fun _ =>
       {| dt_weekday := Monday; dt_hour := 8; dt_minute := 0 |};
     time_time := fun _ => 1700000000 |}.

(** The fetch [get_device_data] makes for [dev] in world [w] comes back
    with a falsy [is_online], or raises. *)
Definition reports_offline (C : cloud) (dev : string * string * string) (w : world) : Prop :=
  match result (get_device_data C (fst (fst dev)) (snd (fst dev)) (snd dev)) w with
  | Ret t => Py.truthy (t_is_online t) = false
  | Raise _ => True
  end.

(** Every fetch that the device loop, started in world [w] over [devs],
    makes for [device_id] reports it offline. *)
Fixpoint fetches_offline (C : cloud) (device_id : string)
    (devs : list (string * string * string)) (w : world) : Prop :=
  match devs with
  | [] => True
  | dev :: rest =>
      (fst (fst dev) = device_id ->
       Db.device_exists device_id (db w) = true ->
       reports_offline C dev w) /\
      fetches_offline C device_id rest (exec (collect_device C dev) w)
  end.

(** The world in which the device loop of a collector pass starts: the
    clock has been read and, when the minute differs from the latch, the
    schedules have been evaluated. *)
Definition loop_start (C : cloud) (last_schedule_check_minute : Z) (w : world) : world :=
  if negb (Z.eqb (Z.of_nat (dt_minute (datetime_now C (ticks w))))
             last_schedule_check_minute)
  then exec (check_and_execute_schedules C) (tick w)
  else tick w.

(** [n] passes of the collector loop, one after the other, from a given
    value of the latch. *)
Fixpoint collect_data_passes (C : cloud) (n : nat) (last_schedule_check_minute : Z) : M Z :=
  match n with
  | O => ret last_schedule_check_minute
  | S k =>
      let* latch := collect_data_pass C last_schedule_check_minute in
      collect_data_passes C k latch
  end.

(** [collect_data_periodically] loops for ever; this is its first [n]
    passes, the latch starting at -1 as in the source. *)
Definition collect_data_periodically (C : cloud) (n : nat) : M Z :=
  collect_data_passes C n (-1).

(** A store with a reading of [plug] already in it. *)
Definition metered : world :=
  fresh {| devices := [plug];
           readings := [{| r_id := 1; r_device_id := "plug-1"; r_ts := 1700000000;
                           r_voltage := Some 220.5%float;
                           r_current := Some 0.5%float;
                           r_power := Some 110%float |}];
           readings_seq := 1;
           schedules := [office_hours] |}.

(** A cloud that grants tokens, reports every device online and answers
    the status request with the four data points of a plug drawing power. *)
Definition healthy : cloud :=
  {| respond := fun _ r =>
       if String.eqb (req_path r) "/v1.0/token?grant_type=1" then granted
       else if String.eqb (req_path r) "/v1.0/devices/plug-1" then
         Response 200 (Some (PDict [("result", PDict [("online", PBool true)])]))
       else
         Response 200
           (Some (PDict [("result",
              PList [PDict [("code", PStr "switch_1"); ("value", PBool true)];
                     PDict [("code", PStr "cur_current"); ("value", PInt 484)];
                     PDict [("code", PStr "cur_power"); ("value", PInt 1067)];
                     PDict [("code", PStr "cur_voltage"); ("value", PInt 2205)]])]));
     datetime_now := fun _ =>
       {| dt_weekday := Monday; dt_hour := 8; dt_minute := 0 |};
     time_time := fun _ => 1700000015 |}.

(** A cloud like [healthy] whose status answer has no data point. *)
Definition bare : cloud :=
  {| respond := fun _ r =>
       if String.eqb (req_path r) "/v1.0/token?grant_type=1" then granted
       else if String.eqb (req_path r) "/v1.0/devices/plug-1" then
         Response 200 (Some (PDict [("result", PDict [("online", PBool true)])]))
       else Response 200 (Some (PDict [("result", PList [])]));
     datetime_now := datetime_now healthy;
     time_time := time_time healthy |}.

(** [cell] is what a [REAL] column holds of the metered value [v]: 0.0 of
    the default [0] and of a zero quotient of either sign, NULL of a NaN,
    the float itself otherwise. *)
Definition held_as (v : number) (cell : option float) : Prop :=
  match v with
  | IntNum z => z = 0 /\ cell = Some 0%float
  | FloatNum f =>
      cell = if PrimFloat.is_nan f then None
             else if PrimFloat.eqb f 0 then Some 0%float
             else Some f
  end.

(** ** The routes around the core

    The request handlers that call the cloud client, the evaluator and the
    store.  A handler's result is the HTTP status it answers with and the
    part of the JSON body the callers read. *)

(** The first row of [SELECT ... FROM devices WHERE device_id = ?]. *)
Definition find_device (device_id : string) (d : database) : option device_row :=
  List.find (fun dv => String.eqb (d_device_id dv) device_id) (devices d).

(** [SELECT ... FROM schedules s JOIN devices d ON s.device_id =
    d.device_id], without the filter on [enabled]. *)
Definition joined_schedules (d : database) : list (schedule_row * device_row) :=
  flat_map
    (fun s =>
       map (fun dv => (s, dv))
         (List.filter (fun dv => String.eqb (s_device_id s) (d_device_id dv))
            (devices d)))
    (schedules d).

(** [len(v)]. *)
Definition py_len (v : pyval) : outcome nat :=
  match v with
  | PList items => Ret (length items)
  | PDict fields => Ret (length fields)
  | PStr s => Ret (String.length s)
  | _ => Raise TypeError
  end.

(** The body of a command whose value is any JSON value. *)
Definition switch_command_of (value : pyval) : pyval :=
  PDict [("commands",
          PList [PDict [("code", PStr "switch_1"); ("value", value)]])].

Inductive switch_response :=
| SwitchSuccess
| SwitchRefused (status : Z) (error : string)
| SwitchError (e : exn).

Inductive live_response :=
| LiveData (t : telemetry)
| LiveNotFound
| LiveError (e : exn).

(** One entry of the [schedules] list that [test_schedules] answers with. *)
Record schedule_report := {
  rep_id : Z;
  rep_device_name : string;
  rep_schedule_name : string;
  rep_start_time : string;
  rep_end_time : string;
  rep_days : string;
  rep_enabled : bool;
  rep_runs_today : bool;
  rep_next_action : string }.

Record schedules_report := {
  rep_current_time : string;
  rep_current_day : string;
  rep_total_schedules : nat;
  rep_enabled_schedules : nat;
  rep_schedules : list schedule_report }.

(** ['ON' if current_time < start else 'OFF' if current_time < end else
    'Done for today'], on strings. *)
Definition next_action (current_time start_time end_time : string) : string :=
  if String.ltb current_time start_time then "ON"
  else if String.ltb current_time end_time then "OFF"
  else "Done for today".

Section Routes.

Variable C : cloud.

(** The body of the [for] loop of [get_all_devices_status]: the entry of
    one device is written into [status_map]. *)
Definition device_status (status_map : gmap string string)
    (dev : string * string * string) : M (gmap string string) :=
  let device_id := fst (fst dev) in
  try_except
    (let* t := get_device_data C device_id (snd (fst dev)) (snd dev) in
     if negb (Py.truthy (t_is_online t)) then ret (<[device_id := "disconnected"]> status_map)
     else if Py.truthy (t_switch t) then ret (<[device_id := "on"]> status_map)
     else ret (<[device_id := "off"]> status_map))
    (fun _ => ret (<[device_id := "disconnected"]> status_map)).

Fixpoint device_statuses (devs : list (string * string * string))
    (status_map : gmap string string) : M (gmap string string) :=
  match devs with
  | [] => ret status_map
  | dev :: rest =>
      let* status_map' := device_status status_map dev in
      device_statuses rest status_map'
  end.

(** The route [GET /api/devices/status]. *)
Definition get_all_devices_status : M (gmap string string) :=
  let* d := get_db in
  device_statuses (Db.list_devices d) ∅.

(** The route [GET /api/device/<device_id>/live]. *)
Definition api_device_live (device_id : string) : M live_response :=
  try_except
    (let* d := get_db in
     match find_device device_id d with
     | None => ret LiveNotFound
     | Some dv =>
         let* t := get_device_data C device_id (d_access_id dv) (d_access_secret dv) in
         ret (LiveData t)
     end)
    (fun e => ret (LiveError e)).

Definition manual_request (device_id access_id tok : string) (on : pyval) : request :=
  {| req_method := POST;
     req_path := "/v1.0/devices/" ++ device_id ++ "/commands";
     req_client_id := access_id; req_access_token := Some tok;
     req_body := Some (switch_command_of on) |}.

(** The inner [try] of [device_switch]: [Some] is the response it returns
    early with, [None] lets the route go on. *)
Definition check_online (device_id access_id access_secret : string)
    : M (option switch_response) :=
  try_except
    (let* device_info := get_device_info C device_id access_id access_secret in
     if negb (Py.truthy device_info)
     then ret (Some (SwitchRefused 400 "Cannot reach device"))
     else
       let* is_online := lift (Py.get device_info "online" (PBool false)) in
       if negb (Py.truthy is_online)
       then ret (Some (SwitchRefused 400 "Device is offline"))
       else ret None)
    (fun _ => ret (Some (SwitchRefused 400 "Cannot reach device"))).

(** The route [POST /api/device/<device_id>/switch]; [request_json] is the
    decoded body of the request. *)
Definition device_switch (request_json : pyval) (device_id : string) : M switch_response :=
  let* on := lift (Py.get request_json "on" (PBool false)) in
  try_except
    (let* d := get_db in
     match find_device device_id d with
     | None => ret (SwitchRefused 404 "Device not found")
     | Some dv =>
         let* early := check_online device_id (d_access_id dv) (d_access_secret dv) in
         match early with
         | Some response => ret response
         | None =>
             let* token := get_token C (d_access_id dv) (d_access_secret dv) in
             if negb (Py.truthy token)
             then ret (SwitchRefused 400 "Authentication failed")
             else
               let* tok := sign token in
               let* r := requests_send C
                           (manual_request device_id (d_access_id dv) tok on) in
               raise_for_status r >> ret SwitchSuccess
         end
     end)
    (fun e => ret (SwitchError e)).

Definition report_of (current_time current_day : string)
    (row : schedule_row * device_row) : schedule_report :=
  let s := fst row in
  {| rep_id := s_id s;
     rep_device_name := d_device_name (snd row);
     rep_schedule_name := s_schedule_name s;
     rep_start_time := s_start_time s;
     rep_end_time := s_end_time s;
     rep_days := s_days s;
     rep_enabled := Z.eqb (s_enabled s) 1;
     rep_runs_today := PyStr.mem current_day (schedule_days (s_days s));
     rep_next_action := next_action current_time (s_start_time s) (s_end_time s) |}.

(** The route [GET /api/schedules/test]: the report, then a manual
    [check_and_execute_schedules].  [None] is the 500 answer. *)
Definition test_schedules : M (option schedules_report) :=
  try_except
    (let* t := now C in
     let* d := get_db in
     let rows := joined_schedules d in
     let current_time := strftime_HM t in
     let current_day := PyStr.lower (strftime_A (dt_weekday t)) in
     let report :=
       {| rep_current_time := current_time;
          rep_current_day := current_day;
          rep_total_schedules := length rows;
          rep_enabled_schedules :=
            length (List.filter (fun row => Z.eqb (s_enabled (fst row)) 1) rows);
          rep_schedules := map (report_of current_time current_day) rows |} in
     check_and_execute_schedules C >> ret (Some report))
    (fun _ => ret None).

End Routes.

(** ** Schedule and device management

    SQLite stores what the handlers bind into [TEXT] columns; two things it
    decides are left as parameters: how a [REAL] reads once it is stored as
    text ([None] when it is stored as NULL, as a NaN is), and which rowid an
    [AUTOINCREMENT] table allots to its next row. *)

(** A Python value bound to a parameter of a statement and stored into a
    [TEXT NOT NULL] column. *)
Inductive bound :=
| BoundNull
| BoundText (s : string)
| Unbindable.

Section Store.

Variable C : cloud.
Variable real_to_text : float -> option string.
Variable schedule_rowid : database -> Z.
Variable device_rowid : database -> Z.

(** Strings are stored as they are, ints (and bools, which are ints) in
    decimal, floats as [real_to_text] has it; an int outside 64 bits, a list
    or a dict cannot be bound. *)
Definition bind_text (v : pyval) : bound :=
  match v with
  | PNone => BoundNull
  | PStr s => BoundText s
  | PBool b => BoundText (if b then "1" else "0")
  | PInt z => if sqlite_int z then BoundText (pretty z) else Unbindable
  | PFloat f =>
      match real_to_text f with
      | Some s => BoundText s
      | None => BoundNull
      end
  | PList _ | PDict _ => Unbindable
  end.

Definition with_schedules (rows : list schedule_row) (d : database) : database :=
  {| devices := devices d; readings := readings d;
     readings_seq := readings_seq d; schedules := rows |}.

Definition with_devices (rows : list device_row) (d : database) : database :=
  {| devices := rows; readings := readings d;
     readings_seq := readings_seq d; schedules := schedules d |}.

(** The route [POST /api/device/<device_id>/schedules]: the status and,
    on success, the id of the new schedule. *)
Definition create_schedule (request_json : pyval) (device_id : string)
    : M (Z * option Z) :=
  try_except
    (let* schedule_name := lift (Py.get request_json "schedule_name" PNone) in
     let* start_time := lift (Py.get request_json "start_time" PNone) in
     let* end_time := lift (Py.get request_json "end_time" PNone) in
     let* days := lift (Py.get request_json "days" PNone) in
     if negb (Py.truthy schedule_name && Py.truthy start_time
              && Py.truthy end_time && Py.truthy days)
     then ret (400, None)
     else
       let* d := get_db in
       if negb (Db.device_exists device_id d) then ret (404, None)
       else
         let* created_at := unix_time C in
         match bind_text schedule_name, bind_text start_time,
               bind_text end_time, bind_text days with
         | BoundText name, BoundText start, BoundText end_, BoundText days' =>
             let id := schedule_rowid d in
             modify_db
               (with_schedules
                  (schedules d ++
                   [{| s_id := id; s_device_id := device_id;
                       s_schedule_name := name; s_start_time := start;
                       s_end_time := end_; s_days := days'; s_enabled := 1;
                       s_created_at := created_at |}])) >>
             ret (200, Some id)
         | _, _, _, _ => ret (500, None)
         end)
    (fun _ => ret (500, None)).

(** [UPDATE schedules SET enabled = ? WHERE id = ?]. *)
Definition set_enabled (schedule_id enabled : Z) (d : database) : database :=
  with_schedules
    (map (fun s =>
            if Z.eqb (s_id s) schedule_id then
              {| s_id := s_id s; s_device_id := s_device_id s;
                 s_schedule_name := s_schedule_name s;
                 s_start_time := s_start_time s; s_end_time := s_end_time s;
                 s_days := s_days s; s_enabled := enabled;
                 s_created_at := s_created_at s |}
            else s)
       (schedules d)) d.

(** [UPDATE schedules SET schedule_name = ?, start_time = ?, end_time = ?,
    days = ? WHERE id = ?]. *)
Definition set_details (schedule_id : Z) (name start end_ days : string)
    (d : database) : database :=
  with_schedules
    (map (fun s =>
            if Z.eqb (s_id s) schedule_id then
              {| s_id := s_id s; s_device_id := s_device_id s;
                 s_schedule_name := name; s_start_time := start;
                 s_end_time := end_; s_days := days; s_enabled := s_enabled s;
                 s_created_at := s_created_at s |}
            else s)
       (schedules d)) d.

Definition schedule_stored (schedule_id : Z) (d : database) : bool :=
  existsb (fun s => Z.eqb (s_id s) schedule_id) (schedules d).

Definition unbindable (b : bound) : bool :=
  match b with Unbindable => true | _ => false end.

(** The route [PUT /api/schedules/<schedule_id>]. *)
Definition update_schedule (request_json : pyval) (schedule_id : Z) : M Z :=
  try_except
    (let* has_enabled := lift (Py.contains "enabled" request_json) in
     let* toggle :=
       if has_enabled then
         let* n := lift (py_len request_json) in ret (Nat.eqb n 1)
       else ret false in
     if toggle then
       let* enabled := lift (Py.getitem request_json "enabled") in
       if negb (sqlite_int schedule_id) then ret 500
       else
         modify_db (set_enabled schedule_id (if Py.truthy enabled then 1 else 0)) >>
         ret 200
     else
       let* schedule_name := lift (Py.getitem request_json "schedule_name") in
       let* start_time := lift (Py.getitem request_json "start_time") in
       let* end_time := lift (Py.getitem request_json "end_time") in
       let* days := lift (Py.getitem request_json "days") in
       let* d := get_db in
       if negb (sqlite_int schedule_id) then ret 500
       else
         match bind_text schedule_name, bind_text start_time,
               bind_text end_time, bind_text days with
         | BoundText name, BoundText start, BoundText end_, BoundText days' =>
             modify_db (set_details schedule_id name start end_ days') >> ret 200
         | b1, b2, b3, b4 =>
             if unbindable b1 || unbindable b2 || unbindable b3 || unbindable b4
             then ret 500
             else if schedule_stored schedule_id d then ret 500
             else ret 200
         end)
    (fun _ => ret 500).

(** The route [DELETE /api/schedules/<schedule_id>]. *)
Definition delete_schedule (schedule_id : Z) : M Z :=
  try_except
    (if negb (sqlite_int schedule_id) then ret 500
     else
       modify_db
         (fun d => with_schedules
                     (List.filter (fun s => negb (Z.eqb (s_id s) schedule_id))
                        (schedules d)) d) >>
       ret 200)
    (fun _ => ret 500).

(** [get_token] called with values that need not be strings: [sign] adds
    [access_id] to a string and encodes [access_secret], both inside the
    [try] of [get_token]. *)
Definition get_token_of (access_id access_secret : pyval) : M pyval :=
  match access_id, access_secret with
  | PStr id, PStr secret => get_token C id secret
  | _, _ => ret PNone
  end.

(** The route [POST /api/devices]. *)
Definition add_device (request_json : pyval) : M Z :=
  let* device_id := lift (Py.get request_json "device_id" PNone) in
  let* device_name := lift (Py.get request_json "device_name" PNone) in
  let* access_id := lift (Py.get request_json "access_id" PNone) in
  let* access_secret := lift (Py.get request_json "access_secret" PNone) in
  if negb (Py.truthy device_id && Py.truthy device_name
           && Py.truthy access_id && Py.truthy access_secret)
  then ret 400
  else
    try_except
      (let* token := get_token_of access_id access_secret in
       if negb (Py.truthy token) then ret 400
       else
         let* created_at := unix_time C in
         let* d := get_db in
         match bind_text device_id, bind_text device_name,
               bind_text access_id, bind_text access_secret with
         | BoundText id, BoundText name, BoundText aid, BoundText secret =>
             if Db.device_exists id d then ret 400
             else
               modify_db
                 (with_devices
                    (devices d ++
                     [{| d_id := device_rowid d; d_device_id := id;
                         d_device_name := name; d_access_id := aid;
                         d_access_secret := secret; d_created_at := created_at |}])) >>
               ret 200
         | b1, b2, b3, b4 =>
             if unbindable b1 || unbindable b2 || unbindable b3 || unbindable b4
             then ret 500
             else ret 400
         end)
      (fun _ => ret 500).

End Store.

(** What the field [k] of a JSON body is stored as. *)
Definition bound_field (real_to_text : float -> option string)
    (request_json : pyval) (k : string) : option bound :=
  match Py.get request_json k PNone with
  | Ret v => Some (bind_text real_to_text v)
  | Raise _ => None
  end.

(** ** Notions the further statements use *)

(** A computation that leaves the tracker alone. *)
Definition preserves_tracker {A} (m : M A) : Prop :=
  forall w, schedule_execution_tracker (exec m w) = schedule_execution_tracker w.

(** A computation that only adds to the log of requests, and only requests
    that satisfy [P]. *)
Definition sends_only {A} (P : request -> Prop) (m : M A) : Prop :=
  forall w, exists rest,
    sent (exec m w) = (sent w ++ rest)%list /\ Forall P rest.

Definition is_get (r : request) : Prop := req_method r = GET.

(** The three words of the status route. *)
Definition status_word (s : string) : Prop :=
  s = "disconnected" \/ s = "on" \/ s = "off".

Definition is_dict (v : pyval) : bool :=
  match v with PDict _ => true | _ => false end.

(** The metadata [v] that [get_device_info] returned says the device is
    online: it is truthy and its [online] is. *)
Definition reported_online (v : pyval) : bool :=
  Py.truthy v &&
  match Py.get v "online" (PBool false) with
  | Ret online => Py.truthy online
  | Raise _ => false
  end.

(** A string without the character [_]. *)
Fixpoint underscore_free (s : string) : Prop :=
  match s with
  | EmptyString => True
  | String c s' => c <> "_"%char /\ underscore_free s'
  end.

(** A cloud on which the device is online and commands are answered with
    202 Accepted. *)
Definition accepting : cloud :=
  {| respond := fun _ r =>
       match req_method r with
       | POST => Response 202 None
       | GET =>
           if String.eqb (req_path r) "/v1.0/token?grant_type=1" then granted
           else Response 200 (Some (PDict [("result", PDict [("online", PBool true)])]))
       end;
     datetime_now := fun _ =>
       {| dt_weekday := Monday; dt_hour := 8; dt_minute := 0 |};
     time_time := fun _ => 1700000015 |}.

(** A clock value a day can show, and its minute of the day. *)
Definition valid_clock (t : datetime) : Prop :=
  (dt_hour t < 24)%nat /\ (dt_minute t < 60)%nat.

Definition minute_of_day (t : datetime) : nat :=
  (60 * dt_hour t + dt_minute t)%nat.

(** A schedule stored with its start time written without the leading
    zero. *)
Definition unpadded : schedule_row :=
  {| s_id := 4; s_device_id := "plug-1"; s_schedule_name := "Morning";
     s_start_time := "8:00"; s_end_time := "18:00"; s_days := "monday";
     s_enabled := 1; s_created_at := 0 |}.

(** ** Theorems *)

(** *** The model on concrete inputs *)

Example split_days :
  PyStr.split "," "monday, Tuesday ,wed" = ["monday"; " Tuesday "; "wed"].
Proof. reflexivity. Qed.

Example strip_unicode_space :
  PyStr.strip (PyStr.utf8 [227; 128; 128; 32]%N ++ "a b" ++ PyStr.utf8 [9; 194; 160]%N)
  = "a b".
Proof. reflexivity. Qed.

Example schedule_days_no_break_space :
  schedule_days ("Monday" ++ PyStr.utf8 [194; 160]%N ++ ",friday") = ["monday"; "friday"].
Proof. reflexivity. Qed.

Example schedule_days_normalised :
  schedule_days "Monday, tuesday ,FRIDAY" = ["monday"; "tuesday"; "friday"].
Proof. reflexivity. Qed.

Example tracker_key_on_12 : tracker_key_on 12 "monday" = "12_ON_monday".
Proof. vm_compute. reflexivity. Qed.

Example strftime_HM_pads :
  strftime_HM {| dt_weekday := Friday; dt_hour := 8; dt_minute := 5 |} = "08:05".
Proof. reflexivity. Qed.

Example int_truediv_voltage : Py.truediv (PInt 2205) 10 = Ret (FloatNum 220.5).
Proof. vm_compute. reflexivity. Qed.

Example int_truediv_overflow : Py.truediv (PInt (10 ^ 400)) 10 = Raise OverflowError.
Proof. vm_compute. reflexivity. Qed.

Example truediv_string : Py.truediv (PStr "2205") 10 = Raise TypeError.
Proof. reflexivity. Qed.

Example get_device_data_healthy :
  result (get_device_data healthy "plug-1" "access-id" "access-secret") office
  = Ret {| t_voltage := FloatNum 220.5; t_current := FloatNum 0.484;
           t_power := FloatNum 106.7; t_switch := PBool true;
           t_is_online := PBool true |}.
Proof. vm_compute. reflexivity. Qed.

Example get_device_data_requests :
  map req_path
    (sent (exec (get_device_data healthy "plug-1" "access-id" "access-secret") office))
  = ["/v1.0/token?grant_type=1"; "/v1.0/devices/plug-1";
     "/v1.0/token?grant_type=1"; "/v1.0/devices/plug-1/status"].
Proof. vm_compute. reflexivity. Qed.

(** An offline device and an unreachable cloud give the caller the same
    tuple. *)
Example offline_and_unreachable_look_alike :
  result (get_device_data all_offline "plug-1" "access-id" "access-secret") office
    = Ret zeroed /\
  result (get_device_data unreachable "plug-1" "access-id" "access-secret") office
    = Ret zeroed.
Proof. split; vm_compute; reflexivity. Qed.

Example collect_pass_stores_reading :
  map (fun r => (r_device_id r, r_ts r, r_voltage r))
    (readings (db (exec (collect_data_periodically healthy 1) office)))
  = [("plug-1", 1700000015, Some 220.5%float)].
Proof. vm_compute. reflexivity. Qed.

Example collect_pass_stores_defaults_as_reals :
  map (fun r => (r_id r, r_voltage r, r_current r, r_power r))
    (readings (db (exec (collect_data_periodically bare 1) metered)))
  = [(1, Some 220.5%float, Some 0.5%float, Some 110%float);
     (2, Some 0%float, Some 0%float, Some 0%float)].
Proof. vm_compute. reflexivity. Qed.

Example zero_quotient_is_stored_unsigned :
  Db.bind_real (FloatNum (-0)%float) = Ret (Some 0%float) /\
  Db.bind_real (FloatNum nan) = Ret None /\
  Db.bind_real (FloatNum 22.5%float) = Ret (Some 22.5%float).
Proof. repeat split. Qed.

Example ignored_insert_uses_up_a_rowid :
  map r_id
    (readings
       (Db.insert_or_ignore_reading "plug-1" 1700000001 None None None
          (Db.insert_or_ignore_reading "plug-1" 1700000000 None None None (db metered))))
  = [1; 3].
Proof. reflexivity. Qed.

Example monday_commands :
  commands (sent (run_minutes obliging Monday whole_day office)) = [true; false].
Proof. vm_compute. reflexivity. Qed.


(** *** Tariff *)

(** C3: [calc_bill_bd(0) == 0], [calc_bill_bd(50) == 187.5] and
    [calc_bill_bd(75) == 292.25], in binary64 arithmetic as Python
    evaluates them. *)
Theorem calc_bill_bd_spot_values :
  Tariff.py_eq (Tariff.calc_bill_bd 0) 0 = true /\
  Tariff.py_eq (Tariff.calc_bill_bd 50) 187.5 = true /\
  Tariff.py_eq (Tariff.calc_bill_bd 75) 292.25 = true.
Proof. repeat split; vm_compute; reflexivity. Qed.

(** **** Rounding to binary64 *)

Module Binary64Facts.

Import Binary64.

Lemma nearest_even_cases (N k : Z) (P q r : Z) :
  P = 2 ^ k -> 0 < P -> N = P * q + r -> 0 <= r < P ->
  nearest_even N k =
  match Z.compare (2 * r) P with
  | Lt => q
  | Eq => if Z.even q then q else q + 1
  | Gt => q + 1
  end.
Proof.
  intros HP Hpos HN Hr. unfold nearest_even. rewrite <- HP.
  assert (Hq : N / P = q).
  { symmetry. apply (Z.div_unique N P q r); [left; exact Hr | exact HN]. }
  assert (Hm : N mod P = r).
  { symmetry. apply (Z.mod_unique N P q r); [left; exact Hr | exact HN]. }
  rewrite Hq, Hm. reflexivity.
Qed.

Lemma nearest_even_bounds (N k : Z) :
  0 <= k ->
  N / 2 ^ k <= nearest_even N k <= N / 2 ^ k + 1 /\
  (N mod 2 ^ k = 0 -> nearest_even N k = N / 2 ^ k).
Proof.
  intros Hk. unfold nearest_even.
  assert (Hpos : 0 < 2 ^ k) by (apply Z.pow_pos_nonneg; lia).
  split.
  - destruct (Z.compare (2 * (N mod 2 ^ k)) (2 ^ k)); [destruct (Z.even _)| |]; lia.
  - intros ->. replace (2 * 0) with 0 by lia.
    destruct (Z.compare_spec 0 (2 ^ k)); lia.
Qed.

Lemma nearest_even_mono (N N' k : Z) :
  0 <= k -> N <= N' -> nearest_even N k <= nearest_even N' k.
Proof.
  intros Hk Hle.
  assert (Hpos : 0 < 2 ^ k) by (apply Z.pow_pos_nonneg; lia).
  pose proof (Z.div_mod N (2 ^ k) ltac:(lia)) as HN.
  pose proof (Z.div_mod N' (2 ^ k) ltac:(lia)) as HN'.
  pose proof (Z.mod_pos_bound N (2 ^ k) Hpos) as Hr.
  pose proof (Z.mod_pos_bound N' (2 ^ k) Hpos) as Hr'.
  assert (Hq : N / 2 ^ k <= N' / 2 ^ k) by (apply Z.div_le_mono; lia).
  unfold nearest_even.
  remember (2 ^ k) as P. remember (N / P) as q. remember (N' / P) as q'.
  remember (N mod P) as r. remember (N' mod P) as r'.
  destruct (Z.eq_dec q q') as [Heq|Hne].
  - subst q'. rewrite <- Heq in *. assert (r <= r') by nia.
    destruct (Z.compare_spec (2 * r) P); destruct (Z.compare_spec (2 * r') P);
      destruct (Z.even q); lia.
  - assert (q + 1 <= q') by lia.
    destruct (Z.compare_spec (2 * r) P); destruct (Z.compare_spec (2 * r') P);
      destruct (Z.even q); destruct (Z.even q'); lia.
Qed.

Lemma nearest_even_exact (M k : Z) : 0 <= k -> nearest_even (M * 2 ^ k) k = M.
Proof.
  intros Hk.
  assert (Hpos : 0 < 2 ^ k) by (apply Z.pow_pos_nonneg; lia).
  destruct (nearest_even_bounds (M * 2 ^ k) k Hk) as [_ Hex].
  rewrite Hex by (apply Z.mod_mul; lia). apply Z.div_mul. lia.
Qed.

Lemma nearest_even_below (N k M : Z) :
  0 <= k -> N <= M * 2 ^ k -> nearest_even N k <= M.
Proof.
  intros Hk Hle. rewrite <- (nearest_even_exact M k Hk).
  apply nearest_even_mono; assumption.
Qed.

Lemma nearest_even_above (N k M : Z) :
  0 <= k -> M * 2 ^ k <= N -> M <= nearest_even N k.
Proof.
  intros Hk Hle. rewrite <- (nearest_even_exact M k Hk) at 1.
  apply nearest_even_mono; assumption.
Qed.

Lemma nearest_even_shift (m n j : Z) :
  0 <= n -> 0 <= j -> nearest_even (m * 2 ^ j) (n + j) = nearest_even m n.
Proof.
  intros Hn Hj.
  assert (Hpn : 0 < 2 ^ n) by (apply Z.pow_pos_nonneg; lia).
  assert (Hpj : 0 < 2 ^ j) by (apply Z.pow_pos_nonneg; lia).
  pose proof (Z.div_mod m (2 ^ n) ltac:(lia)) as Hm.
  pose proof (Z.mod_pos_bound m (2 ^ n) Hpn) as Hr.
  rewrite (nearest_even_cases (m * 2 ^ j) (n + j) (2 ^ n * 2 ^ j) (m / 2 ^ n)
             ((m mod 2 ^ n) * 2 ^ j)).
  - unfold nearest_even.
    replace (2 * (m mod 2 ^ n * 2 ^ j)) with (2 * (m mod 2 ^ n) * 2 ^ j) by lia.
    rewrite <- (Zmult_compare_compat_r (2 * (m mod 2 ^ n)) (2 ^ n) (2 ^ j)) by lia.
    reflexivity.
  - rewrite Z.pow_add_r by lia. reflexivity.
  - lia.
  - nia.
  - nia.
Qed.

Lemma pow2_pos (k : Z) : 0 <= k -> 0 < 2 ^ k.
Proof. intros Hk. apply Z.pow_pos_nonneg; lia. Qed.

Lemma pow2_le (a b : Z) : 0 <= a <= b -> 2 ^ a <= 2 ^ b.
Proof. intros H. apply Z.pow_le_mono_r; lia. Qed.

Lemma nearest_even_nonneg (N k : Z) : 0 <= k -> 0 <= N -> 0 <= nearest_even N k.
Proof.
  intros Hk HN. destruct (nearest_even_bounds N k Hk) as [[Hlo _] _].
  pose proof (Z.div_pos N (2 ^ k) HN (pow2_pos k Hk)). lia.
Qed.

Lemma top_pos : 0 < top.
Proof. reflexivity. Qed.

Lemma round_bounds (N : Z) : 0 <= N -> 0 <= round N <= top.
Proof.
  intros HN. unfold round. pose proof top_pos.
  destruct (Z.eqb_spec N 0) as [->|Hne]; [lia|].
  set (E := Z.max (Z.log2 N + 1 - 2148 - 53) (-1074)).
  assert (0 <= nearest_even N (E + 2148)) by (apply nearest_even_nonneg; lia).
  assert (0 < 2 ^ (E + 1074)) by (apply pow2_pos; lia).
  split; [apply Z.min_glb; nia | apply Z.le_min_r].
Qed.

(** Rounding is monotone. *)
Lemma round_mono (N N' : Z) : 0 <= N <= N' -> round N <= round N'.
Proof.
  intros [HN Hle].
  destruct (Z.eq_dec N 0) as [->|Hne].
  { change (round 0) with 0. apply round_bounds. lia. }
  unfold round.
  destruct (Z.eqb_spec N 0) as [|_]; [contradiction|].
  destruct (Z.eqb_spec N' 0) as [|_]; [lia|].
  pose proof (Z.log2_spec N ltac:(lia)) as [Hlo Hhi].
  pose proof (Z.log2_spec N' ltac:(lia)) as [Hlo' Hhi'].
  pose proof (Z.log2_nonneg N) as Hd.
  pose proof (Z.log2_le_mono N N' Hle) as Hdd.
  set (d := Z.log2 N) in *. set (d' := Z.log2 N') in *.
  set (E := Z.max (d + 1 - 2148 - 53) (-1074)).
  set (E' := Z.max (d' + 1 - 2148 - 53) (-1074)).
  assert (HE : E <= E') by (subst E E'; lia).
  apply Z.min_le_compat_r.
  destruct (Z.eq_dec E E') as [Heq|Hlt].
  - rewrite <- Heq. apply Z.mul_le_mono_nonneg_r.
    + apply Z.lt_le_incl, pow2_pos. subst E. lia.
    + apply nearest_even_mono; [subst E; lia | exact Hle].
  - assert (Ha : nearest_even N (E + 2148) <= 2 ^ 53).
    { apply nearest_even_below; [subst E; lia|].
      rewrite <- Z.pow_add_r by (subst E; lia).
      apply Z.lt_le_incl, (Z.lt_le_trans _ _ _ Hhi).
      apply pow2_le. subst E. lia. }
    assert (HE' : E' = d' + 1 - 2148 - 53) by (subst E E'; lia).
    assert (Hb : 2 ^ 52 <= nearest_even N' (E' + 2148)).
    { apply nearest_even_above; [subst E; lia|].
      rewrite <- Z.pow_add_r by lia.
      replace (52 + (E' + 2148)) with d' by lia. exact Hlo'. }
    assert (Hn : 0 <= nearest_even N (E + 2148))
      by (apply nearest_even_nonneg; subst E; lia).
    assert (Hp : 0 < 2 ^ (E + 1074)) by (apply pow2_pos; subst E; lia).
    assert (Hpp : 2 * 2 ^ (E + 1074) <= 2 ^ (E' + 1074)).
    { replace (2 * 2 ^ (E + 1074)) with (2 ^ (E + 1 + 1074)).
      - apply pow2_le. subst E. lia.
      - replace (E + 1 + 1074) with (1 + (E + 1074)) by lia.
        rewrite Z.pow_add_r by (subst E; lia). reflexivity. }
    change (2 ^ 53) with (2 * 2 ^ 52) in Ha.
    assert (H52 : 0 < 2 ^ 52) by reflexivity.
    remember (2 ^ 52) as c52. remember (2 ^ (E + 1074)) as p.
    remember (2 ^ (E' + 1074)) as p'.
    remember (nearest_even N (E + 2148)) as a.
    remember (nearest_even N' (E' + 2148)) as b.
    nia.
Qed.

(** **** The shifts of [SpecFloat] *)

Lemma digits2_log2 (p : positive) : Zpos (digits2_pos p) = Z.log2 (Zpos p) + 1.
Proof.
  induction p as [p IH|p IH|]; cbn [digits2_pos].
  - rewrite Pos2Z.inj_succ, IH, Pos2Z.inj_xI, Z.log2_succ_double by lia. lia.
  - rewrite Pos2Z.inj_succ, IH, Pos2Z.inj_xO, Z.log2_double by lia. lia.
  - reflexivity.
Qed.

Lemma shr_1_spec (M : Z) (r s : bool) :
  0 <= M ->
  shr_1 {| shr_m := M; shr_r := r; shr_s := s |}
  = {| shr_m := M / 2; shr_r := Z.odd M; shr_s := r || s |}.
Proof.
  intros HM. destruct M as [|p|p]; [reflexivity| |lia].
  destruct p as [p|p|]; cbn [shr_1].
  - f_equal. rewrite Pos2Z.inj_xI.
    apply (Z.div_unique _ 2 _ 1); lia.
  - f_equal. rewrite Pos2Z.inj_xO.
    apply (Z.div_unique _ 2 _ 0); lia.
  - reflexivity.
Qed.

Lemma shr_1_shifted (m j : Z) :
  0 <= m -> 0 <= j -> shr_1 (shifted m j) = shifted m (j + 1).
Proof.
  intros Hm Hj. unfold shifted.
  destruct (Z.eqb_spec (j + 1) 0) as [|_]; [lia|].
  destruct (Z.eqb_spec j 0) as [->|Hne].
  - rewrite shr_1_spec by exact Hm. cbn [Z.add Z.sub Z.pow Z.pow_pos Pos.iter Z.mul Pos.mul].
    rewrite Z.div_1_r, Z.mod_1_r. reflexivity.
  - assert (Hp : 0 < 2 ^ (j - 1)) by (apply pow2_pos; lia).
    assert (Hpj : 2 ^ j = 2 ^ (j - 1) * 2).
    { replace j with ((j - 1) + 1) at 1 by lia. rewrite Z.pow_add_r by lia. reflexivity. }
    rewrite shr_1_spec by (apply Z.div_pos; [exact Hm | apply pow2_pos; lia]).
    replace (j + 1 - 1) with j by lia.
    f_equal.
    + rewrite Z.div_div by (try apply pow2_pos; lia).
      rewrite Z.pow_add_r by lia. reflexivity.
    + rewrite Hpj, Z.rem_mul_r by lia.
      pose proof (Z.mod_pos_bound m (2 ^ (j - 1)) Hp) as Hr.
      rewrite Zmod_odd. destruct (Z.odd (m / 2 ^ (j - 1))); cbn [orb].
      * destruct (Z.eqb_spec (m mod 2 ^ (j - 1) + 2 ^ (j - 1) * 1) 0); [lia|reflexivity].
      * replace (m mod 2 ^ (j - 1) + 2 ^ (j - 1) * 0) with (m mod 2 ^ (j - 1)) by lia.
        reflexivity.
Qed.

Lemma iter_pos_shifted (p : positive) :
  forall m j, 0 <= m -> 0 <= j ->
    SpecFloat.iter_pos shr_1 p (shifted m j) = shifted m (j + Zpos p).
Proof.
  induction p as [p IH|p IH|]; intros m j Hm Hj; cbn [SpecFloat.iter_pos].
  - rewrite shr_1_shifted, !IH by lia. f_equal. lia.
  - rewrite !IH by lia. f_equal. lia.
  - apply shr_1_shifted; assumption.
Qed.

(** Shifting [m] by [n] and rounding on what was shifted out is
    [nearest_even]. *)
Lemma round_shifted (m n : Z) :
  0 <= m -> 0 <= n ->
  round_nearest_even (shr_m (shifted m n)) (loc_of_shr_record (shifted m n))
  = nearest_even m n.
Proof.
  intros Hm Hn. unfold shifted.
  destruct (Z.eqb_spec n 0) as [->|Hne].
  - cbn [shr_m loc_of_shr_record round_nearest_even].
    destruct (nearest_even_bounds m 0 ltac:(lia)) as [_ Hex].
    rewrite Hex by apply Z.mod_1_r. symmetry. apply Z.div_1_r.
  - cbn [shr_m].
    assert (Hp : 0 < 2 ^ (n - 1)) by (apply pow2_pos; lia).
    assert (Hpn : 2 ^ n = 2 ^ (n - 1) * 2).
    { replace n with ((n - 1) + 1) at 1 by lia. rewrite Z.pow_add_r by lia. reflexivity. }
    pose proof (Z.mod_pos_bound m (2 ^ (n - 1)) Hp) as Hr.
    pose proof (Z.mod_pos_bound (m / 2 ^ (n - 1)) 2 ltac:(lia)) as Hb.
    unfold nearest_even.
    assert (Hmod : m mod 2 ^ n
                   = m mod 2 ^ (n - 1) + 2 ^ (n - 1) * ((m / 2 ^ (n - 1)) mod 2)).
    { rewrite Hpn. apply Z.rem_mul_r; lia. }
    rewrite Hmod, Zmod_odd. destruct (Z.odd (m / 2 ^ (n - 1))).
    + destruct (Z.eqb_spec (m mod 2 ^ (n - 1)) 0) as [Hz'|Hnz']; cbn [negb].
      * assert (Heq : 2 * (m mod 2 ^ (n - 1) + 2 ^ (n - 1) * 1) = 2 ^ n) by lia.
        apply Z.compare_eq_iff in Heq. rewrite Heq. reflexivity.
      * assert (Hgt : 2 ^ n < 2 * (m mod 2 ^ (n - 1) + 2 ^ (n - 1) * 1)) by lia.
        apply Z.compare_gt_iff in Hgt. rewrite Hgt. reflexivity.
    + assert (Hlt : 2 * (m mod 2 ^ (n - 1) + 2 ^ (n - 1) * 0) < 2 ^ n) by lia.
      apply Z.compare_lt_iff in Hlt. rewrite Hlt.
      destruct (negb _); reflexivity.
Qed.

Lemma fexp_eq (z : Z) : fexp prec emax z = Z.max (z - 53) (-1074).
Proof. reflexivity. Qed.

Lemma shr_spec (m e n : Z) :
  0 <= m ->
  shr {| shr_m := m; shr_r := false; shr_s := false |} e n
  = (shifted m (Z.max n 0), e + Z.max n 0).
Proof.
  intros Hm. destruct n as [|p|p]; cbn [shr Z.max Z.compare].
  - rewrite Z.add_0_r. reflexivity.
  - change {| shr_m := m; shr_r := false; shr_s := false |} with (shifted m 0).
    rewrite iter_pos_shifted by lia. reflexivity.
  - rewrite Z.add_0_r. reflexivity.
Qed.

Lemma binary_round_aux_eq (s : bool) (m e : Z) :
  0 <= m ->
  binary_round_aux prec emax s m e loc_Exact
  = renormalize s
      (nearest_even m (Z.max (fexp prec emax (Zdigits2 m + e) - e) 0))
      (e + Z.max (fexp prec emax (Zdigits2 m + e) - e) 0).
Proof.
  intros Hm. unfold binary_round_aux, renormalize.
  unfold shr_fexp at 1. cbn [shr_record_of_loc]. rewrite shr_spec by exact Hm.
  rewrite round_shifted by lia. reflexivity.
Qed.

Lemma top_split : top = 2 ^ 53 * 2 ^ 2045.
Proof. reflexivity. Qed.

Lemma renormalize_rank (s : bool) (m1 E : Z) :
  0 <= m1 <= 2 ^ 53 -> -1074 <= E -> (971 < E -> 2 ^ 52 <= m1) ->
  renormalize s m1 E <> S754_nan /\
  rank (renormalize s m1 E) = cond_Zopp s (Z.min (m1 * 2 ^ (E + 1074)) top).
Proof.
  intros [Hlo Hhi] HE Hbig. unfold renormalize, shr_fexp.
  cbn [shr_record_of_loc]. rewrite shr_spec by exact Hlo. rewrite fexp_eq.
  assert (Hp : 0 < 2 ^ (E + 1074)) by (apply pow2_pos; lia).
  destruct m1 as [|p|p]; [| |lia].
  - (* the mantissa rounded to zero *)
    cbn [Zdigits2]. replace (Z.max (Z.max (0 + E - 53) (-1074) - E) 0) with 0 by lia.
    cbn [shifted Z.eqb shr_m]. split; [discriminate|].
    cbn [rank]. rewrite Z.mul_0_l, Z.min_l by (pose proof top_pos; lia).
    destruct s; reflexivity.
  - cbn [Zdigits2]. rewrite digits2_log2.
    pose proof (Z.log2_spec (Zpos p) ltac:(lia)) as [Hl Hh].
    pose proof (Z.log2_nonneg (Zpos p)) as Hd.
    destruct (Z.eq_dec (Zpos p) (2 ^ 53)) as [Heq|Hne].
    + (* the rounding carried into a 54th bit *)
      rewrite Heq. change (Z.log2 (2 ^ 53)) with 53.
      replace (Z.max (Z.max (53 + 1 + E - 53) (-1074) - E) 0) with 1 by lia.
      unfold shifted. cbn [Z.eqb shr_m]. change (2 ^ 53 / 2 ^ 1) with (2 ^ 52).
      change (2 ^ 52) with (Zpos (2 ^ 52)). cbv beta iota.
      change (emax - prec) with 971.
      assert (Hsucc : 2 ^ (E + 1 + 1074) = 2 * 2 ^ (E + 1074)).
      { replace (E + 1 + 1074) with (1 + (E + 1074)) by lia.
        rewrite Z.pow_add_r by lia. reflexivity. }
      destruct (Z.leb_spec (E + 1) 971) as [Hfit|Hover].
      * split; [discriminate|]. cbn [rank]. rewrite Hsucc.
        change (Zpos (2 ^ 52)) with (2 ^ 52). change (2 ^ 53) with (2 * 2 ^ 52).
        rewrite Z.min_l.
        -- destruct s; cbn [cond_Zopp]; lia.
        -- rewrite top_split. change (2 ^ 53) with (2 * 2 ^ 52).
           assert (2 ^ (E + 1074) <= 2 ^ 2045) by (apply pow2_le; lia).
           assert (0 < 2 ^ 52) by reflexivity. nia.
      * split; [discriminate|]. cbn [rank]. rewrite Z.min_r.
        -- destruct s; reflexivity.
        -- rewrite top_split.
           assert (2 ^ 2045 <= 2 ^ (E + 1074)) by (apply pow2_le; lia).
           assert (0 < 2 ^ 53) by reflexivity. nia.
    + (* at most 53 bits: nothing to shift *)
      assert (Hlt : Zpos p < 2 ^ 53) by lia.
      assert (Hd53 : Z.log2 (Zpos p) < 53) by (apply Z.log2_lt_pow2; lia).
      replace (Z.max (Z.max (Z.log2 (Zpos p) + 1 + E - 53) (-1074) - E) 0) with 0 by lia.
      cbn [shifted Z.eqb shr_m]. rewrite Z.add_0_r. change (emax - prec) with 971.
      destruct (Z.leb_spec E 971) as [Hfit|Hover].
      * split; [discriminate|]. cbn [rank]. rewrite Z.min_l.
        -- destruct s; reflexivity.
        -- rewrite top_split.
           assert (2 ^ (E + 1074) <= 2 ^ 2045) by (apply pow2_le; lia).
           assert (0 < 2 ^ 53) by reflexivity. nia.
      * split; [discriminate|]. cbn [rank]. rewrite Z.min_r.
        -- destruct s; reflexivity.
        -- rewrite top_split. specialize (Hbig Hover).
           assert (2 * 2 ^ 2045 <= 2 ^ (E + 1074)).
           { change (2 * 2 ^ 2045) with (2 ^ 2046). apply pow2_le. lia. }
           change (2 ^ 53) with (2 * 2 ^ 52).
           assert (0 < 2 ^ 52) by reflexivity. nia.
Qed.

(** [binary_round_aux] on an exact mantissa and an exponent not above
    the canonical one rounds the value. *)
Lemma binary_round_aux_rank (s : bool) (m : positive) (e : Z) :
  -2148 <= e -> e <= fexp prec emax (Zpos (digits2_pos m) + e) ->
  binary_round_aux prec emax s (Zpos m) e loc_Exact <> S754_nan /\
  rank (binary_round_aux prec emax s (Zpos m) e loc_Exact)
  = cond_Zopp s (round (Zpos m * 2 ^ (e + 2148))).
Proof.
  intros He Hcan. rewrite binary_round_aux_eq by lia. cbn [Zdigits2].
  rewrite fexp_eq in *. rewrite digits2_log2 in *.
  pose proof (Z.log2_spec (Zpos m) ltac:(lia)) as [Hl Hh].
  pose proof (Z.log2_nonneg (Zpos m)) as Hd.
  set (d := Z.log2 (Zpos m)) in *.
  set (E := Z.max (d + 1 + e - 53) (-1074)) in *.
  replace (Z.max (E - e) 0) with (E - e) by lia.
  replace (e + (E - e)) with E by lia.
  assert (Hn : 0 <= E - e) by lia.
  assert (Hround : round (Zpos m * 2 ^ (e + 2148))
                   = Z.min (nearest_even (Zpos m) (E - e) * 2 ^ (E + 1074)) top).
  { unfold round.
    assert (Hpos : 0 < Zpos m * 2 ^ (e + 2148))
      by (apply Z.mul_pos_pos; [lia | apply pow2_pos; lia]).
    destruct (Z.eqb_spec (Zpos m * 2 ^ (e + 2148)) 0) as [|_]; [lia|].
    rewrite Z.log2_mul_pow2 by lia. fold d.
    replace (Z.max (e + 2148 + d + 1 - 2148 - 53) (-1074)) with E by (subst E; lia).
    replace (E + 2148) with ((E - e) + (e + 2148)) by lia.
    rewrite nearest_even_shift by lia. reflexivity. }
  rewrite Hround. apply renormalize_rank.
  - split; [apply nearest_even_nonneg; lia|].
    apply nearest_even_below; [exact Hn|].
    rewrite <- Z.pow_add_r by lia.
    apply Z.lt_le_incl, (Z.lt_le_trans _ _ _ Hh). apply pow2_le. lia.
  - subst E. lia.
  - intros Hbig. apply nearest_even_above; [exact Hn|].
    rewrite <- Z.pow_add_r by lia.
    replace (52 + (E - e)) with d by (subst E; lia). exact Hl.
Qed.

Lemma iter_xO (d m : positive) : Zpos (Pos.iter xO m d) = Zpos m * 2 ^ Zpos d.
Proof.
  induction d as [|d IH] using Pos.peano_ind.
  - cbn [Pos.iter]. rewrite Pos2Z.inj_xO. change (2 ^ 1) with 2. lia.
  - rewrite Pos.iter_succ, Pos2Z.inj_xO, IH, Pos2Z.inj_succ, Z.pow_succ_r by lia. lia.
Qed.

Lemma shl_align_spec (m : positive) (e e' : Z) :
  let a := shl_align m e e' in
  snd a = Z.min e e' /\ Zpos (fst a) = Zpos m * 2 ^ (e - snd a).
Proof.
  unfold shl_align. destruct (e' - e) as [|d|d] eqn:Hd; cbn [fst snd].
  - split; [lia|]. rewrite Z.sub_diag. lia.
  - split; [lia|]. rewrite Z.sub_diag. lia.
  - split; [lia|]. rewrite iter_xO. f_equal. f_equal. lia.
Qed.

(** [binary_round] rounds the value of any mantissa and exponent. *)
Lemma binary_round_rank (s : bool) (m : positive) (e : Z) :
  -2148 <= e ->
  binary_round prec emax s m e <> S754_nan /\
  rank (binary_round prec emax s m e) = cond_Zopp s (round (Zpos m * 2 ^ (e + 2148))).
Proof.
  intros He. unfold binary_round.
  pose proof (shl_align_spec m e (fexp prec emax (Zpos (digits2_pos m) + e))) as Ha.
  destruct (shl_align m e (fexp prec emax (Zpos (digits2_pos m) + e))) as [mz ez].
  cbn [fst snd] in Ha. destruct Ha as [Hez Hmz].
  rewrite fexp_eq in Hez.
  assert (Hdig : Zpos (digits2_pos mz) + ez = Zpos (digits2_pos m) + e).
  { rewrite !digits2_log2, Hmz, Z.log2_mul_pow2 by lia. lia. }
  assert (Hval : Zpos m * 2 ^ (e + 2148) = Zpos mz * 2 ^ (ez + 2148)).
  { rewrite Hmz, <- Z.mul_assoc, <- Z.pow_add_r by lia. f_equal. f_equal. lia. }
  rewrite Hval. apply binary_round_aux_rank; [lia|].
  rewrite Hdig, fexp_eq. lia.
Qed.

(** **** The order of the binary64 numbers *)

Lemma valid_finite (s : bool) (m : positive) (e : Z) :
  valid_binary (S754_finite s m e) = true ->
  -1074 <= e <= 971 /\ Zpos m < 2 ^ 53 /\ (-1074 < e -> 2 ^ 52 <= Zpos m) /\
  Z.max (Z.log2 (Zpos m) + 1 + e - 53) (-1074) = e.
Proof.
  unfold SpecFloat.valid_binary, bounded, canonical_mantissa.
  rewrite fexp_eq, digits2_log2. change (emax - prec) with 971.
  intros H. apply andb_prop in H. destruct H as [Hc Hb].
  apply Z.eqb_eq in Hc. apply Z.leb_le in Hb.
  pose proof (Z.log2_spec (Zpos m) ltac:(lia)) as [Hl Hh].
  pose proof (Z.log2_nonneg (Zpos m)) as Hd.
  split; [lia|]. split; [|split; [|exact Hc]].
  - apply Z.log2_lt_pow2; lia.
  - intros He. replace 52 with (Z.log2 (Zpos m)) by lia. exact Hl.
Qed.

Lemma rank_finite_bounds (s : bool) (m : positive) (e : Z) :
  valid_binary (S754_finite s m e) = true ->
  0 < Zpos m * 2 ^ (e + 1074) < top.
Proof.
  intros Hv. destruct (valid_finite s m e Hv) as (He & Hm & _ & _).
  assert (Hp : 0 < 2 ^ (e + 1074)) by (apply pow2_pos; lia).
  assert (Hq : 2 ^ (e + 1074) <= 2 ^ 2045) by (apply pow2_le; lia).
  rewrite top_split. assert (0 < 2 ^ 53) by reflexivity. nia.
Qed.

Lemma compare_canonical (m1 m2 : positive) (e1 e2 : Z) :
  valid_binary (S754_finite false m1 e1) = true ->
  valid_binary (S754_finite false m2 e2) = true ->
  match Z.compare e1 e2 with
  | Lt => Lt
  | Gt => Gt
  | Eq => Pos.compare_cont Eq m1 m2
  end = Z.compare (Zpos m1 * 2 ^ (e1 + 1074)) (Zpos m2 * 2 ^ (e2 + 1074)).
Proof.
  intros Hv1 Hv2.
  destruct (valid_finite _ _ _ Hv1) as (He1 & Hm1 & Hn1 & _).
  destruct (valid_finite _ _ _ Hv2) as (He2 & Hm2 & Hn2 & _).
  assert (Hp1 : 0 < 2 ^ (e1 + 1074)) by (apply pow2_pos; lia).
  assert (Hp2 : 0 < 2 ^ (e2 + 1074)) by (apply pow2_pos; lia).
  assert (H52 : 2 ^ 53 = 2 * 2 ^ 52) by reflexivity.
  assert (H0 : 0 < 2 ^ 52) by reflexivity.
  destruct (Z.compare_spec e1 e2) as [Heq|Hlt|Hgt].
  - subst e2. rewrite <- Zmult_compare_compat_r by lia. reflexivity.
  - symmetry. apply Z.compare_lt_iff.
    assert (Hs : 2 * 2 ^ (e1 + 1074) <= 2 ^ (e2 + 1074)).
    { replace (2 * 2 ^ (e1 + 1074)) with (2 ^ (1 + (e1 + 1074)))
        by (rewrite Z.pow_add_r by lia; reflexivity).
      apply pow2_le. lia. }
    specialize (Hn2 ltac:(lia)). nia.
  - symmetry. apply Z.compare_gt_iff.
    assert (Hs : 2 * 2 ^ (e2 + 1074) <= 2 ^ (e1 + 1074)).
    { replace (2 * 2 ^ (e2 + 1074)) with (2 ^ (1 + (e2 + 1074)))
        by (rewrite Z.pow_add_r by lia; reflexivity).
      apply pow2_le. lia. }
    specialize (Hn1 ltac:(lia)). nia.
Qed.

(** [rank] is an order embedding of the valid numbers. *)
Lemma SFcompare_rank (x y : spec_float) :
  valid_binary x = true -> valid_binary y = true ->
  x <> S754_nan -> y <> S754_nan ->
  SFcompare x y = Some (Z.compare (rank x) (rank y)).
Proof.
  intros Hx Hy Hnx Hny. pose proof top_pos as Htop.
  destruct x as [sx|sx| |sx mx ex]; [| |contradiction|];
    (destruct y as [sy|sy| |sy my ey]; [| |contradiction|]);
    try pose proof (rank_finite_bounds _ _ _ Hx) as Bx;
    try pose proof (rank_finite_bounds _ _ _ Hy) as By;
    cbn [SFcompare rank]; f_equal; symmetry.
  - destruct sy; [apply Z.compare_gt_iff | apply Z.compare_lt_iff]; lia.
  - destruct sy; [apply Z.compare_gt_iff | apply Z.compare_lt_iff]; lia.
  - destruct sx; [apply Z.compare_lt_iff | apply Z.compare_gt_iff]; lia.
  - destruct sx, sy;
      [apply Z.compare_eq_iff | apply Z.compare_lt_iff
      | apply Z.compare_gt_iff | apply Z.compare_eq_iff]; lia.
  - destruct sx; [apply Z.compare_lt_iff | apply Z.compare_gt_iff];
      destruct sy; lia.
  - destruct sx; [apply Z.compare_lt_iff | apply Z.compare_gt_iff]; lia.
  - destruct sy; [apply Z.compare_gt_iff | apply Z.compare_lt_iff];
      destruct sx; lia.
  - destruct sx, sy.
    + rewrite Z.compare_opp.
      rewrite <- (compare_canonical my mx ey ex) by assumption.
      rewrite (Z.compare_antisym ey ex), (Pos.compare_cont_antisym mx my Eq).
      destruct (Z.compare ey ex); reflexivity.
    + apply Z.compare_lt_iff. lia.
    + apply Z.compare_gt_iff. lia.
    + symmetry. apply compare_canonical; assumption.
Qed.

(** **** The operations as functions of the rank *)

Lemma sround_mono (z z' : Z) : z <= z' -> sround z <= sround z'.
Proof.
  intros Hle. unfold sround.
  assert (Hp : 0 < 2 ^ 1074) by reflexivity.
  destruct (Z.ltb_spec z 0); destruct (Z.ltb_spec z' 0).
  - apply Z.opp_le_mono. rewrite !Z.opp_involutive. apply round_mono. nia.
  - pose proof (round_bounds (- z * 2 ^ 1074) ltac:(nia)).
    pose proof (round_bounds (z' * 2 ^ 1074) ltac:(nia)). lia.
  - lia.
  - apply round_mono. nia.
Qed.

Lemma sround_bounds (z : Z) : - top <= sround z <= top.
Proof.
  unfold sround. assert (Hp : 0 < 2 ^ 1074) by reflexivity.
  destruct (Z.ltb_spec z 0).
  - pose proof (round_bounds (- z * 2 ^ 1074) ltac:(nia)). lia.
  - pose proof (round_bounds (z * 2 ^ 1074) ltac:(nia)). lia.
Qed.

Lemma pow_1074_2148 (e : Z) :
  -1074 <= e -> 2 ^ (e + 2148) = 2 ^ (e + 1074) * 2 ^ 1074.
Proof. intros He. rewrite <- Z.pow_add_r by lia. f_equal. lia. Qed.

(** A number of the format rounds to itself. *)
Lemma round_valid (s : bool) (m : positive) (e : Z) :
  valid_binary (S754_finite s m e) = true ->
  round (Zpos m * 2 ^ (e + 1074) * 2 ^ 1074) = Zpos m * 2 ^ (e + 1074).
Proof.
  intros Hv. pose proof (rank_finite_bounds s m e Hv) as Hb.
  destruct (valid_finite s m e Hv) as (He & Hm & Hn & Hcan).
  rewrite <- Z.mul_assoc, <- pow_1074_2148 by lia.
  unfold round.
  assert (Hpos : 0 < Zpos m * 2 ^ (e + 2148))
    by (apply Z.mul_pos_pos; [lia | apply pow2_pos; lia]).
  destruct (Z.eqb_spec (Zpos m * 2 ^ (e + 2148)) 0) as [|_]; [lia|].
  rewrite Z.log2_mul_pow2 by lia.
  replace (Z.max (e + 2148 + Z.log2 (Zpos m) + 1 - 2148 - 53) (-1074)) with e by lia.
  rewrite nearest_even_exact by lia. apply Z.min_l. lia.
Qed.

Lemma sround_valid (x : spec_float) :
  valid_binary x = true -> x <> S754_nan -> (forall s, x <> S754_infinity s) ->
  sround (rank x) = rank x.
Proof.
  intros Hv Hn Hi. destruct x as [s|s| |s m e]; [|destruct (Hi s eq_refl)|contradiction|].
  - reflexivity.
  - pose proof (rank_finite_bounds s m e Hv) as Hb.
    pose proof (round_valid s m e Hv) as Hr.
    unfold sround. cbn [rank]. destruct s.
    + destruct (Z.ltb_spec (- (Zpos m * 2 ^ (e + 1074))) 0); [|lia].
      rewrite Z.opp_involutive, Hr. reflexivity.
    + destruct (Z.ltb_spec (Zpos m * 2 ^ (e + 1074)) 0); [lia|]. exact Hr.
Qed.

Lemma binary_normalize_rank (S e : Z) :
  -1074 <= e ->
  binary_normalize prec emax S e false <> S754_nan /\
  rank (binary_normalize prec emax S e false) = sround (S * 2 ^ (e + 1074)).
Proof.
  intros He. assert (Hp : 0 < 2 ^ (e + 1074)) by (apply pow2_pos; lia).
  unfold binary_normalize, sround. destruct S as [|p|p].
  - split; [discriminate | reflexivity].
  - destruct (binary_round_rank false p e ltac:(lia)) as [Hn Hr].
    split; [exact Hn|]. rewrite Hr. cbn [cond_Zopp].
    destruct (Z.ltb_spec (Zpos p * 2 ^ (e + 1074)) 0); [lia|].
    rewrite pow_1074_2148 by lia. f_equal. lia.
  - destruct (binary_round_rank true p e ltac:(lia)) as [Hn Hr].
    split; [exact Hn|]. rewrite Hr. cbn [cond_Zopp].
    destruct (Z.ltb_spec (Zneg p * 2 ^ (e + 1074)) 0); [|lia].
    rewrite pow_1074_2148 by lia. f_equal. f_equal. lia.
Qed.

(** The aligned mantissas of [SFadd] and [SFsub] carry the ranks. *)
Lemma aligned_rank (s : bool) (m : positive) (e e' : Z) :
  -1074 <= e -> -1074 <= e' ->
  cond_Zopp s (Zpos (fst (shl_align m e (Z.min e e')))) * 2 ^ (Z.min e e' + 1074)
  = rank (S754_finite s m e).
Proof.
  intros He He'.
  destruct (shl_align_spec m e (Z.min e e')) as [Hsnd Hfst].
  rewrite Hfst, Hsnd. replace (Z.min e (Z.min e e')) with (Z.min e e') by lia.
  assert (Hpow : 2 ^ (e - Z.min e e') * 2 ^ (Z.min e e' + 1074) = 2 ^ (e + 1074)).
  { rewrite <- Z.pow_add_r by lia. f_equal. lia. }
  cbn [rank]. destruct s; cbn [cond_Zopp]; rewrite <- Hpow; lia.
Qed.

Lemma SFadd_rank (x y : spec_float) :
  valid_binary x = true -> valid_binary y = true -> finite x -> finite y ->
  SFadd prec emax x y <> S754_nan /\
  rank (SFadd prec emax x y) = sround (rank x + rank y).
Proof.
  intros Hx Hy Fx Fy.
  destruct x as [sx|sx| |sx mx ex]; try contradiction;
    destruct y as [sy|sy| |sy my ey]; try contradiction.
  - split; [destruct sx, sy; discriminate | destruct sx, sy; reflexivity].
  - split; [discriminate|]. cbn [SFadd]. rewrite Z.add_0_l.
    symmetry. apply sround_valid; [exact Hy | discriminate | discriminate].
  - split; [discriminate|]. cbn [SFadd]. rewrite Z.add_0_r.
    symmetry. apply sround_valid; [exact Hx | discriminate | discriminate].
  - destruct (valid_finite _ _ _ Hx) as (Hex & _).
    destruct (valid_finite _ _ _ Hy) as (Hey & _).
    cbn [SFadd]. cbv zeta.
    destruct (binary_normalize_rank
                (cond_Zopp sx (Zpos (fst (shl_align mx ex (Z.min ex ey))))
                 + cond_Zopp sy (Zpos (fst (shl_align my ey (Z.min ex ey)))))
                (Z.min ex ey) ltac:(lia)) as [Hn Hr].
    split; [exact Hn|]. rewrite Hr. f_equal.
    rewrite Z.mul_add_distr_r.
    rewrite (aligned_rank sx mx ex ey) by lia.
    rewrite (Z.min_comm ex ey), (aligned_rank sy my ey ex) by lia. reflexivity.
Qed.

Lemma SFsub_rank (x y : spec_float) :
  valid_binary x = true -> valid_binary y = true -> finite x -> finite y ->
  SFsub prec emax x y <> S754_nan /\
  rank (SFsub prec emax x y) = sround (rank x - rank y).
Proof.
  intros Hx Hy Fx Fy.
  destruct x as [sx|sx| |sx mx ex]; try contradiction;
    destruct y as [sy|sy| |sy my ey]; try contradiction.
  - split; [destruct sx, sy; discriminate | destruct sx, sy; reflexivity].
  - split; [discriminate|]. cbn [SFsub]. rewrite Z.sub_0_l.
    assert (Hopp : - rank (S754_finite sy my ey) = rank (S754_finite (negb sy) my ey))
      by (destruct sy; cbn [rank negb]; lia).
    rewrite Hopp. symmetry. apply sround_valid; [exact Hy | discriminate | discriminate].
  - split; [discriminate|]. cbn [SFsub]. rewrite Z.sub_0_r.
    symmetry. apply sround_valid; [exact Hx | discriminate | discriminate].
  - destruct (valid_finite _ _ _ Hx) as (Hex & _).
    destruct (valid_finite _ _ _ Hy) as (Hey & _).
    cbn [SFsub]. cbv zeta.
    destruct (binary_normalize_rank
                (cond_Zopp sx (Zpos (fst (shl_align mx ex (Z.min ex ey))))
                 - cond_Zopp sy (Zpos (fst (shl_align my ey (Z.min ex ey)))))
                (Z.min ex ey) ltac:(lia)) as [Hn Hr].
    split; [exact Hn|]. rewrite Hr. f_equal.
    rewrite Z.mul_sub_distr_r.
    rewrite (aligned_rank sx mx ex ey) by lia.
    rewrite (Z.min_comm ex ey), (aligned_rank sy my ey ex) by lia. reflexivity.
Qed.

Lemma mround_mono (c z z' : Z) : 0 < c -> z <= z' -> mround c z <= mround c z'.
Proof.
  intros Hc Hle. unfold mround.
  destruct (Z.ltb_spec z 0); destruct (Z.ltb_spec z' 0).
  - apply Z.opp_le_mono. rewrite !Z.opp_involutive. apply round_mono. nia.
  - pose proof (round_bounds (- z * c) ltac:(nia)).
    pose proof (round_bounds (z' * c) ltac:(nia)). lia.
  - lia.
  - apply round_mono. nia.
Qed.

Lemma mround_bounds (c z : Z) : 0 < c -> - top <= mround c z <= top.
Proof.
  intros Hc. unfold mround. destruct (Z.ltb_spec z 0).
  - pose proof (round_bounds (- z * c) ltac:(nia)). lia.
  - pose proof (round_bounds (z * c) ltac:(nia)). lia.
Qed.

Lemma product_canonical (mx my : positive) (ex ey : Z) :
  valid_binary (S754_finite false mx ex) = true ->
  valid_binary (S754_finite false my ey) = true ->
  ex + ey <= fexp prec emax (Zpos (digits2_pos (mx * my)) + (ex + ey)).
Proof.
  intros Hx Hy.
  destruct (valid_finite _ _ _ Hx) as (Hex & Hmx & Hnx & _).
  destruct (valid_finite _ _ _ Hy) as (Hey & Hmy & Hny & _).
  rewrite fexp_eq, digits2_log2, Pos2Z.inj_mul.
  destruct (Z.eq_dec ex (-1074)) as [Hsx|Hsx];
    [destruct (Z.eq_dec ey (-1074)) as [Hsy|Hsy]; [lia|]|].
  - (* y is normal *)
    specialize (Hny ltac:(lia)).
    assert (52 <= Z.log2 (Zpos mx * Zpos my)); [|lia].
    apply Z.log2_le_pow2; [lia|]. nia.
  - (* x is normal *)
    specialize (Hnx ltac:(lia)).
    assert (52 <= Z.log2 (Zpos mx * Zpos my)); [|lia].
    apply Z.log2_le_pow2; [lia|]. nia.
Qed.

Lemma SFmul_rank (x y : spec_float) (my : positive) (ey : Z) :
  valid_binary x = true -> y = S754_finite false my ey -> valid_binary y = true ->
  finite x ->
  SFmul prec emax x y <> S754_nan /\
  rank (SFmul prec emax x y) = mround (rank y) (rank x).
Proof.
  intros Hx -> Hy Fx.
  destruct x as [sx|sx| |sx mx ex]; try contradiction.
  - split; [discriminate|]. cbn [SFmul rank]. unfold mround.
    rewrite Z.mul_0_l. reflexivity.
  - pose proof (rank_finite_bounds _ _ _ Hx) as Bx.
    destruct (valid_finite _ _ _ Hx) as (Hex & _).
    destruct (valid_finite _ _ _ Hy) as (Hey & _).
    cbn [SFmul]. rewrite xorb_false_r.
    destruct (binary_round_aux_rank sx (mx * my) (ex + ey) ltac:(lia)) as [Hn Hr].
    { apply product_canonical; [|exact Hy].
      revert Hx. unfold SpecFloat.valid_binary. exact (fun H => H). }
    change (Zpos (mx * my)) with (Zpos mx * Zpos my) in *.
    split; [exact Hn|]. rewrite Hr.
    assert (Hval : Zpos mx * Zpos my * 2 ^ (ex + ey + 2148)
                   = (Zpos mx * 2 ^ (ex + 1074)) * (Zpos my * 2 ^ (ey + 1074))).
    { replace (ex + ey + 2148) with ((ex + 1074) + (ey + 1074)) by lia.
      rewrite Z.pow_add_r by lia. ring. }
    rewrite Hval. unfold mround. cbn [rank]. destruct sx; cbn [cond_Zopp].
    + destruct (Z.ltb_spec (- (Zpos mx * 2 ^ (ex + 1074))) 0); [|lia].
      rewrite Z.opp_involutive. reflexivity.
    + destruct (Z.ltb_spec (Zpos mx * 2 ^ (ex + 1074)) 0); [lia|]. reflexivity.
Qed.

(** **** Primitive floats *)

Lemma leb_frank (x y : float) :
  PrimFloat.leb x y = true <-> not_nan x /\ not_nan y /\ frank x <= frank y.
Proof.
  rewrite leb_spec. unfold SFleb, not_nan, frank.
  pose proof (Prim2SF_valid x) as Vx. pose proof (Prim2SF_valid y) as Vy.
  assert (Hnan : forall X Y, X = S754_nan \/ Y = S754_nan -> SFcompare X Y = None).
  { intros X Y [-> | ->]; [reflexivity|]. destruct X; reflexivity. }
  destruct (Prim2SF x) as [sx|sx| |sx mx ex] eqn:Ex;
    try (rewrite Hnan by (left; reflexivity);
         split; [discriminate | intros (H & _ & _); contradiction]);
    (destruct (Prim2SF y) as [sy|sy| |sy my ey] eqn:Ey;
     try (rewrite Hnan by (right; reflexivity);
          split; [discriminate | intros (_ & H & _); contradiction]));
    rewrite SFcompare_rank by (assumption || discriminate);
    match goal with
    | |- context [Z.compare ?a ?b] =>
        destruct (Z.compare_spec a b);
        (split; [intros Hc; try discriminate Hc;
                 (split; [discriminate|split; [discriminate|lia]])
                | intros (_ & _ & Hle); try reflexivity; lia])
    end.
Qed.

Lemma frank_bounds (x : float) :
  not_nan x ->
  - top <= frank x <= top /\
  (frank x = top -> Prim2SF x = S754_infinity false) /\
  (frank x = - top -> Prim2SF x = S754_infinity true).
Proof.
  unfold not_nan, frank. intros Hn. pose proof (Prim2SF_valid x) as Vx.
  pose proof top_pos as Htop.
  destruct (Prim2SF x) as [s|s| |s m e]; [| |contradiction|]; cbn [rank].
  - split; [lia|]. split; intros H; lia.
  - destruct s; (split; [lia|]); (split; intros H; [reflexivity || lia | reflexivity || lia]).
  - pose proof (rank_finite_bounds s m e Vx) as Hb.
    destruct s; (split; [lia|]); split; intros H; lia.
Qed.

Lemma ext_mono (g : Z -> Z) :
  (forall z z', z <= z' -> g z <= g z') -> (forall z, - top <= g z <= top) ->
  forall z z', z <= z' -> ext g z <= ext g z'.
Proof.
  intros Hg Hb z z' Hle. unfold ext. pose proof top_pos as Htop.
  pose proof (Hb z). pose proof (Hb z'). pose proof (Hg z z' Hle).
  destruct (Z.leb_spec top z); destruct (Z.leb_spec top z');
    destruct (Z.leb_spec z (- top)); destruct (Z.leb_spec z' (- top)); lia.
Qed.

Lemma ranked_monotone (f : float -> float) (G : Z -> Z) :
  ranked f G -> (forall z z', z <= z' -> G z <= G z') -> monotone f.
Proof.
  intros Hf HG x y Hle. apply leb_frank in Hle. destruct Hle as (Nx & Ny & Hle).
  destruct (Hf x Nx) as [Nfx Rx]. destruct (Hf y Ny) as [Nfy Ry].
  apply leb_frank. split; [exact Nfx|]. split; [exact Nfy|].
  rewrite Rx, Ry. apply HG, Hle.
Qed.

Lemma monotone_compose (f g : float -> float) :
  monotone f -> monotone g -> monotone (fun x => g (f x)).
Proof. intros Hf Hg x y Hle. apply Hg, Hf, Hle. Qed.

(** What [ext g] is of the rank of a number, by the kind of the number. *)
Lemma ext_cases (g : Z -> Z) (x : float) :
  not_nan x ->
  match Prim2SF x with
  | S754_infinity false => ext g (frank x) = top
  | S754_infinity true => ext g (frank x) = - top
  | _ => ext g (frank x) = g (frank x) /\ finite (Prim2SF x)
  end.
Proof.
  intros Nx. pose proof (frank_bounds x Nx) as (Hb & Hp & Hm).
  pose proof top_pos as Htop. unfold ext, frank, not_nan in *.
  destruct (Prim2SF x) as [s|s| |s m e] eqn:Ex; [| |contradiction|].
  - cbn [rank] in *. destruct (Z.leb_spec top 0); [lia|].
    destruct (Z.leb_spec 0 (- top)); [lia|]. split; [reflexivity | exact I].
  - destruct s; cbn [rank].
    + destruct (Z.leb_spec top (- top)); [lia|].
      destruct (Z.leb_spec (- top) (- top)); [reflexivity | lia].
    + destruct (Z.leb_spec top top); [reflexivity | lia].
  - destruct (Z.leb_spec top (rank (S754_finite s m e))) as [H|H].
    { assert (Heq : rank (S754_finite s m e) = top) by lia.
      specialize (Hp Heq). discriminate. }
    destruct (Z.leb_spec (rank (S754_finite s m e)) (- top)) as [H'|H'].
    { assert (Heq : rank (S754_finite s m e) = - top) by lia.
      specialize (Hm Heq). discriminate. }
    split; [reflexivity | exact I].
Qed.

Lemma ranked_sub (b : float) (s : bool) (m : positive) (e : Z) :
  Prim2SF b = S754_finite s m e ->
  ranked (fun x => PrimFloat.sub x b) (ext (fun z => sround (z - frank b))).
Proof.
  intros Eb x Nx. pose proof (ext_cases (fun z => sround (z - frank b)) x Nx) as Hc.
  pose proof (Prim2SF_valid x) as Vx. pose proof (Prim2SF_valid b) as Vb.
  unfold not_nan, frank in *. rewrite sub_spec. unfold SF64sub.
  destruct (Prim2SF x) as [sx|sx| |sx mx ex] eqn:Ex; [| |contradiction|].
  - destruct Hc as [Hc _]. rewrite Hc.
    apply SFsub_rank; [exact Vx | exact Vb | exact I | rewrite Eb; exact I].
  - destruct sx; rewrite Hc, Eb; (split; [discriminate | reflexivity]).
  - destruct Hc as [Hc _]. rewrite Hc.
    apply SFsub_rank; [exact Vx | exact Vb | exact I | rewrite Eb; exact I].
Qed.

Lemma ranked_add (c : float) (s : bool) (m : positive) (e : Z) :
  Prim2SF c = S754_finite s m e ->
  ranked (fun y => PrimFloat.add c y) (ext (fun z => sround (frank c + z))).
Proof.
  intros Ec y Ny. pose proof (ext_cases (fun z => sround (frank c + z)) y Ny) as Hc.
  pose proof (Prim2SF_valid y) as Vy. pose proof (Prim2SF_valid c) as Vc.
  unfold not_nan, frank in *. rewrite add_spec. unfold SF64add.
  destruct (Prim2SF y) as [sy|sy| |sy my ey] eqn:Ey; [| |contradiction|].
  - destruct Hc as [Hc _]. rewrite Hc.
    apply SFadd_rank; [exact Vc | exact Vy | rewrite Ec; exact I | exact I].
  - destruct sy; rewrite Hc, Ec; (split; [discriminate | reflexivity]).
  - destruct Hc as [Hc _]. rewrite Hc.
    apply SFadd_rank; [exact Vc | exact Vy | rewrite Ec; exact I | exact I].
Qed.

Lemma ranked_mul (r : float) (m : positive) (e : Z) :
  Prim2SF r = S754_finite false m e ->
  ranked (fun x => PrimFloat.mul x r) (ext (mround (frank r))).
Proof.
  intros Er x Nx. pose proof (ext_cases (mround (frank r)) x Nx) as Hc.
  pose proof (Prim2SF_valid x) as Vx. pose proof (Prim2SF_valid r) as Vr.
  unfold not_nan, frank in *. rewrite mul_spec. unfold SF64mul.
  destruct (Prim2SF x) as [sx|sx| |sx mx ex] eqn:Ex; [| |contradiction|].
  - destruct Hc as [Hc _]. rewrite Hc.
    apply (SFmul_rank _ _ m e); [exact Vx | exact Er | exact Vr | exact I].
  - destruct sx; rewrite Hc, Er; (split; [discriminate | reflexivity]).
  - destruct Hc as [Hc _]. rewrite Hc.
    apply (SFmul_rank _ _ m e); [exact Vx | exact Er | exact Vr | exact I].
Qed.

(** Subtracting a finite number, multiplying by a positive finite number
    and adding to a finite number are monotone. *)
Lemma sub_monotone (b : float) (s : bool) (m : positive) (e : Z) :
  Prim2SF b = S754_finite s m e -> monotone (fun x => PrimFloat.sub x b).
Proof.
  intros Eb. apply (ranked_monotone _ _ (ranked_sub b s m e Eb)).
  apply ext_mono.
  - intros z z' Hle. apply sround_mono. lia.
  - intros z. apply sround_bounds.
Qed.

Lemma add_monotone (c : float) (s : bool) (m : positive) (e : Z) :
  Prim2SF c = S754_finite s m e -> monotone (fun y => PrimFloat.add c y).
Proof.
  intros Ec. apply (ranked_monotone _ _ (ranked_add c s m e Ec)).
  apply ext_mono.
  - intros z z' Hle. apply sround_mono. lia.
  - intros z. apply sround_bounds.
Qed.

Lemma mul_monotone (r : float) (m : positive) (e : Z) :
  Prim2SF r = S754_finite false m e -> monotone (fun x => PrimFloat.mul x r).
Proof.
  intros Er. apply (ranked_monotone _ _ (ranked_mul r m e Er)).
  assert (Hpos : 0 < frank r).
  { unfold frank. pose proof (Prim2SF_valid r) as Vr. rewrite Er in *.
    apply (rank_finite_bounds false m e Vr). }
  apply ext_mono.
  - intros z z' Hle. apply mround_mono; assumption.
  - intros z. apply mround_bounds, Hpos.
Qed.

Lemma leb_trans (x y z : float) :
  PrimFloat.leb x y = true -> PrimFloat.leb y z = true -> PrimFloat.leb x z = true.
Proof.
  rewrite !leb_frank. intros (Nx & Ny & Hxy) (_ & Nz & Hyz).
  split; [exact Nx|]. split; [exact Nz | lia].
Qed.

Lemma leb_total (x y : float) :
  not_nan x -> not_nan y -> PrimFloat.leb x y = false -> PrimFloat.leb y x = true.
Proof.
  intros Nx Ny Hf. apply leb_frank. split; [exact Ny|]. split; [exact Nx|].
  destruct (Z.le_gt_cases (frank y) (frank x)) as [H|H]; [exact H|].
  assert (Ht : PrimFloat.leb x y = true)
    by (apply leb_frank; split; [exact Nx|]; split; [exact Ny | lia]).
  congruence.
Qed.

(** Two monotone functions glued at the number [b], the first being below
    the second there. *)
Lemma glue_monotone (b : float) (G H : float -> float) :
  not_nan b -> monotone G -> monotone H -> PrimFloat.leb (G b) (H b) = true ->
  monotone (fun x => if PrimFloat.leb x b then G x else H x).
Proof.
  intros Nb HG HH Hb x y Hle.
  pose proof Hle as Hle'. apply leb_frank in Hle'. destruct Hle' as (Nx & Ny & _).
  destruct (PrimFloat.leb x b) eqn:Hxb; destruct (PrimFloat.leb y b) eqn:Hyb.
  - apply HG, Hle.
  - apply (leb_trans _ (G b)); [apply HG, Hxb|].
    apply (leb_trans _ (H b)); [exact Hb|].
    apply HH, leb_total; assumption.
  - rewrite (leb_trans x y b Hle Hyb) in Hxb. discriminate.
  - apply HH, Hle.
Qed.

(** The return expression of a tier: [c + (kwh - b) * r]. *)
Lemma tier_monotone (c b r : float) :
  is_finite c = true -> is_finite b = true -> is_positive r = true ->
  monotone (fun kwh => PrimFloat.add c (PrimFloat.mul (PrimFloat.sub kwh b) r)).
Proof.
  unfold is_finite, is_positive. intros Hc Hb Hr.
  destruct (Prim2SF c) as [| | |sc mc ec] eqn:Ec; try discriminate Hc.
  destruct (Prim2SF b) as [| | |sb mb eb] eqn:Eb; try discriminate Hb.
  destruct (Prim2SF r) as [| | |[|] mr er] eqn:Er; try discriminate Hr.
  apply (monotone_compose (fun kwh => PrimFloat.mul (PrimFloat.sub kwh b) r)
           (fun y => PrimFloat.add c y)).
  - apply (monotone_compose (fun kwh => PrimFloat.sub kwh b)
             (fun y => PrimFloat.mul y r)).
    + exact (sub_monotone b sb mb eb Eb).
    + exact (mul_monotone r mr er Er).
  - exact (add_monotone c sc mc ec Ec).
Qed.

Lemma finite_not_nan (b : float) : is_finite b = true -> not_nan b.
Proof.
  unfold is_finite, not_nan. destruct (Prim2SF b); discriminate || (intros _; discriminate).
Qed.

(** [calc_bill_bd] is monotone on binary64: for all floats [x <= y], NaNs
    and infinities included, [calc_bill_bd x <= calc_bill_bd y]. *)
Lemma tariff_monotone : monotone Tariff.calc_bill_bd.
Proof.
  unfold Tariff.calc_bill_bd.
  repeat (apply glue_monotone;
          [apply finite_not_nan; vm_compute; reflexivity | | | vm_compute; reflexivity]).
  all: try (apply tier_monotone; vm_compute; reflexivity).
  unfold Tariff.tier1.
  destruct (Prim2SF 3.75%float) as [| | |[|] mr er] eqn:Er;
    try (vm_compute in Er; discriminate Er).
  exact (mul_monotone _ mr er Er).
Qed.

End Binary64Facts.

Lemma calc_bill_bd_binary64_continuous :
  Tariff.py_eq (Tariff.tier1 50) (Tariff.tier2 50) = true /\
  Tariff.py_eq (Tariff.tier2 75) (Tariff.tier3 75) = true /\
  Tariff.py_eq (Tariff.tier3 200) (Tariff.tier4 200) = true /\
  Tariff.py_eq (Tariff.tier4 300) (Tariff.tier5 300) = true /\
  Tariff.py_eq (Tariff.tier5 400) (Tariff.tier6 400) = true.
Proof. repeat split; vm_compute; reflexivity. Qed.

(** C4: the tariff is monotonically non-decreasing and, at each of the
    boundaries 50, 75, 200, 300 and 400 kWh, the branch below and the branch
    above compute the same value.  Both are stated of the binary64 function
    Python runs: for all floats [x <= y], the infinities included (a NaN
    is [<=] nothing), [calc_bill_bd x <= calc_bill_bd y] with Python's [<=]
    on floats, and the two branches at a boundary are [==]. *)
Theorem calc_bill_bd_monotone_continuous :
  (forall x y : float,
      PrimFloat.leb x y = true ->
      PrimFloat.leb (Tariff.calc_bill_bd x) (Tariff.calc_bill_bd y) = true) /\
  (Tariff.py_eq (Tariff.tier1 50) (Tariff.tier2 50) = true /\
   Tariff.py_eq (Tariff.tier2 75) (Tariff.tier3 75) = true /\
   Tariff.py_eq (Tariff.tier3 200) (Tariff.tier4 200) = true /\
   Tariff.py_eq (Tariff.tier4 300) (Tariff.tier5 300) = true /\
   Tariff.py_eq (Tariff.tier5 400) (Tariff.tier6 400) = true).
Proof.
  split; [exact Binary64Facts.tariff_monotone|].
  exact calc_bill_bd_binary64_continuous.
Qed.

Lemma calc_bill_bd_monotone_continuous_witness :
  PrimFloat.leb (Tariff.calc_bill_bd 60) (Tariff.calc_bill_bd 310) = true.
Proof.
  apply (proj1 calc_bill_bd_monotone_continuous 60%float 310%float).
  vm_compute. reflexivity.
Defined.

(** *** Cloud client *)

Ltac run := unfold bind, try_except, ret, raise, lift; simpl.

(** [get_token] sends exactly one request, never raises, and returns what
    [token_of_reply] reads off the reply. *)
Lemma get_token_spec (C : cloud) (access_id access_secret : string) (w : world) :
  get_token C access_id access_secret w =
  (Ret (token_of_reply (respond C (ticks w) (token_request access_id))),
   record_request (token_request access_id) w).
Proof.
  unfold get_token, requests_send, sign, raise_for_status, json. run.
  destruct (respond C (ticks w) (token_request access_id)) as [|st [body|]]; simpl;
    try reflexivity.
  - destruct (Z.leb 400 st && Z.ltb st 600) eqn:Hst; simpl.
    + destruct body; reflexivity.
    + destruct body as [| | | | s | items | fields]; simpl; try reflexivity.
      * destruct (PyStr.contains "result" s); reflexivity.
      * destruct (existsb _ items); reflexivity.
      * destruct (Py.assoc "result" fields) as [inner|]; simpl; [|reflexivity].
        destruct inner as [| | | | s | items | inner]; simpl; try reflexivity.
        -- destruct (PyStr.contains "access_token" s); reflexivity.
        -- destruct (existsb _ items); reflexivity.
        -- destruct (Py.assoc "access_token" inner); reflexivity.
  - destruct (Z.leb 400 st && Z.ltb st 600); reflexivity.
Qed.

(** *** Schedule evaluator: one transition *)

Lemma truthy_PStr (s : string) : s <> EmptyString -> Py.truthy (PStr s) = true.
Proof. intros Hs. destruct s; [congruence | reflexivity]. Qed.

(** A granted token and a 200 reply: both requests go out and the tracker
    is marked. *)
Lemma execute_transition_ok (C : cloud) device_id access_id access_secret
    value key current_time (w : world) tok body :
  token_of_reply (respond C (ticks w) (token_request access_id)) = PStr tok ->
  tok <> EmptyString ->
  respond C (S (ticks w)) (command_request device_id access_id tok value)
    = Response 200 body ->
  execute_transition C device_id access_id access_secret value key current_time w =
  (Ret tt,
   with_tracker (<[key := current_time]> (schedule_execution_tracker w))
     (record_request (command_request device_id access_id tok value)
        (record_request (token_request access_id) w))).
Proof.
  intros Htok Hne Hrp. unfold execute_transition, try_except, bind.
  rewrite get_token_spec, Htok, (truthy_PStr _ Hne).
  unfold sign. rewrite (truthy_PStr _ Hne). unfold ret at 1.
  unfold requests_send. simpl ticks. rewrite Hrp. reflexivity.
Qed.

(** A transition never raises, and always asks for a token first. *)
Lemma execute_transition_attempt (C : cloud) device_id access_id access_secret
    value key current_time (w : world) :
  result (execute_transition C device_id access_id access_secret value key current_time) w
    = Ret tt /\
  exists rest,
    sent (exec (execute_transition C device_id access_id access_secret value key
                  current_time) w)
    = (sent w ++ token_request access_id :: rest)%list.
Proof.
  unfold result, exec, execute_transition, try_except, bind.
  rewrite get_token_spec. cbv beta iota.
  destruct (token_of_reply _) as [| b | z | f | tok | items | fields];
    unfold sign, Py.truthy;
    try (split; [reflexivity | exists []; reflexivity]).
  - destruct b; (split; [reflexivity | exists []; reflexivity]).
  - destruct (negb (Z.eqb z 0)); (split; [reflexivity | exists []; reflexivity]).
  - destruct (negb (PrimFloat.eqb f 0)); (split; [reflexivity | exists []; reflexivity]).
  - destruct (negb (String.eqb tok EmptyString));
      [|split; [reflexivity | exists []; reflexivity]].
    unfold ret at 1. unfold requests_send. simpl.
    destruct (respond C _ _) as [|st body]; simpl.
    + split; [reflexivity | eexists; rewrite <- app_assoc; reflexivity].
    + destruct (Z.eqb st 200); simpl;
        (split; [reflexivity | eexists; rewrite <- app_assoc; reflexivity]).
  - destruct items; (split; [reflexivity | exists []; reflexivity]).
  - destruct fields; (split; [reflexivity | exists []; reflexivity]).
Qed.

(** A failed transport leaves the tracker as it was. *)
Lemma execute_transition_failed (C : cloud) device_id access_id access_secret
    value key current_time (w : world) :
  transport_failure C w device_id access_id value ->
  schedule_execution_tracker
    (exec (execute_transition C device_id access_id access_secret value key
             current_time) w)
  = schedule_execution_tracker w.
Proof.
  intros Hfail. unfold exec, execute_transition, try_except, bind.
  rewrite get_token_spec.
  destruct Hfail as [Hfalsy | Htruthy Hnot | tok Htok Hne Hrp | tok st body Htok Hne Hrp Hst].
  - rewrite Hfalsy. reflexivity.
  - rewrite Htruthy. unfold sign. rewrite Htruthy.
    destruct (token_of_reply _) as [| | | | tok | |]; try reflexivity.
    exfalso. apply (Hnot tok). reflexivity.
  - rewrite Htok, (truthy_PStr _ Hne). unfold sign. rewrite (truthy_PStr _ Hne).
    unfold ret at 1. unfold requests_send. simpl ticks. rewrite Hrp. reflexivity.
  - rewrite Htok, (truthy_PStr _ Hne). unfold sign. rewrite (truthy_PStr _ Hne).
    unfold ret at 1. unfold requests_send. simpl ticks. rewrite Hrp. simpl.
    destruct (Z.eqb_spec st 200); [contradiction | reflexivity].
Qed.

(** *** Schedule evaluator: the loop body *)

Lemma already_executed_spec key current_time (w : world) :
  already_executed key current_time w =
  (Ret (match schedule_execution_tracker w !! key with
        | Some last_exec => String.eqb last_exec current_time
        | None => false
        end), w).
Proof. reflexivity. Qed.

Lemma lookup_eqb_true (T : gmap string string) key current_time :
  T !! key = Some current_time ->
  match T !! key with
  | Some last_exec => String.eqb last_exec current_time
  | None => false
  end = true.
Proof. intros ->. apply String.eqb_refl. Qed.

Lemma lookup_eqb_false (T : gmap string string) key current_time :
  T !! key <> Some current_time ->
  match T !! key with
  | Some last_exec => String.eqb last_exec current_time
  | None => false
  end = false.
Proof.
  intros Hne. destruct (T !! key) as [v|]; [|reflexivity].
  destruct (String.eqb_spec v current_time); [subst; contradiction | reflexivity].
Qed.

(** No transition is due: the loop body does nothing. *)
Lemma evaluate_schedule_idle (C : cloud) current_time current_day row (w : world) :
  triggered_key current_time current_day row = None ->
  evaluate_schedule C current_time current_day row w = (Ret tt, w).
Proof.
  unfold triggered_key, evaluate_schedule. intros Hk.
  destruct (negb (PyStr.mem _ _)); [reflexivity|].
  destruct (String.eqb current_time (s_start_time _)); [discriminate|].
  destruct (String.eqb current_time (s_end_time _)); [discriminate|].
  reflexivity.
Qed.

(** The transition is due but the tracker holds this minute for it: the
    loop body does nothing. *)
Lemma evaluate_schedule_skip (C : cloud) current_time current_day row (w : world) key :
  triggered_key current_time current_day row = Some key ->
  schedule_execution_tracker w !! key = Some current_time ->
  evaluate_schedule C current_time current_day row w = (Ret tt, w).
Proof.
  unfold triggered_key, evaluate_schedule. intros Hk HT.
  destruct (negb (PyStr.mem _ _)); [discriminate|].
  destruct (String.eqb current_time (s_start_time _)).
  - injection Hk as <-. unfold bind. rewrite already_executed_spec.
    rewrite (lookup_eqb_true _ _ _ HT). reflexivity.
  - destruct (String.eqb current_time (s_end_time _)); [|discriminate].
    injection Hk as <-. unfold bind. rewrite already_executed_spec.
    rewrite (lookup_eqb_true _ _ _ HT). reflexivity.
Qed.

(** The transition is due and not held back: the loop body is the [try]
    block of that transition. *)
Lemma evaluate_schedule_fire (C : cloud) current_time current_day row (w : world) key :
  triggered_key current_time current_day row = Some key ->
  schedule_execution_tracker w !! key <> Some current_time ->
  evaluate_schedule C current_time current_day row w =
  execute_transition C (s_device_id (fst row)) (d_access_id (snd row))
    (d_access_secret (snd row)) (triggered_value current_time row) key current_time w.
Proof.
  unfold triggered_key, triggered_value, evaluate_schedule. intros Hk HT.
  destruct (negb (PyStr.mem _ _)); [discriminate|].
  destruct (String.eqb current_time (s_start_time _)).
  - injection Hk as <-. unfold bind. rewrite already_executed_spec.
    rewrite (lookup_eqb_false _ _ _ HT). reflexivity.
  - destruct (String.eqb current_time (s_end_time _)); [|discriminate].
    injection Hk as <-. unfold bind. rewrite already_executed_spec.
    rewrite (lookup_eqb_false _ _ _ HT). reflexivity.
Qed.

Lemma tracker_entry_dec (T : gmap string string) key (v : string) :
  {T !! key = Some v} + {T !! key <> Some v}.
Proof. destruct (decide (T !! key = Some v)); [left | right]; assumption. Qed.

(** The loop body never raises. *)
Lemma evaluate_schedule_no_raise (C : cloud) current_time current_day row (w : world) :
  result (evaluate_schedule C current_time current_day row) w = Ret tt.
Proof.
  destruct (triggered_key current_time current_day row) as [key|] eqn:Hk.
  - destruct (tracker_entry_dec (schedule_execution_tracker w) key current_time) as [HT|HT].
    + unfold result. rewrite (evaluate_schedule_skip _ _ _ _ _ _ Hk HT). reflexivity.
    + unfold result. rewrite (evaluate_schedule_fire _ _ _ _ _ _ Hk HT).
      apply execute_transition_attempt.
  - unfold result. rewrite (evaluate_schedule_idle _ _ _ _ _ Hk). reflexivity.
Qed.

(** Under a succeeding cloud a due transition sends its two requests and
    marks the tracker. *)
Lemma evaluate_schedule_succeeds (C : cloud) current_time current_day row (w : world) key :
  succeeding C ->
  triggered_key current_time current_day row = Some key ->
  schedule_execution_tracker w !! key <> Some current_time ->
  exists tok,
    evaluate_schedule C current_time current_day row w =
    (Ret tt,
     with_tracker (<[key := current_time]> (schedule_execution_tracker w))
       (record_request
          (command_request (s_device_id (fst row)) (d_access_id (snd row)) tok
             (triggered_value current_time row))
          (record_request (token_request (d_access_id (snd row))) w))).
Proof.
  intros [Htoken Hpost] Hk HT.
  destruct (Htoken (ticks w) (d_access_id (snd row))) as (tok & Htok & Hne).
  destruct (Hpost (S (ticks w))
              (command_request (s_device_id (fst row)) (d_access_id (snd row)) tok
                 (triggered_value current_time row)) eq_refl) as [body Hbody].
  exists tok. rewrite (evaluate_schedule_fire _ _ _ _ _ _ Hk HT).
  apply (execute_transition_ok _ _ _ _ _ _ _ _ _ _ Htok Hne Hbody).
Qed.

(** *** Schedule evaluator: the whole evaluation *)

Lemma for_each_exec {A} (body : A -> M unit) :
  (forall x w, result (body x) w = Ret tt) ->
  forall xs w, for_each xs body w = (Ret tt, exec (for_each xs body) w).
Proof.
  intros Hbody xs. induction xs as [|x xs IH]; intros w; [reflexivity|].
  unfold exec. simpl. unfold bind.
  specialize (Hbody x w). unfold result in Hbody.
  destruct (body x w) as [o w1]. simpl in Hbody. subst o.
  rewrite IH. reflexivity.
Qed.

Lemma for_each_cons {A} (body : A -> M unit) x xs w :
  result (body x) w = Ret tt ->
  exec (for_each (x :: xs) body) w = exec (for_each xs body) (exec (body x) w).
Proof.
  unfold result, exec. simpl. unfold bind.
  destruct (body x w) as [o w1]. simpl. intros ->. reflexivity.
Qed.

(** An evaluation reads the clock once, then runs the loop body over the
    enabled schedules; it never raises. *)
Lemma check_and_execute_schedules_spec (C : cloud) (w : world) :
  check_and_execute_schedules C w =
  (Ret tt,
   exec (for_each (Db.enabled_schedules (db w))
           (evaluate_schedule C (current_time_of (datetime_now C (ticks w)))
              (current_day_of (datetime_now C (ticks w)))))
     (tick w)).
Proof.
  unfold check_and_execute_schedules, try_except, bind, now, get_db.
  cbn [db tick].
  destruct (Db.enabled_schedules (db w)) as [|row rows] eqn:Hrows; [reflexivity|].
  rewrite (for_each_exec _ (evaluate_schedule_no_raise C _ _)). reflexivity.
Qed.

(** *** Frame: what does not touch the database *)

Section Frame.

Context {A B : Type}.

Lemma preserves_db_ret (a : A) : preserves_db (ret a).
Proof. intros w. reflexivity. Qed.

Lemma preserves_db_raise (e : exn) : preserves_db (@raise A e).
Proof. intros w. reflexivity. Qed.

Lemma preserves_db_lift (o : outcome A) : preserves_db (lift o).
Proof. intros w. reflexivity. Qed.

Lemma preserves_db_bind (m : M A) (k : A -> M B) :
  preserves_db m -> (forall a, preserves_db (k a)) -> preserves_db (bind m k).
Proof.
  intros Hm Hk w. unfold exec, bind. specialize (Hm w). unfold exec in Hm.
  destruct (m w) as [[a|e] w1]; simpl in *; [|exact Hm].
  rewrite <- Hm. apply Hk.
Qed.

Lemma preserves_db_try (m : M A) (h : exn -> M A) :
  preserves_db m -> (forall e, preserves_db (h e)) -> preserves_db (try_except m h).
Proof.
  intros Hm Hh w. unfold exec, try_except. specialize (Hm w). unfold exec in Hm.
  destruct (m w) as [[a|e] w1]; simpl in *; [exact Hm|].
  rewrite <- Hm. apply Hh.
Qed.

End Frame.

Lemma preserves_db_requests_send (C : cloud) r : preserves_db (requests_send C r).
Proof. intros w. unfold exec, requests_send. destruct (respond C _ _); reflexivity. Qed.

Lemma preserves_db_now (C : cloud) : preserves_db (now C).
Proof. intros w. reflexivity. Qed.

Lemma preserves_db_unix_time (C : cloud) : preserves_db (unix_time C).
Proof. intros w. reflexivity. Qed.

Lemma preserves_db_get_db : preserves_db get_db.
Proof. intros w. reflexivity. Qed.

Lemma preserves_db_get_tracker : preserves_db get_tracker.
Proof. intros w. reflexivity. Qed.

Lemma preserves_db_tracker_set key value : preserves_db (tracker_set key value).
Proof. intros w. reflexivity. Qed.

Lemma preserves_db_for_each {A} (body : A -> M unit) xs :
  (forall x, preserves_db (body x)) -> preserves_db (for_each xs body).
Proof.
  intros Hbody. induction xs as [|x xs IH]; simpl.
  - apply preserves_db_ret.
  - apply preserves_db_bind; [apply Hbody | intros _; exact IH].
Qed.

Create HintDb frame.
#[local] Hint Resolve preserves_db_ret preserves_db_raise preserves_db_lift
  preserves_db_requests_send preserves_db_now preserves_db_unix_time
  preserves_db_get_db preserves_db_get_tracker preserves_db_tracker_set : frame.

(** Walks a computation built from the monad's combinators and closes the
    [preserves_db] goals at its leaves. *)
Ltac frame :=
  repeat first
    [ progress auto with frame
    | apply preserves_db_bind; [|intro]
    | apply preserves_db_try; [|intro]
    | apply preserves_db_for_each; intro
    | match goal with
      | |- preserves_db (if ?b then _ else _) => destruct b
      | |- preserves_db (match ?x with _ => _ end) => destruct x
      end ].

Lemma preserves_db_sign token : preserves_db (sign token).
Proof. unfold sign. frame. Qed.
#[local] Hint Resolve preserves_db_sign : frame.

Lemma preserves_db_raise_for_status r : preserves_db (raise_for_status r).
Proof. unfold raise_for_status. frame. Qed.

Lemma preserves_db_json r : preserves_db (json r).
Proof. unfold json. frame. Qed.
#[local] Hint Resolve preserves_db_raise_for_status preserves_db_json : frame.

Lemma preserves_db_get_token (C : cloud) access_id access_secret :
  preserves_db (get_token C access_id access_secret).
Proof. unfold get_token. frame. Qed.
#[local] Hint Resolve preserves_db_get_token : frame.

Lemma preserves_db_get_device_info (C : cloud) device_id access_id access_secret :
  preserves_db (get_device_info C device_id access_id access_secret).
Proof. unfold get_device_info. frame. Qed.
#[local] Hint Resolve preserves_db_get_device_info : frame.

Lemma preserves_db_next_in {A} data code (f : pyval -> outcome A) default :
  preserves_db (next_in data code f default).
Proof. unfold next_in. frame. Qed.
#[local] Hint Resolve preserves_db_next_in : frame.

Lemma preserves_db_get_device_data (C : cloud) device_id access_id access_secret :
  preserves_db (get_device_data C device_id access_id access_secret).
Proof. unfold get_device_data. frame. Qed.
#[local] Hint Resolve preserves_db_get_device_data : frame.

Lemma preserves_db_execute_transition (C : cloud) device_id access_id access_secret
    value key current_time :
  preserves_db (execute_transition C device_id access_id access_secret value key
                  current_time).
Proof. unfold execute_transition. frame. Qed.
#[local] Hint Resolve preserves_db_execute_transition : frame.

Lemma preserves_db_evaluate_schedule (C : cloud) current_time current_day row :
  preserves_db (evaluate_schedule C current_time current_day row).
Proof. unfold evaluate_schedule, already_executed. frame. Qed.
#[local] Hint Resolve preserves_db_evaluate_schedule : frame.

Lemma preserves_db_check_and_execute_schedules (C : cloud) :
  preserves_db (check_and_execute_schedules C).
Proof. unfold check_and_execute_schedules. frame. Qed.

(** *** Re-evaluating a minute *)

(** After the loop body ran under a succeeding cloud, the transition that
    was due is marked with this minute, and marks of this minute stay. *)
Lemma evaluate_schedule_marks (C : cloud) current_time current_day row (w : world) :
  succeeding C ->
  let w' := exec (evaluate_schedule C current_time current_day row) w in
  (forall key, triggered_key current_time current_day row = Some key ->
               schedule_execution_tracker w' !! key = Some current_time) /\
  (forall k, schedule_execution_tracker w !! k = Some current_time ->
             schedule_execution_tracker w' !! k = Some current_time).
Proof.
  intros HC w'. subst w'. unfold exec.
  destruct (triggered_key current_time current_day row) as [key|] eqn:Hk.
  - destruct (tracker_entry_dec (schedule_execution_tracker w) key current_time) as [HT|HT].
    + rewrite (evaluate_schedule_skip _ _ _ _ _ _ Hk HT). simpl.
      split; [intros ? [= <-]; exact HT | auto].
    + destruct (evaluate_schedule_succeeds _ _ _ _ _ _ HC Hk HT) as [tok ->]. simpl.
      split.
      * intros ? [= <-]. apply lookup_insert_eq.
      * intros k Hkk. destruct (decide (key = k)) as [<-|Hne].
        -- apply lookup_insert_eq.
        -- rewrite lookup_insert_ne; assumption.
  - rewrite (evaluate_schedule_idle _ _ _ _ _ Hk). simpl.
    split; [intros ? [=] | auto].
Qed.

Lemma loop_marks (C : cloud) current_time current_day :
  succeeding C ->
  forall rows (w : world),
    let w' := exec (for_each rows (evaluate_schedule C current_time current_day)) w in
    (forall row key, In row rows ->
        triggered_key current_time current_day row = Some key ->
        schedule_execution_tracker w' !! key = Some current_time) /\
    (forall k, schedule_execution_tracker w !! k = Some current_time ->
               schedule_execution_tracker w' !! k = Some current_time).
Proof.
  intros HC rows. induction rows as [|row rows IH]; intros w w'; subst w'.
  - split; [intros ? ? [] | auto].
  - rewrite for_each_cons by apply evaluate_schedule_no_raise.
    destruct (evaluate_schedule_marks C current_time current_day row w HC) as [Hrow Hkeep].
    destruct (IH (exec (evaluate_schedule C current_time current_day row) w)) as [Hrows Hkeep'].
    split.
    + intros r key [<-|Hin] Hk.
      * apply Hkeep', Hrow, Hk.
      * apply (Hrows r key Hin Hk).
    + intros k Hkk. apply Hkeep', Hkeep, Hkk.
Qed.

(** When every due transition is already marked with this minute, the loop
    does nothing at all, under any cloud. *)
Lemma loop_held (C : cloud) current_time current_day rows (w : world) :
  (forall row key, In row rows ->
      triggered_key current_time current_day row = Some key ->
      schedule_execution_tracker w !! key = Some current_time) ->
  for_each rows (evaluate_schedule C current_time current_day) w = (Ret tt, w).
Proof.
  induction rows as [|row rows IH]; intros Hheld; [reflexivity|].
  simpl. unfold bind.
  assert (Hrow : evaluate_schedule C current_time current_day row w = (Ret tt, w)).
  { destruct (triggered_key current_time current_day row) as [key|] eqn:Hk.
    - apply (evaluate_schedule_skip _ _ _ _ _ _ Hk).
      apply (Hheld row key); [left; reflexivity | exact Hk].
    - apply evaluate_schedule_idle, Hk. }
  rewrite Hrow. apply IH. intros r key Hin. apply Hheld. right. exact Hin.
Qed.

Lemma issued_nothing (w w' : world) : sent w' = sent w -> issued w w' = [].
Proof. intros Hs. unfold issued. rewrite Hs, drop_all. reflexivity. Qed.

(** Evaluating a minute again, after an evaluation in which every command
    succeeded, only reads the clock: no request goes out and the tracker and
    the database stay as they are. *)
Lemma reevaluation_is_idle (C C' : cloud) (t : datetime) (w : world) :
  succeeding C ->
  let w1 := exec (check_and_execute_schedules (at_time C t)) w in
  check_and_execute_schedules (at_time C' t) w1 = (Ret tt, tick w1).
Proof.
  intros HC w1. rewrite check_and_execute_schedules_spec. f_equal.
  cbn [datetime_now at_time].
  assert (Hdb : db w1 = db w) by apply preserves_db_check_and_execute_schedules.
  rewrite Hdb. unfold exec. rewrite loop_held; [reflexivity|].
  intros row key Hin Hk. cbn [schedule_execution_tracker tick].
  subst w1. unfold exec at 1. rewrite check_and_execute_schedules_spec.
  cbn [snd datetime_now at_time].
  assert (HC' : succeeding (at_time C t)) by exact HC.
  destruct (loop_marks (at_time C t) (current_time_of t) (current_day_of t) HC'
              (Db.enabled_schedules (db w)) (tick w)) as [Hmarks _].
  apply (Hmarks row key Hin Hk).
Qed.

(** *** A day with a single enabled schedule *)

Section SingleSchedule.

Variable C : cloud.
Variable row : schedule_row * device_row.

(** With one enabled schedule an evaluation is the clock read followed by
    the loop body on that schedule. *)
Lemma evaluate_at_single day hm (w : world) :
  Db.enabled_schedules (db w) = [row] ->
  evaluate_at C day hm w =
  exec (evaluate_schedule (at_time C (clock_at day hm))
          (current_time_of (clock_at day hm)) (current_day_of (clock_at day hm)) row)
    (tick w).
Proof.
  intros Hrows. unfold evaluate_at, exec.
  rewrite check_and_execute_schedules_spec, Hrows. cbn [snd datetime_now at_time].
  unfold exec. simpl for_each. unfold bind.
  pose proof (evaluate_schedule_no_raise (at_time C (clock_at day hm))
                (current_time_of (clock_at day hm)) (current_day_of (clock_at day hm))
                row (tick w)) as Hret.
  unfold result in Hret.
  destruct (evaluate_schedule _ _ _ row (tick w)) as [o w1].
  simpl in Hret. subst o. reflexivity.
Qed.

Lemma evaluate_at_idle day hm (w : world) :
  Db.enabled_schedules (db w) = [row] ->
  triggered_key (current_time_of (clock_at day hm)) (current_day_of (clock_at day hm)) row
    = None ->
  evaluate_at C day hm w = tick w.
Proof.
  intros Hrows Hk. rewrite (evaluate_at_single _ _ _ Hrows).
  unfold exec. rewrite (evaluate_schedule_idle _ _ _ _ _ Hk). reflexivity.
Qed.

(** A due transition that the tracker does not hold back is issued, once,
    and marked. *)
Lemma evaluate_at_fires day hm (w : world) key :
  succeeding C ->
  Db.enabled_schedules (db w) = [row] ->
  triggered_key (current_time_of (clock_at day hm)) (current_day_of (clock_at day hm)) row
    = Some key ->
  schedule_execution_tracker w !! key <> Some (current_time_of (clock_at day hm)) ->
  let w' := evaluate_at C day hm w in
  issued w w' = [triggered_value (current_time_of (clock_at day hm)) row] /\
  schedule_execution_tracker w' =
    <[key := current_time_of (clock_at day hm)]> (schedule_execution_tracker w) /\
  db w' = db w.
Proof.
  intros HC Hrows Hk HT w'. subst w'. rewrite (evaluate_at_single _ _ _ Hrows).
  assert (HC' : succeeding (at_time C (clock_at day hm))) by exact HC.
  destruct (evaluate_schedule_succeeds _ _ _ _ (tick w) _ HC' Hk HT) as [tok Heq].
  unfold exec. rewrite Heq. cbn [snd]. repeat split.
  unfold issued. cbn [sent with_tracker record_request tick].
  rewrite <- app_assoc, drop_app_length. reflexivity.
Qed.

(** Minutes at which nothing is due leave no trace and change nothing but
    the count of clock reads. *)
Lemma trace_idle day ms :
  Forall (fun hm =>
            triggered_key (current_time_of (clock_at day hm))
              (current_day_of (clock_at day hm)) row = None) ms ->
  forall w : world,
    Db.enabled_schedules (db w) = [row] ->
    firings (trace_minutes C day ms w) = [] /\
    sent (run_minutes C day ms w) = sent w /\
    schedule_execution_tracker (run_minutes C day ms w) = schedule_execution_tracker w /\
    db (run_minutes C day ms w) = db w.
Proof.
  induction 1 as [|hm ms Hhm _ IH]; intros w Hrows; [repeat split|].
  cbn [trace_minutes run_minutes]. rewrite (evaluate_at_idle _ _ _ Hrows Hhm).
  destruct (IH (tick w) Hrows) as (Hf & Hs & Ht & Hd).
  repeat split; try assumption.
  unfold firings. cbn [List.filter snd]. rewrite issued_nothing by reflexivity.
  exact Hf.
Qed.

Lemma trace_minutes_app day ms1 ms2 (w : world) :
  trace_minutes C day (ms1 ++ ms2) w =
  (trace_minutes C day ms1 w ++ trace_minutes C day ms2 (run_minutes C day ms1 w))%list.
Proof.
  revert w. induction ms1 as [|hm ms1 IH]; intros w; [reflexivity|].
  cbn [trace_minutes run_minutes app]. rewrite IH. reflexivity.
Qed.

Lemma run_minutes_app day ms1 ms2 (w : world) :
  run_minutes C day (ms1 ++ ms2) w = run_minutes C day ms2 (run_minutes C day ms1 w).
Proof.
  revert w. induction ms1 as [|hm ms1 IH]; intros w; [reflexivity|].
  cbn [run_minutes app]. apply IH.
Qed.

End SingleSchedule.

Lemma firings_app tr1 tr2 : firings (tr1 ++ tr2) = (firings tr1 ++ firings tr2)%list.
Proof. apply List.filter_app. Qed.

(** The clock string of a minute does not depend on the day. *)
Lemma current_time_of_day day hm :
  current_time_of (clock_at day hm) = current_time_of (clock_at Monday hm).
Proof. reflexivity. Qed.

Lemma quiet_at_idle day row hm :
  quiet_at (s_start_time (fst row)) (s_end_time (fst row)) hm = true ->
  triggered_key (current_time_of (clock_at day hm)) (current_day_of (clock_at day hm)) row
    = None.
Proof.
  unfold quiet_at, triggered_key. rewrite (current_time_of_day day).
  intros [H1 H2]%andb_prop.
  apply negb_true_iff in H1, H2. rewrite H1, H2.
  destruct (negb _); reflexivity.
Qed.

Lemma other_day_idle day row hm :
  PyStr.mem (current_day_of (clock_at day hm)) (schedule_days (s_days (fst row))) = false ->
  triggered_key (current_time_of (clock_at day hm)) (current_day_of (clock_at day hm)) row
    = None.
Proof. unfold triggered_key. intros ->. reflexivity. Qed.

Lemma triggered_key_start current_time current_day row :
  PyStr.mem current_day (schedule_days (s_days (fst row))) = true ->
  current_time = s_start_time (fst row) ->
  triggered_key current_time current_day row
    = Some (tracker_key_on (s_id (fst row)) current_day).
Proof.
  intros Hmem ->. unfold triggered_key. rewrite Hmem, String.eqb_refl. reflexivity.
Qed.

Lemma triggered_key_end current_time current_day row :
  PyStr.mem current_day (schedule_days (s_days (fst row))) = true ->
  current_time <> s_start_time (fst row) ->
  current_time = s_end_time (fst row) ->
  triggered_key current_time current_day row
    = Some (tracker_key_off (s_id (fst row)) current_day).
Proof.
  intros Hmem Hne Heq. unfold triggered_key. rewrite Hmem.
  destruct (String.eqb_spec current_time (s_start_time (fst row))); [contradiction|].
  rewrite Heq, String.eqb_refl. reflexivity.
Qed.

(** An idle stretch contributes no firing to a trace. *)
Lemma trace_idle_then (C : cloud) row day ms1 ms2 :
  Forall (fun hm =>
            triggered_key (current_time_of (clock_at day hm))
              (current_day_of (clock_at day hm)) row = None) ms1 ->
  forall w : world,
    Db.enabled_schedules (db w) = [row] ->
    firings (trace_minutes C day (ms1 ++ ms2) w)
    = firings (trace_minutes C day ms2 (run_minutes C day ms1 w)).
Proof.
  intros Hidle w Hrows. rewrite trace_minutes_app, firings_app.
  destruct (trace_idle C row day ms1 Hidle w Hrows) as [-> _]. reflexivity.
Qed.

(** A minute in which commands are issued heads the firings from there. *)
Lemma trace_fires_then (C : cloud) day hm ms (w : world) v :
  issued w (evaluate_at C day hm w) = [v] ->
  firings (trace_minutes C day (hm :: ms) w)
  = (hm, [v]) :: firings (trace_minutes C day ms (evaluate_at C day hm w)).
Proof.
  intros Hi. cbn [trace_minutes]. unfold firings. cbn [List.filter snd].
  rewrite Hi. reflexivity.
Qed.

Lemma quiet_minutes_idle day row ms :
  forallb (quiet_at (s_start_time (fst row)) (s_end_time (fst row))) ms = true ->
  Forall (fun hm =>
            triggered_key (current_time_of (clock_at day hm))
              (current_day_of (clock_at day hm)) row = None) ms.
Proof.
  intros Hall. apply Forall_forall. intros hm Hin.
  apply quiet_at_idle. rewrite forallb_forall in Hall. apply Hall.
  apply list_elem_of_In. exact Hin.
Qed.

Lemma whole_day_split :
  whole_day =
  (minutes_from 0 480 ++ [(8, 0)%nat] ++ minutes_from 481 599 ++ [(18, 0)%nat]
   ++ minutes_from 1081 359)%list.
Proof. vm_compute. reflexivity. Qed.

(** C1: a single enabled schedule 08:00-18:00 on monday, every command
    succeeding, the tracker not yet holding these two transitions: over the
    1440 evaluations of a Monday exactly one ON command is issued, in the
    evaluation of 08:00, and exactly one OFF command, in the evaluation of
    18:00; over a Tuesday none is issued; and evaluating any minute a second
    time issues nothing. *)
Theorem monday_schedule_fires_once_each
    (C : cloud) (w : world) (s : schedule_row) (d : device_row) :
  succeeding C ->
  Db.enabled_schedules (db w) = [(s, d)] ->
  s_start_time s = "08:00" ->
  s_end_time s = "18:00" ->
  schedule_days (s_days s) = ["monday"] ->
  schedule_execution_tracker w !! tracker_key_on (s_id s) "monday" <> Some "08:00" ->
  schedule_execution_tracker w !! tracker_key_off (s_id s) "monday" <> Some "18:00" ->
  firings (trace_minutes C Monday whole_day w)
    = [((8, 0)%nat, [true]); ((18, 0)%nat, [false])] /\
  firings (trace_minutes C Tuesday whole_day w) = [] /\
  (forall day hm,
      let w1 := evaluate_at C day hm w in
      issued w1 (evaluate_at C day hm w1) = []).
Proof.
  intros HC Hrows Hstart Hend Hdays Hon Hoff.
  set (row := (s, d)) in *.
  assert (Hquiet : forall ms,
             forallb (quiet_at "08:00" "18:00") ms = true ->
             Forall (fun hm =>
                       triggered_key (current_time_of (clock_at Monday hm))
                         (current_day_of (clock_at Monday hm)) row = None) ms).
  { intros ms Hms. apply quiet_minutes_idle. cbn [fst row].
    rewrite Hstart, Hend. exact Hms. }
  assert (Hmem : PyStr.mem "monday" (schedule_days (s_days s)) = true)
    by (rewrite Hdays; reflexivity).
  assert (Hk_on : triggered_key (current_time_of (clock_at Monday (8, 0)%nat))
                    (current_day_of (clock_at Monday (8, 0)%nat)) row
                  = Some (tracker_key_on (s_id s) "monday")).
  { apply triggered_key_start; [exact Hmem | symmetry; exact Hstart]. }
  assert (Hk_off : triggered_key (current_time_of (clock_at Monday (18, 0)%nat))
                     (current_day_of (clock_at Monday (18, 0)%nat)) row
                   = Some (tracker_key_off (s_id s) "monday")).
  { apply triggered_key_end; [exact Hmem | | symmetry; exact Hend].
    cbn [fst row]. rewrite Hstart. discriminate. }
  assert (Q1 : forallb (quiet_at "08:00" "18:00") (minutes_from 0 480) = true)
    by (vm_compute; reflexivity).
  assert (Q3 : forallb (quiet_at "08:00" "18:00") (minutes_from 481 599) = true)
    by (vm_compute; reflexivity).
  assert (Q5 : forallb (quiet_at "08:00" "18:00") (minutes_from 1081 359) = true)
    by (vm_compute; reflexivity).
  split; [|split].
  - rewrite whole_day_split.
    (* before 08:00 *)
    rewrite (trace_idle_then C row Monday _ _ (Hquiet _ Q1) w Hrows).
    destruct (trace_idle C row Monday (minutes_from 0 480) (Hquiet _ Q1) w Hrows)
      as (_ & _ & Ht1 & Hd1).
    remember (run_minutes C Monday (minutes_from 0 480) w) as w1 eqn:Hw1.
    assert (Hrows1 : Db.enabled_schedules (db w1) = [row]) by (rewrite Hd1; exact Hrows).
    (* 08:00 *)
    assert (Hon1 : schedule_execution_tracker w1 !! tracker_key_on (s_id s) "monday"
                   <> Some (current_time_of (clock_at Monday (8, 0)%nat))).
    { rewrite Ht1. exact Hon. }
    destruct (evaluate_at_fires C row Monday (8, 0)%nat w1 _ HC Hrows1 Hk_on Hon1)
      as (Hi2 & Ht2 & Hd2).
    rewrite <- app_comm_cons. rewrite app_nil_l.
    rewrite (trace_fires_then C Monday _ _ _ _ Hi2).
    remember (evaluate_at C Monday (8, 0)%nat w1) as w2 eqn:Hw2.
    assert (Hrows2 : Db.enabled_schedules (db w2) = [row]) by (rewrite Hd2; exact Hrows1).
    (* between 08:00 and 18:00 *)
    rewrite (trace_idle_then C row Monday _ _ (Hquiet _ Q3) w2 Hrows2).
    destruct (trace_idle C row Monday (minutes_from 481 599) (Hquiet _ Q3) w2 Hrows2)
      as (_ & _ & Ht3 & Hd3).
    remember (run_minutes C Monday (minutes_from 481 599) w2) as w3 eqn:Hw3.
    assert (Hrows3 : Db.enabled_schedules (db w3) = [row]) by (rewrite Hd3; exact Hrows2).
    (* 18:00 *)
    assert (Hoff3 : schedule_execution_tracker w3 !! tracker_key_off (s_id s) "monday"
                    <> Some (current_time_of (clock_at Monday (18, 0)%nat))).
    { rewrite Ht3, Ht2.
      destruct (decide (tracker_key_on (s_id s) "monday" = tracker_key_off (s_id s) "monday"))
        as [Heq|Hne].
      - rewrite Heq, lookup_insert_eq. discriminate.
      - rewrite lookup_insert_ne by exact Hne. rewrite Ht1. exact Hoff. }
    destruct (evaluate_at_fires C row Monday (18, 0)%nat w3 _ HC Hrows3 Hk_off Hoff3)
      as (Hi4 & Ht4 & Hd4).
    rewrite <- app_comm_cons. rewrite app_nil_l.
    rewrite (trace_fires_then C Monday _ _ _ _ Hi4).
    remember (evaluate_at C Monday (18, 0)%nat w3) as w4 eqn:Hw4.
    assert (Hrows4 : Db.enabled_schedules (db w4) = [row]) by (rewrite Hd4; exact Hrows3).
    (* after 18:00 *)
    destruct (trace_idle C row Monday (minutes_from 1081 359) (Hquiet _ Q5) w4 Hrows4)
      as (Hf5 & _).
    rewrite Hf5. unfold triggered_value. cbn [fst row]. rewrite Hstart.
    reflexivity.
  - apply (trace_idle C row Tuesday whole_day); [|exact Hrows].
    apply Forall_forall. intros hm _. apply other_day_idle.
    cbn [fst row]. rewrite Hdays. reflexivity.
  - intros day hm w1. apply issued_nothing.
    unfold evaluate_at, exec. subst w1. unfold evaluate_at.
    rewrite (reevaluation_is_idle C C (clock_at day hm) w HC). reflexivity.
Qed.

Lemma obliging_succeeding : succeeding obliging.
Proof.
  split.
  - intros n access_id. exists "tok". split; [reflexivity | discriminate].
  - intros n r Hr. simpl. rewrite Hr. eexists. reflexivity.
Qed.

Lemma monday_schedule_fires_once_each_witness :
  firings (trace_minutes obliging Monday whole_day office)
    = [((8, 0)%nat, [true]); ((18, 0)%nat, [false])] /\
  firings (trace_minutes obliging Tuesday whole_day office) = [] /\
  (forall day hm,
      let w1 := evaluate_at obliging day hm office in
      issued w1 (evaluate_at obliging day hm w1) = []).
Proof.
  apply (monday_schedule_fires_once_each obliging office office_hours plug).
  - exact obliging_succeeding.
  - reflexivity.
  - reflexivity.
  - reflexivity.
  - reflexivity.
  - vm_compute. discriminate.
  - vm_compute. discriminate.
Defined.

(** *** The tracker across days *)

(** C2, at the failing input: the schedule [office_hours] fires ON and OFF
    on the first Monday; the process keeps running through the week, and on
    the following Monday neither transition is issued: the entries
    [1_ON_monday] and [1_OFF_monday] of the tracker still hold 08:00 and
    18:00, and the evaluator takes them for this minute. *)
Theorem second_monday_is_suppressed :
  commands (sent (run_days obliging week office)) = [true; false] /\
  schedule_execution_tracker (run_days obliging week office)
    = <[ "1_OFF_monday" := "18:00" ]> (<[ "1_ON_monday" := "08:00" ]> ∅) /\
  firings (trace_minutes obliging Monday whole_day (run_days obliging week office)) = [].
Proof.
  split; [|split].
  - vm_compute. reflexivity.
  - vm_compute. reflexivity.
  - vm_compute. reflexivity.
Qed.

(** *** Start and end as trigger points *)

Lemma issued_two (w : world) r1 r2 T :
  issued w (with_tracker T (record_request r2 (record_request r1 w)))
  = commands [r1; r2].
Proof.
  unfold issued. cbn [sent with_tracker record_request].
  rewrite <- app_assoc, drop_app_length. reflexivity.
Qed.

(** What one run of the loop body issues under a succeeding cloud: the due
    transition when the tracker does not hold it back, nothing otherwise. *)
Lemma evaluate_schedule_issues (C : cloud) current_time current_day row (w : world) :
  succeeding C ->
  issued w (exec (evaluate_schedule C current_time current_day row) w) =
  match triggered_key current_time current_day row with
  | Some key =>
      if decide (schedule_execution_tracker w !! key = Some current_time) then []
      else [triggered_value current_time row]
  | None => []
  end.
Proof.
  intros HC. destruct (triggered_key current_time current_day row) as [key|] eqn:Hk.
  - destruct (decide (schedule_execution_tracker w !! key = Some current_time)) as [HT|HT].
    + unfold exec. rewrite (evaluate_schedule_skip _ _ _ _ _ _ Hk HT).
      apply issued_nothing. reflexivity.
    + destruct (evaluate_schedule_succeeds _ _ _ _ _ _ HC Hk HT) as [tok Heq].
      unfold exec. rewrite Heq. cbn [snd]. rewrite issued_two. reflexivity.
  - unfold exec. rewrite (evaluate_schedule_idle _ _ _ _ _ Hk).
    apply issued_nothing. reflexivity.
Qed.

(** C7, counterexample: a schedule whose start and end are both 08:00,
    evaluated on Monday at 08:00 with every command succeeding, issues the ON
    command and no OFF command. *)
Lemma same_minute_issues_only_on :
  issued blink (evaluate_at obliging Monday (8, 0)%nat blink) = [true] /\
  ~ In false (issued blink (evaluate_at obliging Monday (8, 0)%nat blink)).
Proof.
  assert (H : issued blink (evaluate_at obliging Monday (8, 0)%nat blink) = [true])
    by (vm_compute; reflexivity).
  split; [exact H|]. rewrite H. intros [Hf|[]]. discriminate.
Qed.

(** C7, amended: on a scheduled day and with every command succeeding, the
    minute of the start time issues the ON command alone, also when the end
    time is the same minute, in which case no OFF command is issued; a
    minute of the end time that is not the start time issues the OFF command
    alone.  Nothing is assumed on the order of start and end, so a schedule
    that spans midnight fires each trigger at its own minute.  Each holds
    when the tracker does not already record that transition for that
    minute. *)
Theorem start_takes_precedence_over_end
    (C : cloud) (current_time current_day : string)
    (row : schedule_row * device_row) (w : world) :
  succeeding C ->
  PyStr.mem current_day (schedule_days (s_days (fst row))) = true ->
  let w' := exec (evaluate_schedule C current_time current_day row) w in
  (current_time = s_start_time (fst row) ->
   schedule_execution_tracker w !! tracker_key_on (s_id (fst row)) current_day
     <> Some current_time ->
   issued w w' = [true]) /\
  (current_time = s_end_time (fst row) ->
   current_time <> s_start_time (fst row) ->
   schedule_execution_tracker w !! tracker_key_off (s_id (fst row)) current_day
     <> Some current_time ->
   issued w w' = [false]) /\
  (current_time = s_start_time (fst row) ->
   current_time = s_end_time (fst row) ->
   ~ In false (issued w w')).
Proof.
  intros HC Hmem w'. subst w'. rewrite (evaluate_schedule_issues _ _ _ _ _ HC).
  split; [|split].
  - intros Hstart HT. rewrite (triggered_key_start _ _ _ Hmem Hstart).
    destruct (decide _) as [Heq|_]; [contradiction|].
    unfold triggered_value. rewrite Hstart, String.eqb_refl. reflexivity.
  - intros Hend Hne HT. rewrite (triggered_key_end _ _ _ Hmem Hne Hend).
    destruct (decide _) as [Heq|_]; [contradiction|].
    unfold triggered_value.
    destruct (String.eqb_spec current_time (s_start_time (fst row)));
      [contradiction | reflexivity].
  - intros Hstart _. rewrite (triggered_key_start _ _ _ Hmem Hstart).
    destruct (decide _); [intros []|].
    unfold triggered_value.
    destruct (String.eqb_spec current_time (s_start_time (fst row)));
      [intros [Hf|[]]; discriminate | contradiction].
Qed.

Lemma start_takes_precedence_over_end_witness :
  issued night (exec (evaluate_schedule obliging "22:00" "monday" (overnight, plug)) night)
    = [true] /\
  issued night (exec (evaluate_schedule obliging "06:00" "monday" (overnight, plug)) night)
    = [false] /\
  ~ In false
      (issued blink (exec (evaluate_schedule obliging "08:00" "monday" (same_minute, plug))
                       blink)).
Proof.
  split; [|split].
  - apply (start_takes_precedence_over_end obliging "22:00" "monday"
             (overnight, plug) night obliging_succeeding eq_refl).
    + reflexivity.
    + vm_compute. discriminate.
  - apply (start_takes_precedence_over_end obliging "06:00" "monday"
             (overnight, plug) night obliging_succeeding eq_refl).
    + reflexivity.
    + discriminate.
    + vm_compute. discriminate.
  - apply (start_takes_precedence_over_end obliging "08:00" "monday"
             (same_minute, plug) blink obliging_succeeding eq_refl); reflexivity.
Defined.

(** *** Failed transport *)

(** C8: the trigger minute of a transition matches, the tracker does not
    hold the transition back, and the transport fails (no token, a token
    [sign] cannot use, no reply to the command, or a status other than
    200): the loop body does not raise and leaves the tracker exactly as it
    was, so that evaluating the same minute again, under any cloud, asks for
    a token again. *)
Theorem failed_transport_leaves_tracker_unmarked
    (C C' : cloud) (current_time current_day : string)
    (row : schedule_row * device_row) (w : world) (key : string) :
  triggered_key current_time current_day row = Some key ->
  schedule_execution_tracker w !! key <> Some current_time ->
  transport_failure C w (s_device_id (fst row)) (d_access_id (snd row))
    (triggered_value current_time row) ->
  let w' := exec (evaluate_schedule C current_time current_day row) w in
  result (evaluate_schedule C current_time current_day row) w = Ret tt /\
  schedule_execution_tracker w' = schedule_execution_tracker w /\
  exists rest,
    sent (exec (evaluate_schedule C' current_time current_day row) w')
    = (sent w' ++ token_request (d_access_id (snd row)) :: rest)%list.
Proof.
  intros Hk HT Hfail w'.
  assert (Hsame : schedule_execution_tracker w' = schedule_execution_tracker w).
  { subst w'. unfold exec. rewrite (evaluate_schedule_fire _ _ _ _ _ _ Hk HT).
    apply execute_transition_failed, Hfail. }
  split; [apply evaluate_schedule_no_raise|]. split; [exact Hsame|].
  assert (HT' : schedule_execution_tracker w' !! key <> Some current_time)
    by (rewrite Hsame; exact HT).
  unfold exec at 1. rewrite (evaluate_schedule_fire _ _ _ _ _ _ Hk HT').
  apply execute_transition_attempt.
Qed.

Lemma failed_transport_leaves_tracker_unmarked_witness :
  let w' := exec (evaluate_schedule unreachable "08:00" "monday" (office_hours, plug))
              office in
  result (evaluate_schedule unreachable "08:00" "monday" (office_hours, plug)) office
    = Ret tt /\
  schedule_execution_tracker w' = schedule_execution_tracker office /\
  exists rest,
    sent (exec (evaluate_schedule obliging "08:00" "monday" (office_hours, plug)) w')
    = (sent w' ++ token_request "access-id" :: rest)%list.
Proof.
  apply (failed_transport_leaves_tracker_unmarked unreachable obliging "08:00" "monday"
           (office_hours, plug) office "1_ON_monday").
  - reflexivity.
  - vm_compute. discriminate.
  - apply token_unobtainable. reflexivity.
Defined.

(** *** [get_device_data] and exceptions *)

(** C5, at the failing input: the token request is granted and the
    metadata request is answered with status 200 and a JSON body whose
    [result] is a non-empty string.  [get_device_info] returns that string,
    it is truthy, and [device_info.get('online', False)], which stands
    outside every [try], raises [AttributeError] out of [get_device_data]. *)
Theorem get_device_data_raises_on_non_object_result :
  result (get_device_info odd_metadata "plug-1" "access-id" "access-secret") office
    = Ret (PStr "maintenance") /\
  result (get_device_data odd_metadata "plug-1" "access-id" "access-secret") office
    = Raise AttributeError.
Proof. split; vm_compute; reflexivity. Qed.

Lemma try_except_total {A} (m : M A) (a : A) (w : world) :
  exists x, result (try_except m (fun _ => ret a)) w = Ret x.
Proof.
  unfold result, try_except. destruct (m w) as [[x|e] w1]; simpl; eauto.
Qed.

Lemma get_device_info_no_raise (C : cloud) device_id access_id access_secret (w : world) :
  exists v, result (get_device_info C device_id access_id access_secret) w = Ret v.
Proof. apply try_except_total. Qed.

(** Where the metadata is an object, or falsy, [get_device_data] returns;
    and it returns the zeroed tuple when the metadata is falsy or the
    object does not say [online]. *)
Lemma get_device_data_returns (C : cloud) device_id access_id access_secret (w : world) v :
  result (get_device_info C device_id access_id access_secret) w = Ret v ->
  Py.truthy v = false \/ (exists fields, v = PDict fields) ->
  (exists t, result (get_device_data C device_id access_id access_secret) w = Ret t) /\
  (Py.truthy v = false \/
   (exists fields, v = PDict fields /\
      Py.truthy (match Py.assoc "online" fields with
                 | Some x => x
                 | None => PBool false
                 end) = false) ->
   result (get_device_data C device_id access_id access_secret) w = Ret zeroed).
Proof.
  intros Hinfo Hshape. unfold result in Hinfo.
  unfold result, get_device_data, bind, lift.
  destruct (get_device_info C device_id access_id access_secret w) as [o w1].
  simpl in Hinfo. subst o.
  destruct (Py.truthy v) eqn:Hv; cbn [negb].
  - destruct Hshape as [?|[fields ->]]; [discriminate|].
    cbn [Py.get].
    destruct (Py.truthy (match Py.assoc "online" fields with
                         | Some x => x
                         | None => PBool false
                         end)) eqn:Hon; cbn [negb].
    + split; [apply try_except_total|].
      intros [?|(fields' & [= <-] & Hoff)]; [discriminate|congruence].
    + split; [eexists; reflexivity | reflexivity].
  - split; [eexists; reflexivity | reflexivity].
Qed.

(** *** The readings table *)

Lemma same_key_true device_id ts (r : reading_row) :
  Db.same_key device_id ts r = true <-> (r_device_id r, r_ts r) = (device_id, ts).
Proof.
  unfold Db.same_key. rewrite andb_true_iff, String.eqb_eq, Z.eqb_eq.
  split; [intros [-> ->]; reflexivity | intros [= -> ->]; split; reflexivity].
Qed.

Lemma existsb_same_key device_id ts (rows : list reading_row) :
  existsb (Db.same_key device_id ts) rows = true <->
  In (device_id, ts) (map (fun r => (r_device_id r, r_ts r)) rows).
Proof.
  rewrite existsb_exists, in_map_iff. split.
  - intros (r & Hin & Hk). exists r. split; [apply same_key_true, Hk | exact Hin].
  - intros (r & Hk & Hin). exists r. split; [exact Hin | apply same_key_true, Hk].
Qed.

(** Under the uniqueness invariant a key that occurs, occurs in one row. *)
Lemma unique_key_one_row device_id ts (rows : list reading_row) :
  NoDup (map (fun r => (r_device_id r, r_ts r)) rows) ->
  existsb (Db.same_key device_id ts) rows = true ->
  length (List.filter (Db.same_key device_id ts) rows) = 1%nat.
Proof.
  induction rows as [|r rows IH]; intros Hnd Hex; [discriminate|].
  cbn [map] in Hnd. apply NoDup_cons in Hnd as [Hnotin Hnd].
  cbn [List.filter existsb] in *.
  destruct (Db.same_key device_id ts r) eqn:Hr.
  - apply same_key_true in Hr. rewrite Hr in Hnotin.
    assert (Hnone : List.filter (Db.same_key device_id ts) rows = []).
    { destruct (List.filter (Db.same_key device_id ts) rows) as [|r' rest] eqn:Hf;
        [reflexivity|].
      exfalso. apply Hnotin. apply list_elem_of_In. apply existsb_same_key.
      apply existsb_exists. exists r'.
      assert (Hin : In r' (List.filter (Db.same_key device_id ts) rows))
        by (rewrite Hf; left; reflexivity).
      apply List.filter_In in Hin. exact Hin. }
    rewrite Hnone. reflexivity.
  - apply IH; assumption.
Qed.

Lemma insert_or_ignore_present device_id ts v c p (d : database) :
  existsb (Db.same_key device_id ts)
    (readings (Db.insert_or_ignore_reading device_id ts v c p d)) = true.
Proof.
  unfold Db.insert_or_ignore_reading.
  destruct (existsb (Db.same_key device_id ts) (readings d)) eqn:Hex; [exact Hex|].
  cbn [readings]. rewrite existsb_app. cbn [existsb].
  unfold Db.same_key at 2. cbn [r_device_id r_ts].
  rewrite String.eqb_refl, Z.eqb_refl. apply orb_true_r.
Qed.

Lemma insert_or_ignore_unique device_id ts v c p (d : database) :
  unique_keys d -> unique_keys (Db.insert_or_ignore_reading device_id ts v c p d).
Proof.
  unfold unique_keys, Db.insert_or_ignore_reading. intros Hnd.
  destruct (existsb (Db.same_key device_id ts) (readings d)) eqn:Hex; [exact Hnd|].
  cbn [readings]. rewrite map_app. cbn [map r_device_id r_ts].
  apply NoDup_app. split; [exact Hnd|]. split.
  - intros k Hk Hk'. apply list_elem_of_In in Hk'. destruct Hk' as [<-|[]].
    apply list_elem_of_In in Hk. apply existsb_same_key in Hk. congruence.
  - apply NoDup_singleton.
Qed.

(** The loop body of the collector never raises. *)
Lemma collect_device_no_raise (C : cloud) dev (w : world) :
  result (collect_device C dev) w = Ret tt.
Proof.
  unfold result, collect_device, try_except.
  destruct (bind get_db _ w) as [[[]|e] w1]; reflexivity.
Qed.

(** C6: with the uniqueness invariant on the table, inserting a reading
    keeps the invariant and leaves exactly one row for its (device, ts);
    inserting another reading with the same (device, ts), whatever its
    values, leaves every row of the store as it is (the insert only uses up
    a value of the [AUTOINCREMENT] counter); and the loop body that performs
    the insert never raises.  The two readings are arbitrary, so the order
    in which they arrive does not matter. *)
Theorem readings_unique_per_device_and_timestamp
    (d : database) (device_id : string) (ts : Z) (v c p v' c' p' : option float) :
  unique_keys d ->
  let d1 := Db.insert_or_ignore_reading device_id ts v c p d in
  let d2 := Db.insert_or_ignore_reading device_id ts v' c' p' d1 in
  unique_keys d1 /\
  length (List.filter (Db.same_key device_id ts) (readings d1)) = 1%nat /\
  readings d2 = readings d1 /\
  devices d2 = devices d1 /\
  schedules d2 = schedules d1 /\
  (forall (C : cloud) dev (w : world), result (collect_device C dev) w = Ret tt).
Proof.
  intros Hnd d1 d2.
  assert (Hnd1 : unique_keys d1) by apply insert_or_ignore_unique, Hnd.
  assert (Hex1 : existsb (Db.same_key device_id ts) (readings d1) = true)
    by apply insert_or_ignore_present.
  split; [exact Hnd1|]. split; [apply (unique_key_one_row _ _ _ Hnd1 Hex1)|].
  split; [|split; [reflexivity|split; [reflexivity|]]].
  - subst d2. unfold Db.insert_or_ignore_reading at 1. cbn [readings].
    rewrite Hex1. reflexivity.
  - intros. apply collect_device_no_raise.
Qed.

Lemma readings_unique_per_device_and_timestamp_witness :
  let d1 := Db.insert_or_ignore_reading "plug-1" 1700000000
              (Some 231%float) (Some 1%float) (Some 231%float) (db metered) in
  let d2 := Db.insert_or_ignore_reading "plug-1" 1700000000
              (Some 0%float) None (Some 0%float) d1 in
  unique_keys d1 /\
  length (List.filter (Db.same_key "plug-1" 1700000000) (readings d1)) = 1%nat /\
  readings d2 = readings d1 /\
  devices d2 = devices d1 /\
  schedules d2 = schedules d1 /\
  (forall (C : cloud) dev (w : world), result (collect_device C dev) w = Ret tt).
Proof.
  apply (readings_unique_per_device_and_timestamp (db metered) "plug-1" 1700000000
           (Some 231%float) (Some 1%float) (Some 231%float)
           (Some 0%float) None (Some 0%float)).
  unfold unique_keys. cbn. apply NoDup_singleton.
Defined.

(** *** The device loop of the collector *)

(** What the loop body does to the world: nothing at all for a device that
    is not in the table; nothing to the database when the fetch reports the
    device offline or raises; otherwise at most one [INSERT OR IGNORE] of a
    reading of that device. *)
Lemma collect_device_effect (C : cloud) dev (w : world) :
  let w' := exec (collect_device C dev) w in
  (Db.device_exists (fst (fst dev)) (db w) = false -> w' = w) /\
  (reports_offline C dev w -> db w' = db w) /\
  (db w' = db w \/
   exists ts v c p, db w' = Db.insert_or_ignore_reading (fst (fst dev)) ts v c p (db w)).
Proof.
  unfold reports_offline, result, exec, collect_device, try_except, bind, get_db.
  cbn beta iota.
  destruct (Db.device_exists (fst (fst dev)) (db w)) eqn:Hex; cbn [negb];
    [|repeat split; auto].
  pose proof (preserves_db_get_device_data C (fst (fst dev)) (snd (fst dev)) (snd dev) w)
    as Hdb.
  unfold exec in Hdb.
  destruct (get_device_data C (fst (fst dev)) (snd (fst dev)) (snd dev) w) as [[t|e] w1];
    cbn [fst snd] in *.
  - destruct (Py.truthy (t_is_online t)) eqn:Hon.
    + unfold unix_time. cbn [db tick]. rewrite Hdb, Hex. unfold lift, modify_db.
      split; [discriminate|]. split; [discriminate|].
      destruct (Db.bind_real (t_voltage t)) as [voltage|e];
        [|left; cbn [snd db tick]; exact Hdb].
      destruct (Db.bind_real (t_current t)) as [current|e];
        [|left; cbn [snd db tick]; exact Hdb].
      destruct (Db.bind_real (t_power t)) as [power|e];
        [|left; cbn [snd db tick]; exact Hdb].
      cbn [fst snd db with_db tick]. rewrite Hdb. right. eauto.
    + cbn [snd ret]. split; [discriminate|]. split; [auto|]. left. exact Hdb.
  - cbn [snd ret]. split; [discriminate|]. split; [auto|]. left. exact Hdb.
Qed.

Lemma readings_of_insert_other other device_id ts v c p (d : database) :
  other <> device_id ->
  Db.readings_of other (Db.insert_or_ignore_reading device_id ts v c p d)
  = Db.readings_of other d.
Proof.
  intros Hne. unfold Db.insert_or_ignore_reading.
  destruct (existsb _ (readings d)); [reflexivity|].
  unfold Db.readings_of. cbn [readings]. rewrite List.filter_app.
  cbn [List.filter r_device_id].
  destruct (String.eqb_spec device_id other); [congruence|]. apply app_nil_r.
Qed.

Lemma devices_insert device_id ts v c p (d : database) :
  devices (Db.insert_or_ignore_reading device_id ts v c p d) = devices d.
Proof.
  unfold Db.insert_or_ignore_reading. destruct (existsb _ (readings d)); reflexivity.
Qed.

Lemma schedules_insert device_id ts v c p (d : database) :
  schedules (Db.insert_or_ignore_reading device_id ts v c p d) = schedules d.
Proof.
  unfold Db.insert_or_ignore_reading. destruct (existsb _ (readings d)); reflexivity.
Qed.

(** The loop body leaves the devices and schedules tables alone, and the
    readings of every device but its own. *)
Lemma collect_device_frame (C : cloud) dev (w : world) other :
  let w' := exec (collect_device C dev) w in
  devices (db w') = devices (db w) /\
  schedules (db w') = schedules (db w) /\
  (other <> fst (fst dev) -> Db.readings_of other (db w') = Db.readings_of other (db w)).
Proof.
  intros w'. destruct (collect_device_effect C dev w) as (_ & _ & [Hsame|Hins]);
    fold w' in Hsame || fold w' in Hins.
  - rewrite Hsame. auto.
  - destruct Hins as (ts & v & c & p & ->).
    rewrite devices_insert, schedules_insert. repeat split.
    intros Hne. apply readings_of_insert_other, Hne.
Qed.

(** The readings of one device across the loop body. *)
Lemma collect_device_readings (C : cloud) dev (w : world) device_id :
  (fst (fst dev) = device_id ->
   Db.device_exists device_id (db w) = true -> reports_offline C dev w) ->
  Db.readings_of device_id (db (exec (collect_device C dev) w))
  = Db.readings_of device_id (db w).
Proof.
  intros Hoff. destruct (String.eqb_spec (fst (fst dev)) device_id) as [Heq|Hne].
  - destruct (Db.device_exists device_id (db w)) eqn:Hex.
    + destruct (collect_device_effect C dev w) as (_ & Hsame & _).
      rewrite Hsame; [reflexivity | apply Hoff; [exact Heq | reflexivity]].
    + destruct (collect_device_effect C dev w) as (Hskip & _ & _).
      rewrite Hskip; [reflexivity | rewrite Heq; exact Hex].
  - apply collect_device_frame. congruence.
Qed.

Lemma device_loop_readings (C : cloud) device_id devs :
  forall w : world,
    fetches_offline C device_id devs w ->
    Db.readings_of device_id (db (exec (for_each devs (collect_device C)) w))
    = Db.readings_of device_id (db w).
Proof.
  induction devs as [|dev devs IH]; intros w Hoff; [reflexivity|].
  destruct Hoff as [Hdev Hrest].
  rewrite for_each_cons by apply collect_device_no_raise.
  rewrite (IH _ Hrest). apply collect_device_readings, Hdev.
Qed.

Lemma device_loop_frame (C : cloud) devs :
  forall w : world,
    devices (db (exec (for_each devs (collect_device C)) w)) = devices (db w) /\
    schedules (db (exec (for_each devs (collect_device C)) w)) = schedules (db w).
Proof.
  induction devs as [|dev devs IH]; intros w; [split; reflexivity|].
  rewrite for_each_cons by apply collect_device_no_raise.
  destruct (IH (exec (collect_device C dev) w)) as [-> ->].
  destruct (collect_device_frame C dev w EmptyString) as (Hd & Hs & _). auto.
Qed.

Lemma check_and_execute_schedules_ret (C : cloud) (w : world) :
  check_and_execute_schedules C w = (Ret tt, exec (check_and_execute_schedules C) w).
Proof. unfold exec. rewrite check_and_execute_schedules_spec. reflexivity. Qed.

(** A pass of the collector never raises; its device loop runs over the
    devices listed at the start, from the world [loop_start]. *)
Lemma collect_data_pass_spec (C : cloud) latch (w : world) :
  exists latch',
    collect_data_pass C latch w =
    (Ret latch',
     exec (for_each (Db.list_devices (db w)) (collect_device C)) (loop_start C latch w)).
Proof.
  unfold collect_data_pass, loop_start, try_except, bind at 1, now.
  destruct (negb (Z.eqb (Z.of_nat (dt_minute (datetime_now C (ticks w)))) latch)).
  - unfold bind at 1. unfold bind at 1.
    rewrite check_and_execute_schedules_ret. cbn [ret].
    unfold bind at 1. unfold get_db at 1. unfold bind at 1.
    rewrite (for_each_exec _ (collect_device_no_raise C)).
    rewrite (preserves_db_check_and_execute_schedules C (tick w)).
    cbn [db tick]. eexists. reflexivity.
  - unfold bind at 1. cbn [ret]. unfold bind at 1. unfold get_db at 1.
    unfold bind at 1. rewrite (for_each_exec _ (collect_device_no_raise C)).
    cbn [db tick]. eexists. reflexivity.
Qed.

Lemma loop_start_db (C : cloud) latch (w : world) : db (loop_start C latch w) = db w.
Proof.
  unfold loop_start. destruct (negb _); [|reflexivity].
  apply (preserves_db_check_and_execute_schedules C (tick w)).
Qed.

(** C10: in a pass of the collector, a device whose fetches all report it
    offline (a falsy [is_online], or an exception) has the same rows in the
    readings table after the pass as before it: the zeroed tuple is not
    stored. *)
Theorem offline_device_gets_no_reading
    (C : cloud) (latch : Z) (w : world) (device_id : string) :
  fetches_offline C device_id (Db.list_devices (db w)) (loop_start C latch w) ->
  Db.readings_of device_id (db (exec (collect_data_pass C latch) w))
  = Db.readings_of device_id (db w).
Proof.
  intros Hoff. destruct (collect_data_pass_spec C latch w) as [latch' Hpass].
  unfold exec at 1. rewrite Hpass. cbn [snd].
  rewrite (device_loop_readings C device_id _ _ Hoff).
  rewrite loop_start_db. reflexivity.
Qed.

Lemma offline_device_gets_no_reading_witness :
  Db.readings_of "plug-1" (db (exec (collect_data_pass all_offline (-1)) metered))
  = Db.readings_of "plug-1" (db metered).
Proof.
  apply (offline_device_gets_no_reading all_offline (-1) metered "plug-1").
  vm_compute. split; [intros _ _; reflexivity | exact I].
Defined.

(** *** Deleting a device *)

Lemma device_exists_devices device_id (d d' : database) :
  devices d = devices d' -> Db.device_exists device_id d = Db.device_exists device_id d'.
Proof. unfold Db.device_exists. intros ->. reflexivity. Qed.

Lemma device_exists_after_delete device_id other (d : database) :
  Db.device_exists other (Db.delete_device_row device_id (Db.delete_readings device_id d))
  = (Db.device_exists other d && negb (String.eqb other device_id))%bool.
Proof.
  unfold Db.device_exists, Db.delete_device_row, Db.delete_readings. cbn [devices].
  induction (devices d) as [|dv dvs IH]; [reflexivity|].
  cbn [List.filter existsb].
  destruct (String.eqb_spec (d_device_id dv) device_id) as [Heq|Hne]; cbn [negb existsb].
  - rewrite IH. destruct (String.eqb_spec (d_device_id dv) other) as [Heq'|Hne'].
    + rewrite <- Heq', Heq, String.eqb_refl. cbn. apply andb_false_r.
    + reflexivity.
  - rewrite IH. destruct (String.eqb_spec (d_device_id dv) other) as [Heq'|Hne'].
    + subst other. destruct (String.eqb_spec (d_device_id dv) device_id); [contradiction|].
      reflexivity.
    + reflexivity.
Qed.

Lemma readings_of_after_delete device_id other (d : database) :
  Db.readings_of other (Db.delete_device_row device_id (Db.delete_readings device_id d))
  = if String.eqb other device_id then [] else Db.readings_of other d.
Proof.
  unfold Db.readings_of, Db.delete_device_row, Db.delete_readings. cbn [readings].
  induction (readings d) as [|r rs IH].
  - destruct (String.eqb other device_id); reflexivity.
  - cbn [List.filter].
    destruct (String.eqb_spec (r_device_id r) device_id) as [Heq|Hne]; cbn [negb List.filter].
    + rewrite IH. destruct (String.eqb_spec other device_id) as [Ho|Ho]; [reflexivity|].
      destruct (String.eqb_spec (r_device_id r) other); [congruence | reflexivity].
    + rewrite IH. destruct (String.eqb_spec other device_id) as [Ho|Ho].
      * destruct (String.eqb_spec (r_device_id r) other); [congruence | reflexivity].
      * reflexivity.
Qed.

(** A device that is not in the table is never fetched, so no fetch for it
    can report anything. *)
Lemma missing_device_fetches (C : cloud) device_id devs :
  forall w : world,
    Db.device_exists device_id (db w) = false ->
    fetches_offline C device_id devs w.
Proof.
  induction devs as [|dev devs IH]; intros w Hex; [exact I|].
  split; [intros _ Htrue; congruence|].
  apply IH. rewrite <- Hex. apply device_exists_devices.
  apply (collect_device_frame C dev w EmptyString).
Qed.

(** A pass of the collector leaves a device that is not in the table out
    of the table, and its readings as they are. *)
Lemma pass_skips_missing_device (C : cloud) latch (w : world) device_id :
  Db.device_exists device_id (db w) = false ->
  Db.device_exists device_id (db (exec (collect_data_pass C latch) w)) = false /\
  Db.readings_of device_id (db (exec (collect_data_pass C latch) w))
  = Db.readings_of device_id (db w) /\
  schedules (db (exec (collect_data_pass C latch) w)) = schedules (db w).
Proof.
  intros Hex.
  assert (Hstart : Db.device_exists device_id (db (loop_start C latch w)) = false)
    by (rewrite loop_start_db; exact Hex).
  split; [|split].
  - destruct (collect_data_pass_spec C latch w) as [latch' Hpass].
    unfold exec at 1. rewrite Hpass. cbn [snd]. rewrite <- Hstart.
    apply device_exists_devices, device_loop_frame.
  - destruct (collect_data_pass_spec C latch w) as [latch' Hpass].
    unfold exec at 1. rewrite Hpass. cbn [snd].
    rewrite (device_loop_readings C device_id _ _
               (missing_device_fetches C device_id _ _ Hstart)).
    rewrite loop_start_db. reflexivity.
  - destruct (collect_data_pass_spec C latch w) as [latch' Hpass].
    unfold exec at 1. rewrite Hpass. cbn [snd].
    destruct (device_loop_frame C (Db.list_devices (db w)) (loop_start C latch w))
      as [_ ->].
    rewrite loop_start_db. reflexivity.
Qed.

Lemma passes_skip_missing_device (C : cloud) device_id n :
  forall latch (w : world),
    Db.device_exists device_id (db w) = false ->
    (exists latch', result (collect_data_passes C n latch) w = Ret latch') /\
    Db.device_exists device_id (db (exec (collect_data_passes C n latch) w)) = false /\
    Db.readings_of device_id (db (exec (collect_data_passes C n latch) w))
    = Db.readings_of device_id (db w) /\
    schedules (db (exec (collect_data_passes C n latch) w)) = schedules (db w).
Proof.
  induction n as [|n IH]; intros latch w Hex.
  - split; [exists latch; reflexivity|]. auto.
  - destruct (pass_skips_missing_device C latch w device_id Hex) as (Hex1 & Hr1 & Hs1).
    destruct (collect_data_pass_spec C latch w) as [latch1 Hpass].
    remember (exec (collect_data_pass C latch) w) as w1 eqn:Hw1.
    assert (Hstep : collect_data_passes C (S n) latch w = collect_data_passes C n latch1 w1).
    { cbn [collect_data_passes]. unfold bind. subst w1. unfold exec.
      rewrite Hpass. reflexivity. }
    unfold result, exec. rewrite Hstep.
    destruct (IH latch1 w1 Hex1) as (Hret & Hex2 & Hr2 & Hs2).
    split; [exact Hret|]. split; [exact Hex2|].
    split; [etransitivity; [exact Hr2 | exact Hr1]
           | etransitivity; [exact Hs2 | exact Hs1]].
Qed.

(** C9: deleting a registered device answers 200 and removes its row and
    every reading of it; the schedules table, the other devices and the
    readings of the other devices are as before.  Afterwards the loop body
    of the collector, handed the deleted device, does nothing, and any
    number of collector passes run to their end without raising, leave the
    device deleted and store no reading for it. *)
Theorem delete_device_removes_device_and_readings
    (C : cloud) (device_id : string) (w : world) :
  Db.device_exists device_id (db w) = true ->
  let w' := exec (delete_device device_id) w in
  result (delete_device device_id) w = Ret 200 /\
  Db.device_exists device_id (db w') = false /\
  Db.readings_of device_id (db w') = [] /\
  schedules (db w') = schedules (db w) /\
  (forall other, other <> device_id ->
     Db.device_exists other (db w') = Db.device_exists other (db w) /\
     Db.readings_of other (db w') = Db.readings_of other (db w)) /\
  (forall access_id access_secret,
     collect_device C (device_id, access_id, access_secret) w' = (Ret tt, w')) /\
  (forall n latch,
     (exists latch', result (collect_data_passes C n latch) w' = Ret latch') /\
     Db.device_exists device_id (db (exec (collect_data_passes C n latch) w')) = false /\
     Db.readings_of device_id (db (exec (collect_data_passes C n latch) w')) = [] /\
     schedules (db (exec (collect_data_passes C n latch) w')) = schedules (db w)).
Proof.
  intros Hex w'.
  assert (Hrun : delete_device device_id w =
                 (Ret 200,
                  with_db (Db.delete_device_row device_id
                             (Db.delete_readings device_id (db w))) w)).
  { unfold delete_device, try_except, bind, get_db, modify_db. cbn beta iota.
    rewrite Hex. reflexivity. }
  assert (Hdb : db w' = Db.delete_device_row device_id
                          (Db.delete_readings device_id (db w))).
  { subst w'. unfold exec. rewrite Hrun. reflexivity. }
  assert (Hgone : Db.device_exists device_id (db w') = false).
  { rewrite Hdb, device_exists_after_delete, String.eqb_refl. apply andb_false_r. }
  assert (Hnone : Db.readings_of device_id (db w') = []).
  { rewrite Hdb, readings_of_after_delete, String.eqb_refl. reflexivity. }
  assert (Hsched : schedules (db w') = schedules (db w)) by (rewrite Hdb; reflexivity).
  split; [unfold result; rewrite Hrun; reflexivity|].
  split; [exact Hgone|]. split; [exact Hnone|]. split; [exact Hsched|].
  split; [|split].
  - intros other Hne. rewrite Hdb, device_exists_after_delete, readings_of_after_delete.
    destruct (String.eqb_spec other device_id); [contradiction|].
    split; [apply andb_true_r | reflexivity].
  - intros access_id access_secret.
    pose proof (collect_device_no_raise C (device_id, access_id, access_secret) w') as Hret.
    destruct (collect_device_effect C (device_id, access_id, access_secret) w')
      as (Hskip & _ & _).
    specialize (Hskip Hgone). unfold result in Hret. unfold exec in Hskip.
    destruct (collect_device C (device_id, access_id, access_secret) w') as [o w2].
    cbn [fst snd] in *. congruence.
  - intros n latch.
    destruct (passes_skip_missing_device C device_id n latch w' Hgone)
      as (Hret & Hex' & Hr' & Hs').
    split; [exact Hret|]. split; [exact Hex'|].
    split; [rewrite Hr'; exact Hnone | rewrite Hs'; exact Hsched].
Qed.

Lemma delete_device_removes_device_and_readings_witness :
  let w' := exec (delete_device "plug-1") metered in
  result (delete_device "plug-1") metered = Ret 200 /\
  Db.device_exists "plug-1" (db w') = false /\
  Db.readings_of "plug-1" (db w') = [] /\
  schedules (db w') = schedules (db metered) /\
  (forall other, other <> "plug-1" ->
     Db.device_exists other (db w') = Db.device_exists other (db metered) /\
     Db.readings_of other (db w') = Db.readings_of other (db metered)) /\
  (forall access_id access_secret,
     collect_device obliging ("plug-1", access_id, access_secret) w' = (Ret tt, w')) /\
  (forall n latch,
     (exists latch', result (collect_data_passes obliging n latch) w' = Ret latch') /\
     Db.device_exists "plug-1" (db (exec (collect_data_passes obliging n latch) w')) = false /\
     Db.readings_of "plug-1" (db (exec (collect_data_passes obliging n latch) w')) = [] /\
     schedules (db (exec (collect_data_passes obliging n latch) w')) = schedules (db metered)).
Proof.
  apply (delete_device_removes_device_and_readings obliging "plug-1" metered).
  reflexivity.
Defined.

(** ** Further properties of the code *)

(** *** The cloud client *)

(** X1: [get_token] never raises and sends exactly its one request; it
    returns [None] when there is no reply, when the body is not JSON, and
    when the status is a 4xx or 5xx one, whatever the body says. *)
Theorem get_token_swallows_failures (C : cloud) (access_id access_secret : string)
    (w : world) :
  exists v,
    get_token C access_id access_secret w
      = (Ret v, record_request (token_request access_id) w) /\
    match respond C (ticks w) (token_request access_id) with
    | NoReply => v = PNone
    | Response _ None => v = PNone
    | Response status_code (Some _) =>
        400 <= status_code < 600 -> v = PNone
    end.
Proof.
  eexists. split; [apply get_token_spec|].
  destruct (respond C (ticks w) (token_request access_id)) as [|st [body|]];
    try reflexivity.
  intros [Hlo Hhi]. unfold token_of_reply.
  destruct body; try reflexivity.
  apply Z.leb_le in Hlo. apply Z.ltb_lt in Hhi. rewrite Hlo, Hhi. reflexivity.
Qed.

Lemma try_except_zeroed_offline (m : M telemetry) (w : world) t :
  (forall w1 t1, m w = (Ret t1, w1) -> Py.truthy (t_is_online t1) = false -> t1 = zeroed) ->
  result (try_except m (fun _ => ret zeroed)) w = Ret t ->
  Py.truthy (t_is_online t) = false -> t = zeroed.
Proof.
  unfold result, try_except. intros Hm.
  destruct (m w) as [[t1|e] w1] eqn:Hmw; simpl.
  - intros [= <-]. apply (Hm w1). reflexivity.
  - intros [= <-] _. reflexivity.
Qed.

Lemma falsy_online_zeroed (C : cloud) (device_id access_id access_secret : string)
    (w : world) (t : telemetry) :
  result (get_device_data C device_id access_id access_secret) w = Ret t ->
  Py.truthy (t_is_online t) = false ->
  t = zeroed.
Proof.
  unfold result, get_device_data. unfold bind at 1.
  destruct (get_device_info C device_id access_id access_secret w) as [[v|e] w1];
    [|discriminate].
  destruct (Py.truthy v); cbn [negb]; [|intros [= <-]; reflexivity].
  unfold bind at 1. unfold lift at 1.
  destruct (Py.get v "online" (PBool false)) as [is_online|e]; [|discriminate].
  destruct (Py.truthy is_online) eqn:Hon; cbn [negb]; [|intros [= <-]; reflexivity].
  apply try_except_zeroed_offline. intros w2 t1 Hrun Hoff.
  (* the body of the [try]: every early return is the zeroed tuple, and the
     last one carries [is_online] *)
  unfold bind at 1 in Hrun.
  destruct (get_token C access_id access_secret w1) as [[token|e] w3];
    [|discriminate].
  destruct (Py.truthy token); cbn [negb] in Hrun; [|injection Hrun as <- _; reflexivity].
  unfold bind at 1 in Hrun.
  destruct (sign token w3) as [[tok|e] w4]; [|discriminate].
  unfold bind at 1 in Hrun.
  destruct (requests_send C _ w4) as [[r|e] w5]; [|discriminate].
  unfold bind at 1 in Hrun.
  destruct (raise_for_status r w5) as [[[]|e] w6]; [|discriminate].
  unfold bind at 1 in Hrun.
  destruct (json r w6) as [[response_data|e] w7]; [|discriminate].
  unfold bind at 1 in Hrun.
  destruct (lift (Py.contains "result" response_data) w7) as [[has|e] w8];
    [|discriminate].
  destruct has; cbn [negb] in Hrun; [|injection Hrun as <- _; reflexivity].
  unfold bind at 1 in Hrun.
  destruct (lift (Py.getitem response_data "result") w8) as [[data|e] w9];
    [|discriminate].
  unfold bind at 1 in Hrun.
  destruct (next_in data "switch_1" Ret (PBool false) w9) as [[switch|e] w10];
    [|discriminate].
  unfold bind at 1 in Hrun.
  destruct (next_in data "cur_voltage" _ (IntNum 0) w10) as [[voltage|e] w11];
    [|discriminate].
  unfold bind at 1 in Hrun.
  destruct (next_in data "cur_current" _ (IntNum 0) w11) as [[current|e] w12];
    [|discriminate].
  unfold bind at 1 in Hrun.
  destruct (next_in data "cur_power" _ (IntNum 0) w12) as [[power|e] w13];
    [|discriminate].
  injection Hrun as <- _. cbn [t_is_online] in Hoff. congruence.
Qed.

Lemma try_except_no_raise {A} (m : M A) (a : A) (w : world) e :
  result (try_except m (fun _ => ret a)) w <> Raise e.
Proof.
  destruct (try_except_total m a w) as [x Hx]. rewrite Hx. discriminate.
Qed.

Lemma raise_is_attribute_error
    (C : cloud) (device_id access_id access_secret : string) (w : world) (e : exn) :
  result (get_device_data C device_id access_id access_secret) w = Raise e ->
  e = AttributeError /\
  exists v,
    result (get_device_info C device_id access_id access_secret) w = Ret v /\
    Py.truthy v = true /\ is_dict v = false.
Proof.
  destruct (get_device_info_no_raise C device_id access_id access_secret w) as [v Hv].
  unfold result in *. unfold get_device_data. unfold bind at 1.
  destruct (get_device_info C device_id access_id access_secret w) as [o w1].
  cbn [fst] in Hv. subst o.
  destruct (Py.truthy v) eqn:Htruthy; cbn [negb]; [|discriminate].
  unfold bind at 1. unfold lift at 1.
  destruct v as [| b | z | f | s | items | fields]; cbn [Py.get];
    try (intros [= <-]; split; [reflexivity | eexists; repeat split; assumption]).
  destruct (negb (Py.truthy _)); [discriminate|].
  intros Hraise. exfalso. revert Hraise. apply try_except_no_raise.
Qed.

(** X2: whenever [get_device_data] returns a tuple whose [is_online] is
    falsy, the tuple is the zeroed one: readings are never reported for a
    device that is not reported online. *)
Theorem offline_tuple_is_zeroed (C : cloud) (device_id access_id access_secret : string)
    (w : world) (t : telemetry) :
  result (get_device_data C device_id access_id access_secret) w = Ret t ->
  Py.truthy (t_is_online t) = false ->
  t = zeroed.
Proof. apply falsy_online_zeroed. Qed.

(** X3: the only exception [get_device_data] lets out is [AttributeError],
    and only when the metadata [get_device_info] returned is truthy and not
    an object. *)
Theorem get_device_data_raises_only_on_non_object
    (C : cloud) (device_id access_id access_secret : string) (w : world) (e : exn) :
  result (get_device_data C device_id access_id access_secret) w = Raise e ->
  e = AttributeError /\
  exists v,
    result (get_device_info C device_id access_id access_secret) w = Ret v /\
    Py.truthy v = true /\ is_dict v = false.
Proof. apply raise_is_attribute_error. Qed.

Lemma offline_tuple_is_zeroed_witness :
  {| t_voltage := IntNum 0; t_current := IntNum 0; t_power := IntNum 0;
     t_switch := PBool false; t_is_online := PBool false |} = zeroed.
Proof.
  apply (offline_tuple_is_zeroed all_offline "plug-1" "access-id" "access-secret" office).
  - vm_compute. reflexivity.
  - reflexivity.
Defined.

Lemma get_device_data_raises_only_on_non_object_witness :
  AttributeError = AttributeError /\
  exists v,
    result (get_device_info odd_metadata "plug-1" "access-id" "access-secret") office
      = Ret v /\
    Py.truthy v = true /\ is_dict v = false.
Proof.
  apply (get_device_data_raises_only_on_non_object odd_metadata "plug-1" "access-id"
           "access-secret" office AttributeError).
  vm_compute. reflexivity.
Defined.

(** *** Frame: the tracker, and the requests that go out *)

Section TrackerFrame.

Context {A B : Type}.

Lemma preserves_tracker_ret (a : A) : preserves_tracker (ret a).
Proof. intros w. reflexivity. Qed.

Lemma preserves_tracker_raise (e : exn) : preserves_tracker (@raise A e).
Proof. intros w. reflexivity. Qed.

Lemma preserves_tracker_lift (o : outcome A) : preserves_tracker (lift o).
Proof. intros w. reflexivity. Qed.

Lemma preserves_tracker_bind (m : M A) (k : A -> M B) :
  preserves_tracker m -> (forall a, preserves_tracker (k a)) ->
  preserves_tracker (bind m k).
Proof.
  intros Hm Hk w. unfold exec, bind. specialize (Hm w). unfold exec in Hm.
  destruct (m w) as [[a|e] w1]; simpl in *; [|exact Hm].
  rewrite <- Hm. apply Hk.
Qed.

Lemma preserves_tracker_try (m : M A) (h : exn -> M A) :
  preserves_tracker m -> (forall e, preserves_tracker (h e)) ->
  preserves_tracker (try_except m h).
Proof.
  intros Hm Hh w. unfold exec, try_except. specialize (Hm w). unfold exec in Hm.
  destruct (m w) as [[a|e] w1]; simpl in *; [exact Hm|].
  rewrite <- Hm. apply Hh.
Qed.

Lemma sends_only_ret P (a : A) : sends_only P (ret a).
Proof. intros w. exists []. split; [symmetry; apply app_nil_r | constructor]. Qed.

Lemma sends_only_raise P (e : exn) : sends_only P (@raise A e).
Proof. intros w. exists []. split; [symmetry; apply app_nil_r | constructor]. Qed.

Lemma sends_only_lift P (o : outcome A) : sends_only P (lift o).
Proof. intros w. exists []. split; [symmetry; apply app_nil_r | constructor]. Qed.

Lemma sends_only_bind P (m : M A) (k : A -> M B) :
  sends_only P m -> (forall a, sends_only P (k a)) -> sends_only P (bind m k).
Proof.
  intros Hm Hk w. unfold exec, bind. destruct (Hm w) as (rest & Hs & HP).
  unfold exec in Hs. destruct (m w) as [[a|e] w1]; simpl in *.
  - destruct (Hk a w1) as (rest' & Hs' & HP'). unfold exec in Hs'.
    exists (rest ++ rest')%list. split.
    + rewrite Hs', Hs. symmetry. apply app_assoc.
    + apply Forall_app. split; assumption.
  - exists rest. split; assumption.
Qed.

Lemma sends_only_try P (m : M A) (h : exn -> M A) :
  sends_only P m -> (forall e, sends_only P (h e)) -> sends_only P (try_except m h).
Proof.
  intros Hm Hh w. unfold exec, try_except. destruct (Hm w) as (rest & Hs & HP).
  unfold exec in Hs. destruct (m w) as [[a|e] w1]; simpl in *.
  - exists rest. split; assumption.
  - destruct (Hh e w1) as (rest' & Hs' & HP'). unfold exec in Hs'.
    exists (rest ++ rest')%list. split.
    + rewrite Hs', Hs. symmetry. apply app_assoc.
    + apply Forall_app. split; assumption.
Qed.

End TrackerFrame.

Lemma preserves_tracker_requests_send (C : cloud) r : preserves_tracker (requests_send C r).
Proof. intros w. unfold exec, requests_send. destruct (respond C _ _); reflexivity. Qed.

Lemma preserves_tracker_now (C : cloud) : preserves_tracker (now C).
Proof. intros w. reflexivity. Qed.

Lemma preserves_tracker_unix_time (C : cloud) : preserves_tracker (unix_time C).
Proof. intros w. reflexivity. Qed.

Lemma preserves_tracker_get_db : preserves_tracker get_db.
Proof. intros w. reflexivity. Qed.

Lemma preserves_tracker_modify_db f : preserves_tracker (modify_db f).
Proof. intros w. reflexivity. Qed.

Lemma preserves_db_modify_db_id f :
  (forall d, f d = d) -> preserves_db (modify_db f).
Proof. intros Hf w. unfold exec, modify_db. cbn. apply Hf. Qed.

Lemma preserves_tracker_for_each {A} (body : A -> M unit) xs :
  (forall x, preserves_tracker (body x)) -> preserves_tracker (for_each xs body).
Proof.
  intros Hbody. induction xs as [|x xs IH]; simpl.
  - apply preserves_tracker_ret.
  - apply preserves_tracker_bind; [apply Hbody | intros _; exact IH].
Qed.

Lemma sends_only_requests_send (C : cloud) (P : request -> Prop) r :
  P r -> sends_only P (requests_send C r).
Proof.
  intros HP w. exists [r]. unfold exec, requests_send.
  destruct (respond C _ _); (split; [reflexivity | repeat constructor; exact HP]).
Qed.

Lemma sends_only_quiet {A} (P : request -> Prop) (m : M A) :
  (forall w, sent (exec m w) = sent w) -> sends_only P m.
Proof.
  intros Hm w. exists []. split; [rewrite Hm; symmetry; apply app_nil_r | constructor].
Qed.

Lemma sends_only_for_each {A} P (body : A -> M unit) xs :
  (forall x, sends_only P (body x)) -> sends_only P (for_each xs body).
Proof.
  intros Hbody. induction xs as [|x xs IH]; simpl.
  - apply sends_only_ret.
  - apply sends_only_bind; [apply Hbody | intros _; exact IH].
Qed.

Create HintDb tracker.
#[local] Hint Resolve preserves_tracker_ret preserves_tracker_raise preserves_tracker_lift
  preserves_tracker_requests_send preserves_tracker_now preserves_tracker_unix_time
  preserves_tracker_get_db preserves_tracker_modify_db : tracker.

Ltac tracker_frame :=
  repeat first
    [ progress auto with tracker
    | apply preserves_tracker_bind; [|intro]
    | apply preserves_tracker_try; [|intro]
    | apply preserves_tracker_for_each; intro
    | match goal with
      | |- preserves_tracker (if ?b then _ else _) => destruct b
      | |- preserves_tracker (match ?x with _ => _ end) => destruct x
      end ].

Create HintDb gets.
#[local] Hint Resolve sends_only_ret sends_only_raise sends_only_lift : gets.

(** Closes [sends_only P m] for computations built from the combinators,
    given that [P] holds of each request written out in [m] by
    [reflexivity]. *)
Ltac sends :=
  repeat first
    [ progress auto with gets
    | apply sends_only_bind; [|intro]
    | apply sends_only_try; [|intro]
    | apply sends_only_for_each; intro
    | apply sends_only_requests_send; reflexivity
    | apply sends_only_quiet; intro; reflexivity
    | match goal with
      | |- sends_only _ (if ?b then _ else _) => destruct b
      | |- sends_only _ (match ?x with _ => _ end) => destruct x
      end ].

Lemma preserves_tracker_get_token (C : cloud) access_id access_secret :
  preserves_tracker (get_token C access_id access_secret).
Proof. unfold get_token, sign, raise_for_status, json. tracker_frame. Qed.
#[local] Hint Resolve preserves_tracker_get_token : tracker.

Lemma preserves_tracker_get_device_info (C : cloud) device_id access_id access_secret :
  preserves_tracker (get_device_info C device_id access_id access_secret).
Proof. unfold get_device_info, sign, raise_for_status, json. tracker_frame. Qed.
#[local] Hint Resolve preserves_tracker_get_device_info : tracker.

Lemma preserves_tracker_get_device_data (C : cloud) device_id access_id access_secret :
  preserves_tracker (get_device_data C device_id access_id access_secret).
Proof.
  unfold get_device_data, next_in, sign, raise_for_status, json. tracker_frame.
Qed.
#[local] Hint Resolve preserves_tracker_get_device_data : tracker.

Lemma sends_only_get_token (C : cloud) access_id access_secret :
  sends_only is_get (get_token C access_id access_secret).
Proof. unfold get_token, token_request, sign, raise_for_status, json. sends. Qed.
#[local] Hint Resolve sends_only_get_token : gets.

Lemma sends_only_get_device_info (C : cloud) device_id access_id access_secret :
  sends_only is_get (get_device_info C device_id access_id access_secret).
Proof. unfold get_device_info, sign, raise_for_status, json. sends. Qed.
#[local] Hint Resolve sends_only_get_device_info : gets.

Lemma sends_only_get_device_data (C : cloud) device_id access_id access_secret :
  sends_only is_get (get_device_data C device_id access_id access_secret).
Proof. unfold get_device_data, next_in, sign, raise_for_status, json. sends. Qed.
#[local] Hint Resolve sends_only_get_device_data : gets.

(** X4: fetching telemetry only reads: every request [get_device_data]
    sends is a GET, so it never switches a device, and it leaves the tracker
    and the database as they are, whatever the cloud answers and whether it
    returns or raises. *)
Theorem get_device_data_only_reads
    (C : cloud) (device_id access_id access_secret : string) (w : world) :
  let w' := exec (get_device_data C device_id access_id access_secret) w in
  (exists rest, sent w' = (sent w ++ rest)%list /\ Forall is_get rest) /\
  commands (sent w') = commands (sent w) /\
  schedule_execution_tracker w' = schedule_execution_tracker w /\
  db w' = db w.
Proof.
  intros w'.
  destruct (sends_only_get_device_data C device_id access_id access_secret w)
    as (rest & Hs & Hget).
  fold w' in Hs. split; [exists rest; split; assumption|]. split; [|split].
  - rewrite Hs. unfold commands. rewrite omap_app.
    assert (Hnone : omap command_of rest = []).
    { clear Hs. induction Hget as [|r rest Hr _ IH]; [reflexivity|].
      change (omap command_of (r :: rest))
        with (match command_of r with
              | Some v => v :: omap command_of rest
              | None => omap command_of rest
              end).
      unfold command_of at 1. unfold is_get in Hr. rewrite Hr. exact IH. }
    rewrite Hnone. apply app_nil_r.
  - apply preserves_tracker_get_device_data.
  - apply preserves_db_get_device_data.
Qed.

Lemma commands_app (l1 l2 : list request) :
  commands (l1 ++ l2) = (commands l1 ++ commands l2)%list.
Proof. unfold commands. apply omap_app. Qed.

Lemma commands_gets (rest : list request) : Forall is_get rest -> commands rest = [].
Proof.
  induction 1 as [|r rest Hr _ IH]; [reflexivity|].
  change (commands (r :: rest))
    with (match command_of r with
          | Some v => v :: commands rest
          | None => commands rest
          end).
  unfold command_of. unfold is_get in Hr. rewrite Hr. exact IH.
Qed.

(** *** The status and live routes *)

Lemma device_exists_listed device_id (d : database) :
  Db.device_exists device_id d = true <->
  In device_id (map (fun dev : string * string * string => fst (fst dev))
                  (Db.list_devices d)).
Proof.
  unfold Db.device_exists, Db.list_devices. rewrite existsb_exists, map_map.
  cbn [fst]. rewrite in_map_iff. split.
  - intros (dv & Hin & Heq). exists dv. apply String.eqb_eq in Heq. auto.
  - intros (dv & Heq & Hin). exists dv. split; [exact Hin | apply String.eqb_eq, Heq].
Qed.

(** The loop body writes one entry, for its device, with one of the three
    words; it is [disconnected] when the fetch reports offline or raises. *)
Lemma device_status_spec (C : cloud) status_map dev (w : world) :
  exists word,
    result (device_status C status_map dev) w
      = Ret (<[fst (fst dev) := word]> status_map) /\
    status_word word /\
    (reports_offline C dev w -> word = "disconnected").
Proof.
  unfold reports_offline, result, device_status, try_except, bind.
  destruct (get_device_data C (fst (fst dev)) (snd (fst dev)) (snd dev) w)
    as [[t|e] w1]; cbn [fst].
  - destruct (Py.truthy (t_is_online t)); cbn [negb].
    + destruct (Py.truthy (t_switch t)); eexists;
        (split; [reflexivity|]); (split; [unfold status_word; auto | discriminate]).
    + eexists. split; [reflexivity|]. split; [unfold status_word; auto | reflexivity].
  - eexists. split; [reflexivity|]. split; [unfold status_word; auto | reflexivity].
Qed.

Lemma device_status_reads (C : cloud) status_map dev :
  sends_only is_get (device_status C status_map dev) /\
  preserves_tracker (device_status C status_map dev) /\
  preserves_db (device_status C status_map dev).
Proof.
  unfold device_status. split; [sends|]. split; [tracker_frame | frame].
Qed.

Lemma device_statuses_spec (C : cloud) devs :
  forall status_map (w : world),
    exists result_map,
      result (device_statuses C devs status_map) w = Ret result_map /\
      (forall id, is_Some (result_map !! id) <->
                  is_Some (status_map !! id) \/
                  In id (map (fun dev : string * string * string => fst (fst dev)) devs)) /\
      ((forall id word, status_map !! id = Some word -> status_word word) ->
       forall id word, result_map !! id = Some word -> status_word word).
Proof.
  induction devs as [|dev devs IH]; intros status_map w.
  - exists status_map. split; [reflexivity|]. split; [|auto].
    intros id. cbn [map In]. tauto.
  - destruct (device_status_spec C status_map dev w) as (word & Hres & Hword & _).
    unfold result in *. cbn [device_statuses]. unfold bind.
    destruct (device_status C status_map dev w) as [o w1]. cbn [fst] in Hres. subst o.
    destruct (IH (<[fst (fst dev) := word]> status_map) w1) as (rm & Hrm & Hdom & Hval).
    exists rm. split; [exact Hrm|]. split.
    + intros id. rewrite Hdom. cbn [map In].
      destruct (decide (fst (fst dev) = id)) as [<-|Hne].
      * rewrite lookup_insert_eq. split; [intros _; right; left; reflexivity|].
        intros _. left. eauto.
      * rewrite lookup_insert_ne by exact Hne. tauto.
    + intros Hold. apply Hval. intros id word' Hlook.
      destruct (decide (fst (fst dev) = id)) as [<-|Hne].
      * rewrite lookup_insert_eq in Hlook. injection Hlook as <-. exact Hword.
      * rewrite lookup_insert_ne in Hlook by exact Hne. apply (Hold id), Hlook.
Qed.

Lemma device_statuses_reads (C : cloud) devs :
  forall status_map,
    sends_only is_get (device_statuses C devs status_map) /\
    preserves_tracker (device_statuses C devs status_map) /\
    preserves_db (device_statuses C devs status_map).
Proof.
  induction devs as [|dev devs IH]; intros status_map; cbn [device_statuses].
  - split; [sends|]. split; [tracker_frame | frame].
  - destruct (device_status_reads C status_map dev) as (Hs & Ht & Hd).
    split; [|split].
    + apply sends_only_bind; [exact Hs | intros m; apply IH].
    + apply preserves_tracker_bind; [exact Ht | intros m; apply IH].
    + apply preserves_db_bind; [exact Hd | intros m; apply IH].
Qed.

(** X5: the status route never raises, also where [get_device_data] does:
    its answer has an entry for exactly the devices of the table, each one
    of [disconnected], [on], [off]; with a single device whose fetch reports
    offline or raises, the answer is [disconnected] for it.  Every request
    the route sends is a GET, and it changes neither the tracker nor the
    database. *)
Theorem get_all_devices_status_total (C : cloud) (w : world) :
  exists status_map,
    result (get_all_devices_status C) w = Ret status_map /\
    (forall id, is_Some (status_map !! id) <-> Db.device_exists id (db w) = true) /\
    (forall id word, status_map !! id = Some word -> status_word word) /\
    (forall dev, Db.list_devices (db w) = [dev] -> reports_offline C dev w ->
                 status_map = {[ fst (fst dev) := "disconnected" ]}) /\
    (exists rest,
        sent (exec (get_all_devices_status C) w) = (sent w ++ rest)%list /\
        Forall is_get rest) /\
    schedule_execution_tracker (exec (get_all_devices_status C) w)
      = schedule_execution_tracker w /\
    db (exec (get_all_devices_status C) w) = db w.
Proof.
  destruct (device_statuses_spec C (Db.list_devices (db w)) ∅ w)
    as (rm & Hrm & Hdom & Hval).
  destruct (device_statuses_reads C (Db.list_devices (db w)) ∅) as (Hs & Ht & Hd).
  assert (Hrun : get_all_devices_status C w = device_statuses C (Db.list_devices (db w)) ∅ w)
    by reflexivity.
  exists rm. unfold result, exec. rewrite Hrun.
  split; [exact Hrm|]. split; [|split; [|split; [|split; [|split]]]].
  - intros id. rewrite Hdom, device_exists_listed, lookup_empty.
    split; [intros [[? [=]]|H]; exact H | auto].
  - apply Hval. intros id word. rewrite lookup_empty. discriminate.
  - intros dev Hone Hoff. unfold result in Hrm. rewrite Hone in Hrm.
    cbn [device_statuses] in Hrm. unfold bind in Hrm.
    destruct (device_status_spec C ∅ dev w) as (word & Hres & _ & Hdis).
    unfold result in Hres.
    destruct (device_status C ∅ dev w) as [o w1]. cbn [fst] in Hres. subst o.
    cbn in Hrm. injection Hrm as <-. rewrite (Hdis Hoff). reflexivity.
  - apply Hs.
  - apply Ht.
  - apply Hd.
Qed.

(** X6: the live route never raises.  It answers 404 without contacting
    the cloud when the device is not in the table.  For a device of the
    table it answers with the tuple [get_device_data] returns, which is the
    zeroed one whenever its [is_online] is falsy, and it answers 500 exactly
    when [get_device_data] raises: the exception is [AttributeError] and the
    metadata of the device is a truthy value that is not an object. *)
Theorem api_device_live_answers (C : cloud) (device_id : string) (w : world) :
  exists r,
    result (api_device_live C device_id) w = Ret r /\
    match find_device device_id (db w) with
    | None => r = LiveNotFound /\ exec (api_device_live C device_id) w = w
    | Some dv =>
        match result (get_device_data C device_id (d_access_id dv) (d_access_secret dv)) w
        with
        | Ret t =>
            r = LiveData t /\ (Py.truthy (t_is_online t) = false -> t = zeroed)
        | Raise e =>
            r = LiveError e /\ e = AttributeError /\
            exists v,
              result (get_device_info C device_id (d_access_id dv) (d_access_secret dv)) w
                = Ret v /\
              Py.truthy v = true /\ is_dict v = false
        end
    end.
Proof.
  unfold result at 1, exec, api_device_live, try_except, bind, get_db. cbn beta iota.
  destruct (find_device device_id (db w)) as [dv|] eqn:Hfind.
  - pose proof (raise_is_attribute_error C device_id (d_access_id dv)
                  (d_access_secret dv) w) as Hraise.
    pose proof (falsy_online_zeroed C device_id (d_access_id dv)
                  (d_access_secret dv) w) as Hzero.
    unfold result in *.
    destruct (get_device_data C device_id (d_access_id dv) (d_access_secret dv) w)
      as [[t|e] w1]; cbn [fst] in *.
    + eexists. split; [reflexivity|]. split; [reflexivity|].
      apply Hzero. reflexivity.
    + eexists. split; [reflexivity|]. split; [reflexivity|].
      apply (Hraise e). reflexivity.
  - eexists. split; [reflexivity|]. split; reflexivity.
Qed.

(** *** The manual switch *)

Lemma check_online_reads (C : cloud) device_id access_id access_secret :
  sends_only is_get (check_online C device_id access_id access_secret).
Proof. unfold check_online. sends. Qed.

Lemma check_online_total (C : cloud) device_id access_id access_secret (w : world) :
  exists early, result (check_online C device_id access_id access_secret) w = Ret early.
Proof. apply try_except_total. Qed.

Lemma device_switch_frame (C : cloud) request_json device_id :
  preserves_tracker (device_switch C request_json device_id) /\
  preserves_db (device_switch C request_json device_id).
Proof.
  unfold device_switch, check_online, sign, raise_for_status.
  split; [tracker_frame | frame].
Qed.

(** What a call of the route that gets past the parsing of its body does,
    by the response it gives. *)
Lemma device_switch_cases (C : cloud) request_json device_id on (w w' : world) o :
  Py.get request_json "on" (PBool false) = Ret on ->
  device_switch C request_json device_id w = (o, w') ->
  exists response,
    o = Ret response /\
    match response with
    | SwitchRefused status _ =>
        (exists rest, sent w' = (sent w ++ rest)%list /\ Forall is_get rest) /\
        (status = 404 <-> find_device device_id (db w) = None) /\
        (status = 404 -> w' = w)
    | SwitchSuccess =>
        exists dv rest tok n status_code body,
          find_device device_id (db w) = Some dv /\
          sent w' = (sent w ++ rest ++ [manual_request device_id (d_access_id dv) tok on])%list /\
          Forall is_get rest /\
          respond C n (manual_request device_id (d_access_id dv) tok on)
            = Response status_code body /\
          ~ (400 <= status_code < 600)
    | SwitchError _ => find_device device_id (db w) <> None
    end.
Proof.
  intros Hon. unfold device_switch. unfold bind at 1. unfold lift at 1. rewrite Hon.
  unfold try_except at 1. unfold bind at 1. unfold get_db. cbn beta iota.
  destruct (find_device device_id (db w)) as [dv|] eqn:Hfind.
  2:{ intros [= <- <-]. eexists. split; [reflexivity|].
      split; [exists []; split; [symmetry; apply app_nil_r | constructor]|].
      split; [tauto | reflexivity]. }
  unfold bind at 1.
  destruct (check_online_total C device_id (d_access_id dv) (d_access_secret dv) w)
    as [early Hearly].
  destruct (check_online_reads C device_id (d_access_id dv) (d_access_secret dv) w)
    as (rest1 & Hs1 & Hget1).
  unfold result in Hearly. unfold exec in Hs1.
  destruct (check_online C device_id (d_access_id dv) (d_access_secret dv) w)
    as [o1 w1] eqn:Hco.
  cbn [fst snd] in *. subst o1.
  destruct early as [response|].
  - (* early return *)
    assert (Hrefused : exists err, response = SwitchRefused 400 err).
    { revert Hco. unfold check_online, try_except, bind.
      destruct (get_device_info C device_id (d_access_id dv) (d_access_secret dv) w)
        as [[v|e] w2].
      - destruct (negb (Py.truthy v)).
        + intros [= <- _]. eauto.
        + unfold lift. destruct (Py.get v "online" (PBool false)) as [io|e].
          * destruct (negb (Py.truthy io)); intros [= <- _]; eauto.
          * intros [= <- _]. eauto.
      - intros [= <- _]. eauto. }
    destruct Hrefused as (err & ->).
    intros [= <- <-]. eexists. split; [reflexivity|].
    split; [exists rest1; split; assumption|].
    split; [split; [discriminate | congruence] | discriminate].
  - (* the command is attempted *)
    unfold bind at 1. rewrite get_token_spec.
    destruct (Py.truthy (token_of_reply _)) eqn:Htruthy; cbn [negb].
    2:{ intros [= <- <-]. eexists. split; [reflexivity|].
        cbn [record_request sent]. split.
        - exists (rest1 ++ [token_request (d_access_id dv)])%list. split.
          + rewrite Hs1. symmetry. apply app_assoc.
          + apply Forall_app. split; [exact Hget1 | repeat constructor].
        - split; [split; [discriminate | congruence] | discriminate]. }
    unfold bind at 1. unfold sign. rewrite Htruthy.
    destruct (token_of_reply _) as [| | | | tok | |];
      try (intros [= <- <-]; eexists; split; [reflexivity | congruence]).
    unfold ret at 1. cbv beta iota.
    unfold bind at 1. unfold requests_send.
    destruct (respond C (ticks (record_request (token_request (d_access_id dv)) w1))
                (manual_request device_id (d_access_id dv) tok on))
      as [|st body] eqn:Hrp;
      [intros [= <- <-]; eexists; split; [reflexivity | congruence]|].
    unfold bind at 1. unfold raise_for_status. cbn [fst].
    destruct (Z.leb 400 st && Z.ltb st 600) eqn:Hst;
      [intros [= <- <-]; eexists; split; [reflexivity | congruence]|].
    intros [= <- <-]. eexists. split; [reflexivity|].
    cbn [record_request sent].
    exists dv, (rest1 ++ [token_request (d_access_id dv)])%list, tok,
      (ticks (record_request (token_request (d_access_id dv)) w1)), st, body.
    split; [reflexivity|]. split.
    { rewrite Hs1, <- !app_assoc. reflexivity. }
    split; [apply Forall_app; split; [exact Hget1 | repeat constructor]|].
    split; [exact Hrp|].
    intros [Hlo Hhi]. apply Z.leb_le in Hlo. apply Z.ltb_lt in Hhi.
    rewrite Hlo, Hhi in Hst. discriminate.
Qed.

Lemma check_online_refuses (C : cloud) device_id access_id access_secret (w : world) v :
  result (get_device_info C device_id access_id access_secret) w = Ret v ->
  reported_online v = false ->
  exists error,
    result (check_online C device_id access_id access_secret) w
      = Ret (Some (SwitchRefused 400 error)).
Proof.
  unfold result, check_online, reported_online, try_except, bind, lift.
  destruct (get_device_info C device_id access_id access_secret w) as [o w1].
  cbn [fst]. intros ->. destruct (Py.truthy v); cbn [negb andb]; [|eauto].
  destruct (Py.get v "online" (PBool false)) as [online|e]; cbn [fst]; [|eauto].
  intros ->. cbn [negb fst]. eauto.
Qed.

(** X7: when the manual switch answers with a refusal (404 or 400), every
    request it sent is a GET: nothing was posted to a device.  It answers
    404 exactly when the device is not in the table and then changes
    nothing.  And a registered device whose metadata does not say that it is
    online (the metadata is falsy, or its [online] is falsy or cannot be
    read) is refused with 400 whatever the body asks for, the route sending
    GETs only. *)
Theorem device_switch_refusal_sends_no_command
    (C : cloud) (request_json : pyval) (device_id : string) (w : world) :
  let w' := exec (device_switch C request_json device_id) w in
  let answer := result (device_switch C request_json device_id) w in
  (forall status error,
      answer = Ret (SwitchRefused status error) ->
      (exists rest, sent w' = (sent w ++ rest)%list /\ Forall is_get rest) /\
      (status = 404 <-> find_device device_id (db w) = None) /\
      (status = 404 -> w' = w)) /\
  (forall dv v,
      find_device device_id (db w) = Some dv ->
      result (get_device_info C device_id (d_access_id dv) (d_access_secret dv)) w
        = Ret v ->
      reported_online v = false ->
      (exists rest, sent w' = (sent w ++ rest)%list /\ Forall is_get rest) /\
      (is_dict request_json = true ->
       exists error, answer = Ret (SwitchRefused 400 error))).
Proof.
  intros w' answer. subst w' answer. unfold result, exec.
  destruct (device_switch C request_json device_id w) as [o w'] eqn:Hrun.
  cbn [fst snd].
  destruct (Py.get request_json "on" (PBool false)) as [on|e] eqn:Hon.
  - destruct (device_switch_cases C _ _ on _ _ _ Hon Hrun) as (response & -> & Hcase).
    split.
    + intros status error [= ->]. exact Hcase.
    + intros dv v Hfind Hinfo Hoff.
      destruct (check_online_refuses C device_id _ _ w v Hinfo Hoff) as [error Hco].
      assert (Hresp : response = SwitchRefused 400 error).
      { revert Hrun. unfold device_switch. unfold bind at 1. unfold lift at 1.
        rewrite Hon. unfold try_except at 1. unfold bind at 1. unfold get_db.
        cbn beta iota. rewrite Hfind. unfold bind at 1.
        unfold result in Hco.
        destruct (check_online C device_id (d_access_id dv) (d_access_secret dv) w)
          as [o1 w1].
        cbn [fst] in Hco. subst o1. cbn. intros [= <- _]. reflexivity. }
      subst response. destruct Hcase as (Hgets & _ & _).
      split; [exact Hgets | eauto].
  - assert (Hraise : o = Raise e /\ w' = w).
    { revert Hrun. unfold device_switch, bind, lift. rewrite Hon.
      intros [= <- <-]. auto. }
    destruct Hraise as [-> ->]. split.
    + intros status error [=].
    + intros dv v _ _ _. split.
      * exists []. split; [symmetry; apply app_nil_r | constructor].
      * intros Hdict. destruct request_json; try discriminate Hdict.
        discriminate Hon.
Qed.

(** X8: when the manual switch answers success, exactly one command went
    out, after GETs only; it carries the [on] value of the request body as it
    came (or [False] when the body has none), and the cloud answered it with
    a status outside 400..599: any such status counts, 200 is not required. *)
Theorem device_switch_success_sent_one_command
    (C : cloud) (request_json : pyval) (device_id : string) (w : world) :
  result (device_switch C request_json device_id) w = Ret SwitchSuccess ->
  exists on dv rest tok n status_code body,
    Py.get request_json "on" (PBool false) = Ret on /\
    find_device device_id (db w) = Some dv /\
    sent (exec (device_switch C request_json device_id) w)
      = (sent w ++ rest ++ [manual_request device_id (d_access_id dv) tok on])%list /\
    Forall is_get rest /\
    respond C n (manual_request device_id (d_access_id dv) tok on)
      = Response status_code body /\
    ~ (400 <= status_code < 600).
Proof.
  unfold result, exec. intros Hres.
  destruct (device_switch C request_json device_id w) as [o w'] eqn:Hrun.
  cbn [fst snd] in *. subst o.
  destruct (Py.get request_json "on" (PBool false)) as [on|e] eqn:Hon.
  - destruct (device_switch_cases C _ _ on _ _ _ Hon Hrun) as (response & [= <-] & Hcase).
    destruct Hcase as (dv & rest & tok & n & st & body & H).
    exists on, dv, rest, tok, n, st, body. split; [reflexivity | exact H].
  - exfalso. revert Hrun. unfold device_switch, bind, lift. rewrite Hon. discriminate.
Qed.

(** X9: the manual switch writes nothing down: whatever it answers, and
    also when it raises on a body that is not an object, the tracker and the
    database are as before, so a switch by hand never holds back or marks a
    scheduled transition. *)
Theorem device_switch_leaves_tracker_and_store
    (C : cloud) (request_json : pyval) (device_id : string) (w : world) :
  schedule_execution_tracker (exec (device_switch C request_json device_id) w)
    = schedule_execution_tracker w /\
  db (exec (device_switch C request_json device_id) w) = db w.
Proof.
  destruct (device_switch_frame C request_json device_id) as [Ht Hd].
  split; [apply Ht | apply Hd].
Qed.

Example device_switch_refuses_offline_device :
  result (device_switch all_offline (PDict [("on", PBool true)]) "plug-1") office
    = Ret (SwitchRefused 400 "Device is offline") /\
  Forall is_get
    (sent (exec (device_switch all_offline (PDict [("on", PBool true)]) "plug-1") office)).
Proof. split; [vm_compute; reflexivity | repeat constructor]. Qed.

Lemma device_switch_success_sent_one_command_witness :
  exists on dv rest tok n status_code body,
    Py.get (PDict [("on", PStr "yes")]) "on" (PBool false) = Ret on /\
    find_device "plug-1" (db office) = Some dv /\
    sent (exec (device_switch accepting (PDict [("on", PStr "yes")]) "plug-1") office)
      = (sent office ++ rest ++ [manual_request "plug-1" (d_access_id dv) tok on])%list /\
    Forall is_get rest /\
    respond accepting n (manual_request "plug-1" (d_access_id dv) tok on)
      = Response status_code body /\
    ~ (400 <= status_code < 600).
Proof.
  apply (device_switch_success_sent_one_command accepting (PDict [("on", PStr "yes")])
           "plug-1" office).
  vm_compute. reflexivity.
Defined.

Example device_switch_accepts_202 :
  result (device_switch accepting (PDict [("on", PBool true)]) "plug-1") office
    = Ret SwitchSuccess /\
  schedule_execution_tracker
    (exec (evaluate_schedule accepting "08:00" "monday" (office_hours, plug)) office) = ∅.
Proof. split; vm_compute; reflexivity. Qed.

(** *** Tracker keys *)

Lemma pretty_N_char_no_underscore (x : N) : pretty_N_char x <> "_"%char.
Proof. unfold pretty_N_char. repeat case_match; discriminate. Qed.

Lemma pretty_N_go_free (x : N) :
  forall s, underscore_free s -> underscore_free (pretty_N_go x s).
Proof.
  induction x as [x IH] using (well_founded_induction N.lt_wf_0). intros s Hs.
  destruct (decide (0 < x)%N) as [Hpos|Hzero].
  - rewrite pretty_N_go_step by exact Hpos. apply IH.
    + apply N.div_lt; [exact Hpos | reflexivity].
    + split; [apply pretty_N_char_no_underscore | exact Hs].
  - assert (x = 0%N) as -> by lia. rewrite pretty_N_go_0. exact Hs.
Qed.

Lemma pretty_N_free (x : N) : underscore_free (pretty x).
Proof.
  unfold pretty, pretty_N. destruct (decide (x = 0%N)).
  - split; [discriminate | exact I].
  - apply pretty_N_go_free. exact I.
Qed.

Lemma pretty_Z_free (z : Z) : underscore_free (pretty z).
Proof.
  destruct z as [|p|p]; unfold pretty, pretty_Z.
  - split; [discriminate | exact I].
  - apply (pretty_N_free (Npos p)).
  - split; [discriminate|]. apply (pretty_N_free (Npos p)).
Qed.

(** Two strings that split at their first underscore into the same parts
    are the same, and conversely the parts can be read off. *)
Lemma split_at_underscore (u v x y : string) :
  underscore_free u -> underscore_free v ->
  (u ++ String "_"%char x = v ++ String "_"%char y)%string ->
  u = v /\ x = y.
Proof.
  revert v. induction u as [|c u IH]; intros [|c' v] Hu Hv Heq; cbn in *.
  - injection Heq as <-. auto.
  - injection Heq as <- _. destruct Hv as [Hc _]. congruence.
  - injection Heq as -> _. destruct Hu as [Hc _]. congruence.
  - injection Heq as <- Heq. destruct Hu as [_ Hu]. destruct Hv as [_ Hv].
    destruct (IH v Hu Hv Heq) as [-> ->]. auto.
Qed.

Lemma tracker_keys_on_inj (i i' : Z) (day day' : string) :
  tracker_key_on i day = tracker_key_on i' day' -> i = i' /\ day = day'.
Proof.
  unfold tracker_key_on. intros Heq.
  destruct (split_at_underscore (pretty i) (pretty i') ("ON_" ++ day) ("ON_" ++ day')
              (pretty_Z_free i) (pretty_Z_free i') Heq) as [Hi Hd].
  split; [apply (inj pretty), Hi | cbv in Hd; congruence].
Qed.

Lemma tracker_keys_off_inj (i i' : Z) (day day' : string) :
  tracker_key_off i day = tracker_key_off i' day' -> i = i' /\ day = day'.
Proof.
  unfold tracker_key_off. intros Heq.
  destruct (split_at_underscore (pretty i) (pretty i') ("OFF_" ++ day) ("OFF_" ++ day')
              (pretty_Z_free i) (pretty_Z_free i') Heq) as [Hi Hd].
  split; [apply (inj pretty), Hi | cbv in Hd; congruence].
Qed.

Lemma tracker_keys_on_off (i i' : Z) (day day' : string) :
  tracker_key_on i day <> tracker_key_off i' day'.
Proof.
  unfold tracker_key_on, tracker_key_off. intros Heq.
  destruct (split_at_underscore (pretty i) (pretty i') ("ON_" ++ day) ("OFF_" ++ day')
              (pretty_Z_free i) (pretty_Z_free i') Heq) as [_ Hd].
  cbv in Hd. discriminate.
Qed.


(** X10: the tracker keys tell schedules, transitions and days apart: two
    ON keys (or two OFF keys) are equal only for the same schedule id and
    the same day, and an ON key is never an OFF key. *)
Theorem tracker_keys_are_distinct (i i' : Z) (day day' : string) :
  (tracker_key_on i day = tracker_key_on i' day' -> i = i' /\ day = day') /\
  (tracker_key_off i day = tracker_key_off i' day' -> i = i' /\ day = day') /\
  tracker_key_on i day <> tracker_key_off i' day'.
Proof.
  split; [apply tracker_keys_on_inj|]. split; [apply tracker_keys_off_inj|].
  apply tracker_keys_on_off.
Qed.

(** *** What an evaluation can do *)

(** The [try] block of a transition, under any cloud: one token request,
    at most one command after it, and the tracker either as it was or
    marked for this transition. *)
Lemma execute_transition_effect (C : cloud) device_id access_id access_secret
    value key current_time (w : world) :
  let w' := exec (execute_transition C device_id access_id access_secret value key
                    current_time) w in
  (schedule_execution_tracker w' = schedule_execution_tracker w \/
   schedule_execution_tracker w' = <[key := current_time]> (schedule_execution_tracker w)) /\
  (sent w' = (sent w ++ [token_request access_id])%list \/
   exists tok,
     sent w' = (sent w ++ [token_request access_id;
                           command_request device_id access_id tok value])%list).
Proof.
  unfold exec.
  destruct (execute_transition C device_id access_id access_secret value key
              current_time w) as [o w'] eqn:Hrun.
  cbn [snd]. revert Hrun.
  unfold execute_transition, try_except. unfold bind at 1. rewrite get_token_spec.
  destruct (Py.truthy (token_of_reply _)) eqn:Htruthy;
    [|intros [= _ <-]; split; left; reflexivity].
  unfold bind at 1. unfold sign. rewrite Htruthy.
  destruct (token_of_reply _) as [| | | | tok | |];
    try (intros [= _ <-]; split; left; reflexivity).
  unfold ret at 1. cbv beta iota. unfold bind at 1. unfold requests_send.
  destruct (respond C _ _) as [|st body].
  - intros [= _ <-]. cbn [record_request sent schedule_execution_tracker ret snd].
    split; [left; reflexivity|]. right. exists tok. rewrite <- app_assoc. reflexivity.
  - cbn [fst]. destruct (Z.eqb st 200); intros [= _ <-];
      cbn [record_request sent schedule_execution_tracker with_tracker tracker_set snd].
    + split; [right; reflexivity|]. right. exists tok. rewrite <- app_assoc. reflexivity.
    + split; [left; reflexivity|]. right. exists tok. rewrite <- app_assoc. reflexivity.
Qed.

(** The same for the loop body. *)
Lemma evaluate_schedule_effect (C : cloud) current_time current_day row (w : world) :
  let w' := exec (evaluate_schedule C current_time current_day row) w in
  (schedule_execution_tracker w' = schedule_execution_tracker w \/
   exists key,
     triggered_key current_time current_day row = Some key /\
     schedule_execution_tracker w' = <[key := current_time]> (schedule_execution_tracker w)) /\
  (exists rest,
     sent w' = (sent w ++ rest)%list /\
     (length rest <= 2)%nat /\ (length (commands rest) <= 1)%nat /\
     Forall (fun r => req_method r = POST ->
                      triggered_key current_time current_day row <> None /\
                      req_path r = "/v1.0/devices/" ++ s_device_id (fst row) ++ "/commands")
       rest).
Proof.
  intros w'. subst w'. unfold exec.
  destruct (triggered_key current_time current_day row) as [key|] eqn:Hk.
  - destruct (tracker_entry_dec (schedule_execution_tracker w) key current_time) as [HT|HT].
    + rewrite (evaluate_schedule_skip _ _ _ _ _ _ Hk HT). cbn [snd].
      split; [left; reflexivity|]. exists []. rewrite app_nil_r.
      repeat split; cbn; try lia. constructor.
    + rewrite (evaluate_schedule_fire _ _ _ _ _ _ Hk HT).
      destruct (execute_transition_effect C (s_device_id (fst row)) (d_access_id (snd row))
                  (d_access_secret (snd row)) (triggered_value current_time row) key
                  current_time w) as [Htr Hsent].
      unfold exec in Htr, Hsent. split.
      * destruct Htr as [Hsame|Hmark]; [left; exact Hsame | right; eauto].
      * destruct Hsent as [Hs|[tok Hs]]; eexists; (split; [exact Hs|]).
        -- split; [cbn; lia|]. split; [cbn; lia|].
           constructor; [intros Hp; discriminate Hp | constructor].
        -- split; [cbn; lia|]. split; [cbn; lia|].
           constructor; [intros Hp; discriminate Hp|].
           constructor; [|constructor].
           intros _. split; [discriminate | reflexivity].
  - rewrite (evaluate_schedule_idle _ _ _ _ _ Hk). cbn [snd].
    split; [left; reflexivity|]. exists []. rewrite app_nil_r.
    repeat split; cbn; try lia. constructor.
Qed.

Lemma loop_effect (C : cloud) current_time current_day rows :
  forall w : world,
    let w' := exec (for_each rows (evaluate_schedule C current_time current_day)) w in
    (forall k,
        schedule_execution_tracker w' !! k = schedule_execution_tracker w !! k \/
        (schedule_execution_tracker w' !! k = Some current_time /\
         exists row, In row rows /\ triggered_key current_time current_day row = Some k)) /\
    (exists rest,
        sent w' = (sent w ++ rest)%list /\
        (length rest <= 2 * length rows)%nat /\
        (length (commands rest) <= length rows)%nat /\
        Forall (fun r => req_method r = POST ->
                         exists row, In row rows /\
                           triggered_key current_time current_day row <> None /\
                           req_path r = "/v1.0/devices/" ++ s_device_id (fst row)
                                        ++ "/commands")
          rest).
Proof.
  induction rows as [|row rows IH]; intros w w'; subst w'.
  - split; [intros k; left; reflexivity|]. exists []. rewrite app_nil_r.
    repeat split; cbn; try lia. constructor.
  - rewrite for_each_cons by apply evaluate_schedule_no_raise.
    destruct (evaluate_schedule_effect C current_time current_day row w)
      as (Htr1 & rest1 & Hs1 & Hlen1 & Hcmd1 & HP1).
    destruct (IH (exec (evaluate_schedule C current_time current_day row) w))
      as (Htr2 & rest2 & Hs2 & Hlen2 & Hcmd2 & HP2).
    split.
    + intros k. destruct (Htr2 k) as [Hsame2|(Hmark & r & Hin & Hk)].
      * rewrite Hsame2. destruct Htr1 as [Hsame1|(key & Hk & Hmark1)].
        -- left. rewrite Hsame1. reflexivity.
        -- rewrite Hmark1. destruct (decide (key = k)) as [<-|Hne].
           ++ right. rewrite lookup_insert_eq. split; [reflexivity|].
              exists row. split; [left; reflexivity | exact Hk].
           ++ left. apply lookup_insert_ne, Hne.
      * right. split; [exact Hmark|]. exists r. split; [right; exact Hin | exact Hk].
    + exists (rest1 ++ rest2)%list. split; [rewrite Hs2, Hs1; symmetry; apply app_assoc|].
      split; [rewrite length_app; cbn [length]; lia|].
      split; [rewrite commands_app, length_app; cbn [length]; lia|].
      apply Forall_app. split.
      * eapply Forall_impl; [exact HP1|]. intros r Hr Hpost.
        destruct (Hr Hpost) as [Hk Hpath]. exists row.
        split; [left; reflexivity | split; assumption].
      * eapply Forall_impl; [exact HP2|]. intros r Hr Hpost.
        destruct (Hr Hpost) as (r' & Hin & Hk & Hpath). exists r'.
        split; [right; exact Hin | split; assumption].
Qed.

Lemma triggered_key_shape current_time current_day row key :
  triggered_key current_time current_day row = Some key ->
  key = tracker_key_on (s_id (fst row)) current_day \/
  key = tracker_key_off (s_id (fst row)) current_day.
Proof.
  unfold triggered_key. destruct (negb _); [discriminate|].
  destruct (String.eqb current_time (s_start_time _)); [intros [= <-]; auto|].
  destruct (String.eqb current_time (s_end_time _)); [intros [= <-]; auto | discriminate].
Qed.

(** X11: an evaluation, under any cloud, never removes or rewrites a
    tracker entry except to mark a transition that is due now with the
    current minute; it never touches the database.  Hence the entries of a
    schedule none of whose transitions is due (both kinds, every day) are
    exactly as before: the firing of one schedule cannot hold back another. *)
Theorem evaluation_marks_only_due_transitions (C : cloud) (w : world) :
  let t := datetime_now C (ticks w) in
  let w' := exec (check_and_execute_schedules C) w in
  db w' = db w /\
  (forall k,
      schedule_execution_tracker w' !! k = schedule_execution_tracker w !! k \/
      (schedule_execution_tracker w' !! k = Some (current_time_of t) /\
       exists row, In row (Db.enabled_schedules (db w)) /\
                   triggered_key (current_time_of t) (current_day_of t) row = Some k)) /\
  (forall i day,
      (forall row, In row (Db.enabled_schedules (db w)) -> s_id (fst row) = i ->
                   triggered_key (current_time_of t) (current_day_of t) row = None) ->
      schedule_execution_tracker w' !! tracker_key_on i day
        = schedule_execution_tracker w !! tracker_key_on i day /\
      schedule_execution_tracker w' !! tracker_key_off i day
        = schedule_execution_tracker w !! tracker_key_off i day).
Proof.
  intros t w'.
  assert (Hk : forall k,
             schedule_execution_tracker w' !! k = schedule_execution_tracker w !! k \/
             (schedule_execution_tracker w' !! k = Some (current_time_of t) /\
              exists row, In row (Db.enabled_schedules (db w)) /\
                          triggered_key (current_time_of t) (current_day_of t) row = Some k)).
  { subst w'. unfold exec. rewrite check_and_execute_schedules_spec. cbn [snd].
    apply (loop_effect C (current_time_of t) (current_day_of t)
             (Db.enabled_schedules (db w)) (tick w)). }
  split; [apply preserves_db_check_and_execute_schedules|]. split; [exact Hk|].
  intros i day Hidle.
  assert (Hkeep : forall k,
             (k = tracker_key_on i day \/ k = tracker_key_off i day) ->
             schedule_execution_tracker w' !! k = schedule_execution_tracker w !! k).
  { intros k Hkey. destruct (Hk k) as [Hsame|(_ & row & Hin & Htrig)]; [exact Hsame|].
    exfalso.
    assert (Hid : s_id (fst row) = i).
    { destruct (triggered_key_shape _ _ _ _ Htrig) as [Hshape|Hshape];
        destruct Hkey as [Hkey|Hkey]; rewrite Hkey in Hshape.
      - apply (tracker_keys_on_inj _ _ _ _) in Hshape. symmetry. apply Hshape.
      - exfalso. symmetry in Hshape. revert Hshape. apply tracker_keys_on_off.
      - exfalso. revert Hshape. apply tracker_keys_on_off.
      - apply (tracker_keys_off_inj _ _ _ _) in Hshape. symmetry. apply Hshape. }
    rewrite (Hidle row Hin Hid) in Htrig. discriminate. }
  split; apply Hkeep; auto.
Qed.

(** X12: under any cloud, an evaluation sends at most two requests and at
    most one command for each enabled schedule, and every command it sends
    goes to the device of an enabled schedule one of whose transitions is due
    at this minute; at a minute at which no transition is due it sends
    nothing at all. *)
Theorem evaluation_commands_only_due_schedules (C : cloud) (w : world) :
  let t := datetime_now C (ticks w) in
  let rows := Db.enabled_schedules (db w) in
  let w' := exec (check_and_execute_schedules C) w in
  (exists rest,
      sent w' = (sent w ++ rest)%list /\
      (length rest <= 2 * length rows)%nat /\
      (length (commands rest) <= length rows)%nat /\
      Forall (fun r => req_method r = POST ->
                       exists row, In row rows /\
                         triggered_key (current_time_of t) (current_day_of t) row <> None /\
                         req_path r = "/v1.0/devices/" ++ s_device_id (fst row)
                                      ++ "/commands")
        rest) /\
  ((forall row, In row rows ->
      triggered_key (current_time_of t) (current_day_of t) row = None) ->
   check_and_execute_schedules C w = (Ret tt, tick w)).
Proof.
  intros t rows w'. split.
  - subst w'. unfold exec. rewrite check_and_execute_schedules_spec. cbn [snd].
    apply (loop_effect C (current_time_of t) (current_day_of t) rows (tick w)).
  - intros Hidle. rewrite check_and_execute_schedules_spec. f_equal.
    unfold exec. rewrite loop_held; [reflexivity|].
    intros row key Hin Hk. fold t in Hk. fold rows in Hin.
    rewrite (Hidle row Hin) in Hk. discriminate.
Qed.

(** *** Time strings *)

Lemma strftime_HM_length (t : datetime) : String.length (strftime_HM t) = 5%nat.
Proof. reflexivity. Qed.

Lemma length_neq_eqb (a b : string) :
  String.length a <> String.length b -> String.eqb a b = false.
Proof.
  intros Hlen. destruct (String.eqb_spec a b) as [->|]; [contradiction | reflexivity].
Qed.

(** What the loop body issues, under any cloud: nothing, or the one
    command of the transition that is due. *)
Lemma evaluate_schedule_commands (C : cloud) current_time current_day row (w : world) :
  let w' := exec (evaluate_schedule C current_time current_day row) w in
  issued w w' = [] \/
  (issued w w' = [triggered_value current_time row] /\
   exists key, triggered_key current_time current_day row = Some key).
Proof.
  intros w'. subst w'. unfold exec.
  destruct (triggered_key current_time current_day row) as [key|] eqn:Hk.
  - destruct (tracker_entry_dec (schedule_execution_tracker w) key current_time) as [HT|HT].
    + rewrite (evaluate_schedule_skip _ _ _ _ _ _ Hk HT). left.
      apply issued_nothing. reflexivity.
    + rewrite (evaluate_schedule_fire _ _ _ _ _ _ Hk HT).
      destruct (execute_transition_effect C (s_device_id (fst row)) (d_access_id (snd row))
                  (d_access_secret (snd row)) (triggered_value current_time row) key
                  current_time w) as [_ [Hs|[tok Hs]]];
        unfold exec in Hs; unfold issued; rewrite Hs, drop_app_length.
      * left. reflexivity.
      * right. split; [reflexivity | eauto].
  - rewrite (evaluate_schedule_idle _ _ _ _ _ Hk). left.
    apply issued_nothing. reflexivity.
Qed.

(** X13: times are compared as strings with what [strftime('%H:%M')]
    gives, which has five characters: a schedule whose start time is stored
    with another length (8:00, 08:00:00, the empty string) never gets an ON
    command, and one whose end time is so stored never gets an OFF command,
    at any clock value, on any day and under any cloud. *)
Theorem malformed_time_never_fires
    (C : cloud) (t : datetime) (current_day : string)
    (row : schedule_row * device_row) (w : world) :
  let w' := exec (evaluate_schedule C (strftime_HM t) current_day row) w in
  (String.length (s_start_time (fst row)) <> 5%nat -> ~ In true (issued w w')) /\
  (String.length (s_end_time (fst row)) <> 5%nat -> ~ In false (issued w w')).
Proof.
  intros w'.
  destruct (evaluate_schedule_commands C (strftime_HM t) current_day row w)
    as [Hnone|(Hone & key & Hk)]; fold w' in Hnone || fold w' in Hone.
  - rewrite Hnone. split; intros _ [].
  - rewrite Hone. unfold triggered_value. split; intros Hlen [Hin|[]].
    + rewrite length_neq_eqb in Hin; [discriminate|].
      rewrite strftime_HM_length. congruence.
    + revert Hk. unfold triggered_key. destruct (negb _); [discriminate|].
      rewrite Hin.
      rewrite (length_neq_eqb (strftime_HM t) (s_end_time (fst row)));
        [discriminate|].
      rewrite strftime_HM_length. congruence.
Qed.

Lemma two_digits_compare_table :
  forallb (fun a =>
    forallb (fun b =>
      match String.compare (two_digits a) (two_digits b), Nat.compare a b with
      | Eq, Eq | Lt, Lt | Gt, Gt => true
      | _, _ => false
      end) (seq 0 100)) (seq 0 100) = true.
Proof. vm_compute. reflexivity. Qed.

Lemma two_digits_compare (a b : nat) :
  (a < 100)%nat -> (b < 100)%nat ->
  String.compare (two_digits a) (two_digits b) = Nat.compare a b.
Proof.
  intros Ha Hb. pose proof two_digits_compare_table as Htab.
  rewrite forallb_forall in Htab.
  assert (Hina : In a (seq 0 100)) by (apply in_seq; lia).
  specialize (Htab a Hina). cbv beta in Htab.
  rewrite forallb_forall in Htab.
  assert (Hinb : In b (seq 0 100)) by (apply in_seq; lia).
  specialize (Htab b Hinb). cbv beta in Htab.
  destruct (String.compare (two_digits a) (two_digits b)), (Nat.compare a b);
    (reflexivity || discriminate).
Qed.

Lemma compare_two_then (a b a' b' : ascii) (s s' : string) :
  String.compare (String a (String b s)) (String a' (String b' s')) =
  match String.compare (String a (String b EmptyString))
          (String a' (String b' EmptyString)) with
  | Eq => String.compare s s'
  | c => c
  end.
Proof.
  cbn [String.compare]. destruct (Ascii.compare a a'); [|reflexivity|reflexivity].
  destruct (Ascii.compare b b'); reflexivity.
Qed.

Lemma compare_app_two (x y s s' : string) :
  String.length x = 2%nat -> String.length y = 2%nat ->
  String.compare (x ++ s) (y ++ s') =
  match String.compare x y with
  | Eq => String.compare s s'
  | c => c
  end.
Proof.
  destruct x as [|a [|b [|? ?]]]; try discriminate.
  destruct y as [|a' [|b' [|? ?]]]; try discriminate.
  intros _ _. cbn [String.append]. apply compare_two_then.
Qed.

(** Comparing two clock strings is comparing the hours, then the minutes. *)
Lemma strftime_HM_compare (t t' : datetime) :
  (dt_hour t < 100)%nat -> (dt_minute t < 100)%nat ->
  (dt_hour t' < 100)%nat -> (dt_minute t' < 100)%nat ->
  String.compare (strftime_HM t) (strftime_HM t') =
  match Nat.compare (dt_hour t) (dt_hour t') with
  | Eq => Nat.compare (dt_minute t) (dt_minute t')
  | c => c
  end.
Proof.
  intros Hh Hm Hh' Hm'.
  rewrite <- (two_digits_compare _ _ Hh Hh'), <- (two_digits_compare _ _ Hm Hm').
  unfold strftime_HM. rewrite compare_app_two by reflexivity.
  destruct (String.compare (two_digits (dt_hour t)) (two_digits (dt_hour t')));
    reflexivity.
Qed.

Lemma string_compare_refl (s : string) : String.compare s s = Eq.
Proof.
  pose proof (String.compare_antisym s s) as H.
  destruct (String.compare s s); (reflexivity || discriminate).
Qed.

Lemma strftime_HM_order (t t' : datetime) :
  valid_clock t -> valid_clock t' ->
  (strftime_HM t = strftime_HM t' <->
     dt_hour t = dt_hour t' /\ dt_minute t = dt_minute t') /\
  (String.ltb (strftime_HM t) (strftime_HM t') = true <->
     (minute_of_day t < minute_of_day t')%nat).
Proof.
  intros [Hh Hm] [Hh' Hm'].
  assert (Hcmp := strftime_HM_compare t t' ltac:(lia) ltac:(lia) ltac:(lia) ltac:(lia)).
  unfold minute_of_day. split.
  - split.
    + intros Heq.
      assert (Hc : String.compare (strftime_HM t) (strftime_HM t') = Eq)
        by (rewrite Heq; apply string_compare_refl).
      rewrite Hcmp in Hc.
      destruct (Nat.compare_spec (dt_hour t) (dt_hour t')); try discriminate.
      destruct (Nat.compare_spec (dt_minute t) (dt_minute t')); try discriminate.
      auto.
    + intros [Hhe Hme]. apply String.compare_eq_iff.
      rewrite Hcmp, Hhe, Hme, !Nat.compare_refl. reflexivity.
  - unfold String.ltb. rewrite Hcmp.
    destruct (Nat.compare_spec (dt_hour t) (dt_hour t'));
      destruct (Nat.compare_spec (dt_minute t) (dt_minute t'));
      split; (discriminate || lia || auto).
Qed.

(** X14: on clock values of a day, [strftime('%H:%M')] is one-to-one and
    the order of the strings is the order of the times: the equality test of
    the evaluator is met at one minute of the day only, and the [<] of the
    schedule report compares times. *)
Theorem strftime_HM_orders_the_day (t t' : datetime) :
  valid_clock t -> valid_clock t' ->
  (strftime_HM t = strftime_HM t' <->
     dt_hour t = dt_hour t' /\ dt_minute t = dt_minute t') /\
  (String.ltb (strftime_HM t) (strftime_HM t') = true <->
     (minute_of_day t < minute_of_day t')%nat).
Proof. apply strftime_HM_order. Qed.

Lemma strftime_HM_orders_the_day_witness :
  (strftime_HM (clock_at Monday (8, 5)%nat) = strftime_HM (clock_at Friday (18, 0)%nat) <->
     8%nat = 18%nat /\ 5%nat = 0%nat) /\
  (String.ltb (strftime_HM (clock_at Monday (8, 5)%nat))
     (strftime_HM (clock_at Friday (18, 0)%nat)) = true <->
     (minute_of_day (clock_at Monday (8, 5)%nat)
      < minute_of_day (clock_at Friday (18, 0)%nat))%nat).
Proof.
  apply (strftime_HM_orders_the_day (clock_at Monday (8, 5)%nat)
           (clock_at Friday (18, 0)%nat)); split; cbn; lia.
Defined.

Lemma malformed_time_never_fires_witness :
  ~ In true
      (issued office
         (exec (evaluate_schedule obliging (strftime_HM (clock_at Monday (8, 0)%nat))
                  "monday" (unpadded, plug)) office)).
Proof.
  apply (proj1 (malformed_time_never_fires obliging (clock_at Monday (8, 0)%nat)
                  "monday" (unpadded, plug) office)).
  vm_compute. discriminate.
Defined.

(** *** The schedule report *)

Lemma ltb_clock (t t' : datetime) :
  valid_clock t -> valid_clock t' ->
  String.ltb (strftime_HM t) (strftime_HM t')
  = Nat.ltb (minute_of_day t) (minute_of_day t').
Proof.
  intros Ht Ht'. destruct (strftime_HM_order t t' Ht Ht') as [_ Hlt].
  destruct (Nat.ltb_spec (minute_of_day t) (minute_of_day t')) as [H|H].
  - apply Hlt, H.
  - apply not_true_is_false. intros Hb. apply Hlt in Hb. lia.
Qed.

(** X15: for a clock value [t] and a schedule whose start and end are
    clock strings, the [next_action] of the report is [ON] before the start,
    [OFF] from the start to before the end, and [Done for today] from the
    later of the two on.  For a schedule whose end is not after its start
    (one that spans midnight) it is therefore never [OFF]: before the end
    time of such a schedule the report says [ON], although OFF is the
    transition that comes next. *)
Theorem next_action_follows_the_clock (t start end_ : datetime) :
  valid_clock t -> valid_clock start -> valid_clock end_ ->
  let action := next_action (strftime_HM t) (strftime_HM start) (strftime_HM end_) in
  ((minute_of_day t < minute_of_day start)%nat -> action = "ON") /\
  ((minute_of_day start <= minute_of_day t < minute_of_day end_)%nat -> action = "OFF") /\
  ((minute_of_day start <= minute_of_day t)%nat ->
   (minute_of_day end_ <= minute_of_day t)%nat -> action = "Done for today") /\
  ((minute_of_day end_ <= minute_of_day start)%nat -> action <> "OFF").
Proof.
  intros Ht Hs He action. subst action. unfold next_action.
  rewrite (ltb_clock t start Ht Hs), (ltb_clock t end_ Ht He).
  destruct (Nat.ltb_spec (minute_of_day t) (minute_of_day start));
    destruct (Nat.ltb_spec (minute_of_day t) (minute_of_day end_));
    repeat split; intros; try reflexivity; try lia; discriminate.
Qed.

Lemma next_action_follows_the_clock_witness :
  next_action (strftime_HM (clock_at Monday (5, 30)%nat))
    (strftime_HM (clock_at Monday (22, 0)%nat))
    (strftime_HM (clock_at Monday (6, 0)%nat)) = "ON".
Proof.
  apply (next_action_follows_the_clock (clock_at Monday (5, 30)%nat)
           (clock_at Monday (22, 0)%nat) (clock_at Monday (6, 0)%nat));
    try (split; cbn; lia).
  cbn. lia.
Defined.

Lemma enabled_among_joined (d : database) :
  length (List.filter (fun row : schedule_row * device_row => Z.eqb (s_enabled (fst row)) 1)
            (joined_schedules d))
  = length (Db.enabled_schedules d).
Proof.
  unfold joined_schedules, Db.enabled_schedules.
  induction (schedules d) as [|sc scs IH]; [reflexivity|].
  cbn [flat_map]. rewrite List.filter_app, !length_app, IH. f_equal.
  destruct (Z.eqb (s_enabled sc) 1) eqn:Hen.
  - f_equal. induction (List.filter _ (devices d)) as [|dv dvs IHd]; [reflexivity|].
    cbn [map List.filter fst]. rewrite Hen. f_equal. exact IHd.
  - induction (List.filter _ (devices d)) as [|dv dvs IHd]; [reflexivity|].
    cbn [map List.filter fst]. rewrite Hen. exact IHd.
Qed.

(** X16: the test route is not a dry run.  It always answers with a
    report, whose totals count the joined schedules, and it leaves the world
    as one evaluation of the schedules leaves it: commands that are due are
    sent and the tracker is marked.  After it, with every command having
    succeeded, the evaluation of the same minute by the collector sends
    nothing. *)
Theorem test_schedules_evaluates_for_real (C C' : cloud) (t : datetime) (w : world) :
  let w1 := exec (test_schedules (at_time C t)) w in
  (exists report,
      result (test_schedules (at_time C t)) w = Ret (Some report) /\
      rep_total_schedules report = length (joined_schedules (db w)) /\
      rep_enabled_schedules report = length (Db.enabled_schedules (db w))) /\
  w1 = exec (check_and_execute_schedules (at_time C t)) (tick w) /\
  (succeeding C ->
   check_and_execute_schedules (at_time C' t) w1 = (Ret tt, tick w1)).
Proof.
  intros w1.
  assert (Hrun : exists report,
             test_schedules (at_time C t) w =
             (Ret (Some report),
              exec (check_and_execute_schedules (at_time C t)) (tick w)) /\
             rep_total_schedules report = length (joined_schedules (db w)) /\
             rep_enabled_schedules report = length (Db.enabled_schedules (db w))).
  { unfold test_schedules, try_except. unfold bind at 1. unfold now.
    unfold bind at 1. unfold get_db. cbn [db tick]. unfold bind at 1.
    rewrite check_and_execute_schedules_ret. unfold ret at 1.
    eexists. split; [reflexivity|]. cbn [rep_total_schedules rep_enabled_schedules].
    split; [reflexivity|]. apply enabled_among_joined. }
  destruct Hrun as (report & Hrun & Htotal & Henabled).
  split; [exists report; unfold result; rewrite Hrun; auto|].
  assert (Hw1 : w1 = exec (check_and_execute_schedules (at_time C t)) (tick w))
    by (subst w1; unfold exec at 1; rewrite Hrun; reflexivity).
  split; [exact Hw1|]. intros HC. rewrite Hw1.
  apply (reevaluation_is_idle C C' t (tick w) HC).
Qed.

(** *** More on the collector *)

Lemma collect_device_reads (C : cloud) dev :
  sends_only is_get (collect_device C dev) /\ preserves_tracker (collect_device C dev).
Proof. unfold collect_device. split; [sends | tracker_frame]. Qed.

Lemma device_loop_reads (C : cloud) devs (w : world) :
  commands (sent (exec (for_each devs (collect_device C)) w)) = commands (sent w) /\
  schedule_execution_tracker (exec (for_each devs (collect_device C)) w)
    = schedule_execution_tracker w.
Proof.
  split.
  - destruct (sends_only_for_each is_get (collect_device C) devs
                (fun dev => proj1 (collect_device_reads C dev)) w) as (rest & Hs & Hget).
    rewrite Hs, commands_app, (commands_gets _ Hget). apply app_nil_r.
  - apply (preserves_tracker_for_each (collect_device C) devs
             (fun dev => proj2 (collect_device_reads C dev))).
Qed.

(** The loop body adds at most one row, of its own device, at the end of
    the readings, and only for a device of the table. *)
Lemma collect_device_appends (C : cloud) dev (w : world) :
  exists added,
    readings (db (exec (collect_device C dev) w)) = (readings (db w) ++ added)%list /\
    Forall (fun r => r_device_id r = fst (fst dev) /\
                     Db.device_exists (r_device_id r) (db w) = true) added /\
    (unique_keys (db w) -> unique_keys (db (exec (collect_device C dev) w))).
Proof.
  destruct (collect_device_effect C dev w) as (Hskip & _ & Hcases).
  destruct (Db.device_exists (fst (fst dev)) (db w)) eqn:Hex.
  - destruct Hcases as [Hsame|(ts & v & c & p & Hins)].
    + exists []. rewrite Hsame, app_nil_r.
      split; [reflexivity|split; [constructor|auto]].
    + rewrite Hins. unfold Db.insert_or_ignore_reading at 1.
      destruct (existsb (Db.same_key (fst (fst dev)) ts) (readings (db w))) eqn:Hdup.
      * exists []. rewrite app_nil_r. split; [reflexivity|]. split; [constructor|].
        intros Hu. unfold Db.insert_or_ignore_reading. rewrite Hdup. exact Hu.
      * eexists. split; [reflexivity|]. split.
        -- repeat constructor. exact Hex.
        -- apply insert_or_ignore_unique.
  - rewrite (Hskip eq_refl). exists []. rewrite app_nil_r.
    split; [reflexivity|split; [constructor|auto]].
Qed.

Lemma device_loop_appends (C : cloud) devs :
  forall w : world,
    exists added,
      readings (db (exec (for_each devs (collect_device C)) w))
        = (readings (db w) ++ added)%list /\
      Forall (fun r => Db.device_exists (r_device_id r) (db w) = true) added /\
      (unique_keys (db w) ->
       unique_keys (db (exec (for_each devs (collect_device C)) w))).
Proof.
  induction devs as [|dev devs IH]; intros w.
  - exists []. rewrite app_nil_r. split; [reflexivity|split; [constructor|auto]].
  - rewrite for_each_cons by apply collect_device_no_raise.
    destruct (collect_device_appends C dev w) as (a1 & Hr1 & Hd1 & Hu1).
    destruct (IH (exec (collect_device C dev) w)) as (a2 & Hr2 & Hd2 & Hu2).
    exists (a1 ++ a2)%list. split; [rewrite Hr2, Hr1; symmetry; apply app_assoc|].
    split; [|auto].
    apply Forall_app. split.
    + eapply Forall_impl; [exact Hd1|]. intros r [_ Hr]. exact Hr.
    + eapply Forall_impl; [exact Hd2|]. intros r Hr. rewrite <- Hr.
      apply device_exists_devices. symmetry.
      apply (collect_device_frame C dev w EmptyString).
Qed.

Lemma pass_appends (C : cloud) latch (w : world) :
  exists added,
    readings (db (exec (collect_data_pass C latch) w)) = (readings (db w) ++ added)%list /\
    Forall (fun r => Db.device_exists (r_device_id r) (db w) = true) added /\
    (unique_keys (db w) -> unique_keys (db (exec (collect_data_pass C latch) w))) /\
    devices (db (exec (collect_data_pass C latch) w)) = devices (db w) /\
    schedules (db (exec (collect_data_pass C latch) w)) = schedules (db w).
Proof.
  destruct (collect_data_pass_spec C latch w) as [latch' Hpass].
  unfold exec. rewrite Hpass. cbn [snd].
  destruct (device_loop_appends C (Db.list_devices (db w)) (loop_start C latch w))
    as (added & Hr & Hd & Hu).
  destruct (device_loop_frame C (Db.list_devices (db w)) (loop_start C latch w))
    as [Hdev Hsch].
  rewrite loop_start_db in Hr, Hd, Hu, Hdev, Hsch.
  exists added. auto.
Qed.

Lemma passes_append (C : cloud) n :
  forall latch (w : world),
    exists added,
      readings (db (exec (collect_data_passes C n latch) w))
        = (readings (db w) ++ added)%list /\
      Forall (fun r => Db.device_exists (r_device_id r) (db w) = true) added /\
      (unique_keys (db w) ->
       unique_keys (db (exec (collect_data_passes C n latch) w))) /\
      devices (db (exec (collect_data_passes C n latch) w)) = devices (db w) /\
      schedules (db (exec (collect_data_passes C n latch) w)) = schedules (db w).
Proof.
  induction n as [|n IH]; intros latch w.
  - exists []. rewrite app_nil_r. split; [reflexivity|split; [constructor|auto]].
  - destruct (pass_appends C latch w) as (a1 & Hr1 & Hd1 & Hu1 & Hdev1 & Hsch1).
    destruct (collect_data_pass_spec C latch w) as [latch1 Hpass].
    remember (exec (collect_data_pass C latch) w) as w1 eqn:Hw1.
    assert (Hstep : collect_data_passes C (S n) latch w = collect_data_passes C n latch1 w1).
    { cbn [collect_data_passes]. unfold bind. subst w1. unfold exec.
      rewrite Hpass. reflexivity. }
    unfold exec. rewrite Hstep.
    destruct (IH latch1 w1) as (a2 & Hr2 & Hd2 & Hu2 & Hdev2 & Hsch2).
    unfold exec in Hr2, Hd2, Hu2, Hdev2, Hsch2.
    exists (a1 ++ a2)%list. split; [rewrite Hr2, Hr1; symmetry; apply app_assoc|].
    split; [|split; [auto|split; congruence]].
    apply Forall_app. split; [exact Hd1|].
    eapply Forall_impl; [exact Hd2|]. intros r Hr. rewrite <- Hr.
    apply device_exists_devices. symmetry. exact Hdev1.
Qed.

(** X17: the collector only appends: after any number of passes the
    readings that were in the table are still there, unchanged and in the
    same order, followed by the new ones; each new reading belongs to a
    device of the table; the devices and schedules tables are as before. *)
Theorem collector_only_appends (C : cloud) (n : nat) (latch : Z) (w : world) :
  exists added,
    readings (db (exec (collect_data_passes C n latch) w))
      = (readings (db w) ++ added)%list /\
    Forall (fun r => Db.device_exists (r_device_id r) (db w) = true) added /\
    devices (db (exec (collect_data_passes C n latch) w)) = devices (db w) /\
    schedules (db (exec (collect_data_passes C n latch) w)) = schedules (db w).
Proof.
  destruct (passes_append C n latch w) as (added & Hr & Hd & _ & Hdev & Hsch).
  exists added. auto.
Qed.

(** X18: the collector keeps the uniqueness invariant of the readings
    table: if no two rows share (device_id, ts) before, none do after any
    number of passes, whatever the cloud answers and whatever the clock
    reads (also when it reads the same second twice). *)
Theorem collector_keeps_readings_unique (C : cloud) (n : nat) (latch : Z) (w : world) :
  unique_keys (db w) ->
  unique_keys (db (exec (collect_data_passes C n latch) w)).
Proof.
  destruct (passes_append C n latch w) as (added & _ & _ & Hu & _). exact Hu.
Qed.

Lemma collector_keeps_readings_unique_witness :
  unique_keys (db (exec (collect_data_passes healthy 3 (-1)) metered)).
Proof.
  apply (collector_keeps_readings_unique healthy 3 (-1) metered).
  unfold unique_keys. cbn. apply NoDup_singleton.
Defined.

Lemma next_value_meter items code d x :
  next_value items code (fun v => Py.truediv v d) (IntNum 0) = Ret x ->
  x = IntNum 0 \/ exists f, x = FloatNum f.
Proof.
  induction items as [|item items IH]; cbn [next_value].
  - intros [= <-]. left. reflexivity.
  - destruct (Py.getitem item "code") as [c|e]; [|discriminate].
    destruct (Py.eq_str c code); [|exact IH].
    destruct (Py.getitem item "value") as [v|e]; [|discriminate].
    unfold Py.truediv, Py.int_truediv.
    repeat match goal with
           | |- context [match ?y with _ => _ end] => destruct y
           end;
      try discriminate; intros [= <-]; right; eexists; reflexivity.
Qed.

Lemma next_in_meter data code d x (w w' : world) :
  next_in data code (fun v => Py.truediv v d) (IntNum 0) w = (Ret x, w') ->
  x = IntNum 0 \/ exists f, x = FloatNum f.
Proof.
  unfold next_in, bind, lift. destruct (Py.iter data) as [items|e]; [|discriminate].
  destruct (next_value items code _ (IntNum 0)) as [y|e] eqn:Hy; [|discriminate].
  intros [= <- _]. apply (next_value_meter _ _ _ _ Hy).
Qed.

(** The three metered values of a fetched tuple are quotients or the
    default [0]. *)
Lemma fetched_meters (C : cloud) (device_id access_id access_secret : string)
    (w : world) (t : telemetry) :
  result (get_device_data C device_id access_id access_secret) w = Ret t ->
  Forall (fun v => v = IntNum 0 \/ exists f, v = FloatNum f)
    [t_voltage t; t_current t; t_power t].
Proof.
  assert (Hzero : Forall (fun v => v = IntNum 0 \/ exists f, v = FloatNum f)
                    [t_voltage zeroed; t_current zeroed; t_power zeroed])
    by (repeat constructor; left; reflexivity).
  unfold result, get_device_data. unfold bind at 1.
  destruct (get_device_info C device_id access_id access_secret w) as [[v|e] w1];
    [|discriminate].
  destruct (Py.truthy v); cbn [negb]; [|intros [= <-]; exact Hzero].
  unfold bind at 1. unfold lift at 1.
  destruct (Py.get v "online" (PBool false)) as [is_online|e]; [|discriminate].
  destruct (Py.truthy is_online) eqn:Hon; cbn [negb]; [|intros [= <-]; exact Hzero].
  unfold try_except.
  match goal with |- context [bind ?m ?k w1] => destruct (bind m k w1) as [[t1|e] w2] eqn:Hrun end;
    cbn [fst]; [|intros [= <-]; exact Hzero].
  intros [= <-].
  unfold bind at 1 in Hrun.
  destruct (get_token C access_id access_secret w1) as [[token|e] w3];
    [|discriminate].
  destruct (Py.truthy token); cbn [negb] in Hrun; [|injection Hrun as <- _; exact Hzero].
  unfold bind at 1 in Hrun.
  destruct (sign token w3) as [[tok|e] w4]; [|discriminate].
  unfold bind at 1 in Hrun.
  destruct (requests_send C _ w4) as [[r|e] w5]; [|discriminate].
  unfold bind at 1 in Hrun.
  destruct (raise_for_status r w5) as [[[]|e] w6]; [|discriminate].
  unfold bind at 1 in Hrun.
  destruct (json r w6) as [[response_data|e] w7]; [|discriminate].
  unfold bind at 1 in Hrun.
  destruct (lift (Py.contains "result" response_data) w7) as [[has|e] w8];
    [|discriminate].
  destruct has; cbn [negb] in Hrun; [|injection Hrun as <- _; exact Hzero].
  unfold bind at 1 in Hrun.
  destruct (lift (Py.getitem response_data "result") w8) as [[data|e] w9];
    [|discriminate].
  unfold bind at 1 in Hrun.
  destruct (next_in data "switch_1" Ret (PBool false) w9) as [[switch|e] w10];
    [|discriminate].
  unfold bind at 1 in Hrun.
  destruct (next_in data "cur_voltage" _ (IntNum 0) w10) as [[voltage|e] w11] eqn:Hv;
    [|discriminate].
  unfold bind at 1 in Hrun.
  destruct (next_in data "cur_current" _ (IntNum 0) w11) as [[current|e] w12] eqn:Hc;
    [|discriminate].
  unfold bind at 1 in Hrun.
  destruct (next_in data "cur_power" _ (IntNum 0) w12) as [[power|e] w13] eqn:Hp;
    [|discriminate].
  injection Hrun as <- _. cbn [t_voltage t_current t_power].
  apply next_in_meter in Hv. apply next_in_meter in Hc. apply next_in_meter in Hp.
  constructor; [exact Hv|]. constructor; [exact Hc|]. constructor; [exact Hp|].
  constructor.
Qed.

Lemma bind_real_meter (v : number) :
  v = IntNum 0 \/ (exists f, v = FloatNum f) ->
  exists cell, Db.bind_real v = Ret cell /\ held_as v cell.
Proof.
  intros [->|[f ->]]; eexists; (split; [reflexivity|]); cbn; auto.
Qed.

(** X19: what the collector stores for a registered device that is
    reported online is what the fetch returned, as the [REAL] columns hold
    it: each of voltage, current and power is a quotient or the default [0];
    a quotient is stored as it is, but for a NaN, which is stored as NULL,
    and a negative zero, which is stored as 0.0, and the default is stored
    as 0.0.  The row goes under the second the clock shows right after the
    fetch, by [INSERT OR IGNORE]. *)
Theorem collector_stores_the_fetched_tuple
    (C : cloud) (device_id access_id access_secret : string) (w w1 : world)
    (t : telemetry) :
  Db.device_exists device_id (db w) = true ->
  get_device_data C device_id access_id access_secret w = (Ret t, w1) ->
  Py.truthy (t_is_online t) = true ->
  exists voltage current power,
    held_as (t_voltage t) voltage /\
    held_as (t_current t) current /\
    held_as (t_power t) power /\
    db (exec (collect_device C (device_id, access_id, access_secret)) w)
    = Db.insert_or_ignore_reading device_id (time_time C (ticks w1))
        voltage current power (db w).
Proof.
  intros Hex Hfetch Hon.
  pose proof (preserves_db_get_device_data C device_id access_id access_secret w) as Hdb.
  pose proof (fetched_meters C device_id access_id access_secret w t) as Hmeters.
  unfold exec in Hdb. unfold result in Hmeters. rewrite Hfetch in Hdb, Hmeters.
  cbn [fst snd] in Hdb, Hmeters. specialize (Hmeters eq_refl).
  apply Forall_cons_iff in Hmeters. destruct Hmeters as [Hv Hmeters].
  apply Forall_cons_iff in Hmeters. destruct Hmeters as [Hc Hmeters].
  apply Forall_cons_iff in Hmeters. destruct Hmeters as [Hp _].
  destruct (bind_real_meter _ Hv) as (voltage & Hbv & Hhv).
  destruct (bind_real_meter _ Hc) as (current & Hbc & Hhc).
  destruct (bind_real_meter _ Hp) as (power & Hbp & Hhp).
  exists voltage, current, power.
  split; [exact Hhv|]. split; [exact Hhc|]. split; [exact Hhp|].
  unfold exec, collect_device, try_except, bind, get_db. cbn [fst snd].
  rewrite Hex. cbn [negb]. rewrite Hfetch, Hon.
  unfold unix_time. cbn [db tick]. rewrite Hdb, Hex.
  unfold lift. rewrite Hbv, Hbc, Hbp.
  unfold modify_db. cbn [snd db with_db tick]. rewrite Hdb. reflexivity.
Qed.

Lemma collector_stores_the_fetched_tuple_witness :
  exists voltage current power,
    held_as (FloatNum 220.5) voltage /\
    held_as (FloatNum 0.484) current /\
    held_as (FloatNum 106.7) power /\
    db (exec (collect_device healthy ("plug-1", "access-id", "access-secret")) office)
    = Db.insert_or_ignore_reading "plug-1"
        (time_time healthy
           (ticks (exec (get_device_data healthy "plug-1" "access-id" "access-secret")
                     office)))
        voltage current power (db office).
Proof.
  apply (collector_stores_the_fetched_tuple healthy "plug-1" "access-id" "access-secret"
           office
           (exec (get_device_data healthy "plug-1" "access-id" "access-secret") office)
           {| t_voltage := FloatNum 220.5; t_current := FloatNum 0.484;
              t_power := FloatNum 106.7; t_switch := PBool true;
              t_is_online := PBool true |}).
  - reflexivity.
  - vm_compute. reflexivity.
  - reflexivity.
Defined.

(** X20: a pass of the collector returns the minute it read as the new
    latch.  The commands it sends and the marks it makes are those of its
    schedule evaluation alone, the device loop adding none; and when the
    minute read equals the latch the schedules are not evaluated: no command
    is sent and the tracker is unchanged. *)
Theorem collector_pass_latch (C : cloud) (latch : Z) (w : world) :
  let minute := Z.of_nat (dt_minute (datetime_now C (ticks w))) in
  let w' := exec (collect_data_pass C latch) w in
  result (collect_data_pass C latch) w = Ret minute /\
  commands (sent w') = commands (sent (loop_start C latch w)) /\
  schedule_execution_tracker w' = schedule_execution_tracker (loop_start C latch w) /\
  (latch = minute ->
   commands (sent w') = commands (sent w) /\
   schedule_execution_tracker w' = schedule_execution_tracker w).
Proof.
  intros minute w'.
  assert (Hrun : collect_data_pass C latch w =
                 (Ret minute,
                  exec (for_each (Db.list_devices (db w)) (collect_device C))
                    (loop_start C latch w))).
  { destruct (collect_data_pass_spec C latch w) as [latch' Hpass]. rewrite Hpass.
    f_equal. revert Hpass.
    unfold collect_data_pass, try_except. unfold bind at 1. unfold now.
    fold minute. unfold bind at 1.
    destruct (Z.eqb_spec minute latch) as [Heq|Hne]; cbn [negb].
    - unfold ret at 1. unfold bind at 1. unfold get_db. unfold bind at 1.
      rewrite (for_each_exec _ (collect_device_no_raise C)). cbn [ret].
      intros [= <- _]. rewrite Heq. reflexivity.
    - unfold bind at 1. rewrite check_and_execute_schedules_ret. unfold ret at 1.
      unfold bind at 1. unfold get_db. unfold bind at 1.
      rewrite (for_each_exec _ (collect_device_no_raise C)). cbn [ret].
      intros [= <- _]. reflexivity. }
  destruct (device_loop_reads C (Db.list_devices (db w)) (loop_start C latch w))
    as [Hcmd Htr].
  assert (Hw' : w' = exec (for_each (Db.list_devices (db w)) (collect_device C))
                       (loop_start C latch w)).
  { subst w'. unfold exec at 1. rewrite Hrun. reflexivity. }
  rewrite Hw'. unfold result. rewrite Hrun. cbn [fst].
  split; [reflexivity|]. split; [exact Hcmd|]. split; [exact Htr|].
  intros Heq. rewrite Hcmd, Htr. unfold loop_start. fold minute.
  rewrite Heq, Z.eqb_refl. cbn [negb]. split; reflexivity.
Qed.

(** *** Managing schedules *)

(** What the evaluator's query returns: the pairs of an enabled schedule
    and a device it names. *)
Lemma enabled_schedules_In (row : schedule_row * device_row) (d : database) :
  In row (Db.enabled_schedules d) <->
  In (fst row) (schedules d) /\ s_enabled (fst row) = 1 /\
  In (snd row) (devices d) /\ s_device_id (fst row) = d_device_id (snd row).
Proof.
  unfold Db.enabled_schedules. rewrite in_flat_map. split.
  - intros (s & Hs & Hrow).
    destruct (Z.eqb_spec (s_enabled s) 1) as [Hen|Hen]; [|destruct Hrow].
    apply in_map_iff in Hrow. destruct Hrow as (dv & <- & Hdv).
    apply filter_In in Hdv. destruct Hdv as [Hdv Heq].
    cbn [fst snd]. apply String.eqb_eq in Heq. auto.
  - intros (Hs & Hen & Hdv & Heq). exists (fst row). split; [exact Hs|].
    rewrite Hen. cbn [Z.eqb Pos.eqb]. apply in_map_iff. exists (snd row).
    split; [destruct row; reflexivity|].
    apply filter_In. split; [exact Hdv | apply String.eqb_eq, Heq].
Qed.

Lemma delete_schedule_run (schedule_id : Z) (w : world) :
  sqlite_int schedule_id = true ->
  delete_schedule schedule_id w =
  (Ret 200,
   with_db (with_schedules
              (List.filter (fun s => negb (Z.eqb (s_id s) schedule_id))
                 (schedules (db w))) (db w)) w).
Proof. intros Hid. unfold delete_schedule. rewrite Hid. reflexivity. Qed.

Lemma filter_twice {A} (f : A -> bool) (l : list A) :
  List.filter f (List.filter f l) = List.filter f l.
Proof.
  induction l as [|x l IH]; [reflexivity|]. cbn [List.filter].
  destruct (f x) eqn:Hx; [|exact IH]. cbn [List.filter]. rewrite Hx, IH. reflexivity.
Qed.

(** X21: deleting a schedule, for an id that fits SQLite's 64 bits,
    answers 200 whether or not a schedule has this id.  Afterwards no schedule has the id and the evaluator's query
    returns what it returned before, less the pairs of this schedule;
    devices, readings, the request log and the tracker (also the entries of
    the deleted schedule) are as before, and deleting again changes
    nothing. *)
Theorem delete_schedule_removes_the_schedule (schedule_id : Z) (w : world) :
  sqlite_int schedule_id = true ->
  let w' := exec (delete_schedule schedule_id) w in
  result (delete_schedule schedule_id) w = Ret 200 /\
  (forall s, In s (schedules (db w')) <->
             In s (schedules (db w)) /\ s_id s <> schedule_id) /\
  (forall row, In row (Db.enabled_schedules (db w')) <->
               In row (Db.enabled_schedules (db w)) /\ s_id (fst row) <> schedule_id) /\
  devices (db w') = devices (db w) /\
  readings (db w') = readings (db w) /\
  schedule_execution_tracker w' = schedule_execution_tracker w /\
  sent w' = sent w /\
  delete_schedule schedule_id w' = (Ret 200, w').
Proof.
  intros Hid w'.
  assert (Hw' : w' = with_db (with_schedules
                                (List.filter (fun s => negb (Z.eqb (s_id s) schedule_id))
                                   (schedules (db w))) (db w)) w).
  { subst w'. unfold exec. rewrite (delete_schedule_run _ _ Hid). reflexivity. }
  assert (Hrows : forall s, In s (schedules (db w')) <->
                            In s (schedules (db w)) /\ s_id s <> schedule_id).
  { intros s. rewrite Hw'. cbn [db with_db schedules with_schedules].
    rewrite filter_In, negb_true_iff, Z.eqb_neq. reflexivity. }
  unfold result. rewrite (delete_schedule_run _ _ Hid). cbn [fst].
  split; [reflexivity|]. split; [exact Hrows|]. split.
  - intros row. rewrite !enabled_schedules_In, Hrows.
    replace (devices (db w')) with (devices (db w)) by (rewrite Hw'; reflexivity).
    tauto.
  - rewrite (delete_schedule_run _ w' Hid), Hw'.
    cbn [db with_db schedules with_schedules devices readings sent
         schedule_execution_tracker].
    repeat split; try reflexivity.
    unfold with_db, with_schedules. cbn. rewrite filter_twice. reflexivity.
Qed.

Lemma delete_schedule_removes_the_schedule_witness :
  result (delete_schedule 7) office = Ret 200.
Proof.
  apply (proj1 (delete_schedule_removes_the_schedule 7 office eq_refl)).
Defined.

Ltac update_details :=
  repeat match goal with
         | |- context [Py.getitem ?r ?k] =>
             destruct (Py.getitem r k); cbn [fst snd]; [|solve [auto]]
         end;
  destruct (sqlite_int _); cbn [negb fst snd]; [|solve [auto]];
  repeat match goal with
         | |- context [bind_text ?r ?v] => destruct (bind_text r v)
         end;
  cbn [unbindable orb fst snd]; try destruct (schedule_stored _ _); cbn [fst snd];
  first [ left; reflexivity
        | right; left; reflexivity
        | right; right; right; do 4 eexists; reflexivity ].

(** The outcomes of [update_schedule]. *)
Lemma update_schedule_cases real_to_text request_json (schedule_id : Z) (w : world) :
  update_schedule real_to_text request_json schedule_id w = (Ret 500, w) \/
  update_schedule real_to_text request_json schedule_id w = (Ret 200, w) \/
  (exists enabled,
      update_schedule real_to_text request_json schedule_id w
      = (Ret 200, with_db (set_enabled schedule_id enabled (db w)) w)) \/
  (exists name start end_ days,
      update_schedule real_to_text request_json schedule_id w
      = (Ret 200, with_db (set_details schedule_id name start end_ days (db w)) w)).
Proof.
  unfold update_schedule, try_except, bind, lift, get_db, modify_db, ret.
  destruct (Py.contains "enabled" request_json) as [has|e]; [|auto].
  destruct has; cbn [fst snd].
  - destruct (py_len request_json) as [n|e]; cbn [fst snd]; [|auto].
    destruct (Nat.eqb n 1); cbn [fst snd].
    + destruct (Py.getitem request_json "enabled") as [v|e]; cbn [fst snd]; [|auto].
      destruct (sqlite_int schedule_id); cbn [negb fst snd]; [|auto].
      right; right; left. eexists. reflexivity.
    + update_details.
  - update_details.
Qed.

Lemma map_if_field {A} (proj : schedule_row -> A) (f : schedule_row -> schedule_row)
    (schedule_id : Z) (rows : list schedule_row) :
  (forall s, proj (f s) = proj s) ->
  map proj (map (fun s => if Z.eqb (s_id s) schedule_id then f s else s) rows)
  = map proj rows.
Proof.
  intros Hf. rewrite map_map. apply map_ext. intros s.
  destruct (Z.eqb (s_id s) schedule_id); [apply Hf | reflexivity].
Qed.

(** X22: an update answers 200 or 500 and never adds, removes or
    reorders schedules, nor moves one to another device: the ids, device ids
    and creation times of the rows are as before, whatever the body.  When
    it answers 500 nothing at all has changed; it never touches devices,
    readings, the request log or the tracker. *)
Theorem update_schedule_keeps_the_rows
    real_to_text (request_json : pyval) (schedule_id : Z) (w : world) :
  let w' := exec (update_schedule real_to_text request_json schedule_id) w in
  let status := result (update_schedule real_to_text request_json schedule_id) w in
  (status = Ret 200 \/ status = Ret 500 /\ w' = w) /\
  map s_id (schedules (db w')) = map s_id (schedules (db w)) /\
  map s_device_id (schedules (db w')) = map s_device_id (schedules (db w)) /\
  map s_created_at (schedules (db w')) = map s_created_at (schedules (db w)) /\
  devices (db w') = devices (db w) /\
  readings (db w') = readings (db w) /\
  schedule_execution_tracker w' = schedule_execution_tracker w /\
  sent w' = sent w.
Proof.
  intros w' status. subst w' status. unfold exec, result.
  destruct (update_schedule_cases real_to_text request_json schedule_id w)
    as [H|[H|[(enabled & H)|(name & start & end_ & days & H)]]];
    rewrite H; cbn [fst snd db with_db schedules devices readings sent
                    schedule_execution_tracker set_enabled set_details with_schedules];
    rewrite ?map_if_field by reflexivity; auto 10.
Qed.

Lemma update_schedule_toggle_run real_to_text (enabled : pyval) (schedule_id : Z)
    (w : world) :
  sqlite_int schedule_id = true ->
  update_schedule real_to_text (PDict [("enabled", enabled)]) schedule_id w
  = (Ret 200,
     with_db (set_enabled schedule_id (if Py.truthy enabled then 1 else 0) (db w)) w).
Proof. intros Hid. unfold update_schedule. rewrite Hid. reflexivity. Qed.

Lemma set_enabled_In (schedule_id enabled : Z) (d : database) (s' : schedule_row) :
  In s' (schedules (set_enabled schedule_id enabled d)) <->
  exists s, In s (schedules d) /\
    s_id s' = s_id s /\ s_device_id s' = s_device_id s /\
    s_schedule_name s' = s_schedule_name s /\ s_start_time s' = s_start_time s /\
    s_end_time s' = s_end_time s /\ s_days s' = s_days s /\
    s_created_at s' = s_created_at s /\
    s_enabled s' = (if Z.eqb (s_id s) schedule_id then enabled else s_enabled s).
Proof.
  unfold set_enabled. cbn [schedules with_schedules]. rewrite in_map_iff. split.
  - intros (s & <- & Hs). exists s. split; [exact Hs|].
    destruct (Z.eqb (s_id s) schedule_id); cbn; auto 10.
  - intros (s & Hs & Hid & Hdev & Hname & Hstart & Hend & Hdays & Hcreated & Hen).
    exists s. split; [|exact Hs].
    destruct s', s. cbn in *. subst.
    destruct (Z.eqb _ schedule_id); reflexivity.
Qed.

(** X23: the body [{enabled: v}] (and an id that fits SQLite's 64
    bits) switches the schedule by the truthiness of [v], not by its being
    [true]: with a falsy [v] (false, 0,
    null, the empty string) the evaluator's query no longer returns the
    schedule; with a truthy one (true, 1, and also the string [false]) it
    returns it, with its times and days, for every device it names.  The
    pairs of the other schedules are as before. *)
Theorem update_schedule_toggle_follows_truthiness
    real_to_text (enabled : pyval) (schedule_id : Z) (w : world) :
  sqlite_int schedule_id = true ->
  let w' := exec (update_schedule real_to_text (PDict [("enabled", enabled)])
                    schedule_id) w in
  result (update_schedule real_to_text (PDict [("enabled", enabled)]) schedule_id) w
    = Ret 200 /\
  (Py.truthy enabled = false ->
   forall row, In row (Db.enabled_schedules (db w')) -> s_id (fst row) <> schedule_id) /\
  (Py.truthy enabled = true ->
   forall s dv,
     In s (schedules (db w)) -> s_id s = schedule_id ->
     In dv (devices (db w)) -> s_device_id s = d_device_id dv ->
     exists s', In (s', dv) (Db.enabled_schedules (db w')) /\
       s_id s' = schedule_id /\ s_start_time s' = s_start_time s /\
       s_end_time s' = s_end_time s /\ s_days s' = s_days s) /\
  (forall row, s_id (fst row) <> schedule_id ->
     (In row (Db.enabled_schedules (db w')) <-> In row (Db.enabled_schedules (db w)))).
Proof.
  intros Hid w'.
  assert (Hw' : w' = with_db (set_enabled schedule_id
                                (if Py.truthy enabled then 1 else 0) (db w)) w).
  { subst w'. unfold exec. rewrite (update_schedule_toggle_run _ _ _ _ Hid). reflexivity. }
  unfold result. rewrite (update_schedule_toggle_run _ _ _ _ Hid). cbn [fst].
  rewrite Hw'. cbn [db with_db].
  split; [reflexivity|]. split; [|split].
  - intros Hfalsy row Hrow Heq. apply enabled_schedules_In in Hrow.
    destruct Hrow as (Hs & Hen & _). apply set_enabled_In in Hs.
    destruct Hs as (s & _ & Hsid & _ & _ & _ & _ & _ & _ & Hen').
    rewrite <- Hsid, Heq, Z.eqb_refl, Hfalsy in Hen'. congruence.
  - intros Htruthy s dv Hs Hsid Hdv Hdev.
    exists {| s_id := s_id s; s_device_id := s_device_id s;
              s_schedule_name := s_schedule_name s; s_start_time := s_start_time s;
              s_end_time := s_end_time s; s_days := s_days s; s_enabled := 1;
              s_created_at := s_created_at s |}.
    split; [|cbn; auto].
    apply enabled_schedules_In. cbn [fst snd s_enabled s_device_id].
    split; [|auto].
    apply set_enabled_In. exists s. split; [exact Hs|]. cbn.
    rewrite Hsid, Z.eqb_refl, Htruthy. auto 10.
  - intros row Hne. rewrite !enabled_schedules_In.
    cbn [devices set_enabled with_schedules]. split.
    + intros (Hs & Hen & Hdv & Hdev). apply set_enabled_In in Hs.
      destruct Hs as (s & Hs & Hsid & Hsdev & Hname & Hstart & Hend & Hdays & Hcr & Hen').
      rewrite Hsid in Hne. apply Z.eqb_neq in Hne. rewrite Hne in Hen'.
      assert (Hrow : fst row = s).
      { destruct (fst row), s. cbn in *. congruence. }
      rewrite Hrow in *. auto.
    + intros (Hs & Hen & Hdv & Hdev). split; [|auto].
      apply set_enabled_In. exists (fst row). split; [exact Hs|].
      apply Z.eqb_neq in Hne. rewrite Hne. auto 10.
Qed.

Lemma update_schedule_toggle_follows_truthiness_witness :
  result (update_schedule (fun _ => None) (PDict [("enabled", PStr "false")]) 1) office
    = Ret 200.
Proof.
  apply (proj1 (update_schedule_toggle_follows_truthiness
                  (fun _ => None) (PStr "false") 1 office eq_refl)).
Defined.

(** The outcomes of [create_schedule]. *)
Lemma create_schedule_cases (C : cloud) real_to_text schedule_rowid
    request_json device_id (w : world) :
  (exists status,
      (status = 400 \/ status = 404 \/ status = 500) /\
      (create_schedule C real_to_text schedule_rowid request_json device_id w
         = (Ret (status, None), w) \/
       create_schedule C real_to_text schedule_rowid request_json device_id w
         = (Ret (status, None), tick w))) \/
  (exists schedule_name start_time end_time days name start end_ days',
      Py.get request_json "schedule_name" PNone = Ret schedule_name /\
      Py.get request_json "start_time" PNone = Ret start_time /\
      Py.get request_json "end_time" PNone = Ret end_time /\
      Py.get request_json "days" PNone = Ret days /\
      (Py.truthy schedule_name && Py.truthy start_time
       && Py.truthy end_time && Py.truthy days = true)%bool /\
      bind_text real_to_text schedule_name = BoundText name /\
      bind_text real_to_text start_time = BoundText start /\
      bind_text real_to_text end_time = BoundText end_ /\
      bind_text real_to_text days = BoundText days' /\
      Db.device_exists device_id (db w) = true /\
      create_schedule C real_to_text schedule_rowid request_json device_id w
      = (Ret (200, Some (schedule_rowid (db w))),
         with_db
           (with_schedules
              (schedules (db w) ++
               [{| s_id := schedule_rowid (db w); s_device_id := device_id;
                   s_schedule_name := name; s_start_time := start;
                   s_end_time := end_; s_days := days'; s_enabled := 1;
                   s_created_at := time_time C (ticks w) |}])
              (db w))
           (tick w))).
Proof.
  unfold create_schedule, try_except, bind, lift, get_db, modify_db, unix_time, ret.
  destruct (Py.get request_json "schedule_name" PNone) as [schedule_name|e];
    cbn [fst snd]; [|left; exists 500; auto].
  destruct (Py.get request_json "start_time" PNone) as [start_time|e];
    cbn [fst snd]; [|left; exists 500; auto].
  destruct (Py.get request_json "end_time" PNone) as [end_time|e];
    cbn [fst snd]; [|left; exists 500; auto].
  destruct (Py.get request_json "days" PNone) as [days|e];
    cbn [fst snd]; [|left; exists 500; auto].
  destruct (Py.truthy schedule_name && Py.truthy start_time
            && Py.truthy end_time && Py.truthy days)%bool eqn:Hall;
    cbn [negb fst snd]; [|left; exists 400; auto].
  destruct (Db.device_exists device_id (db w)) eqn:Hex;
    cbn [negb fst snd]; [|left; exists 404; auto].
  destruct (bind_text real_to_text schedule_name) as [|name|] eqn:Hb1;
    cbn [fst snd]; try (left; exists 500; solve [auto]).
  destruct (bind_text real_to_text start_time) as [|start|] eqn:Hb2;
    cbn [fst snd]; try (left; exists 500; solve [auto]).
  destruct (bind_text real_to_text end_time) as [|end_|] eqn:Hb3;
    cbn [fst snd]; try (left; exists 500; solve [auto]).
  destruct (bind_text real_to_text days) as [|days'|] eqn:Hb4;
    cbn [fst snd]; try (left; exists 500; solve [auto]).
  right. exists schedule_name, start_time, end_time, days, name, start, end_, days'.
  repeat split; auto.
Qed.

(** X24: creating a schedule answers 400, 404 or 500 without a
    schedule id and with the database as it was, or 200 with the id of one
    new row at the end of the schedules table: a row for the device of the
    route, which is registered, enabled, with the times and days as they
    were bound.  Devices, readings, the request log and the tracker are never
    touched. *)
Theorem create_schedule_adds_one_enabled_row (C : cloud) real_to_text schedule_rowid
    (request_json : pyval) (device_id : string) (w : world) :
  let w' := exec (create_schedule C real_to_text schedule_rowid request_json device_id) w in
  let answer :=
    result (create_schedule C real_to_text schedule_rowid request_json device_id) w in
  ((exists status, (status = 400 \/ status = 404 \/ status = 500) /\
                   answer = Ret (status, None) /\ db w' = db w) \/
   (exists row, answer = Ret (200, Some (s_id row)) /\
                schedules (db w') = (schedules (db w) ++ [row])%list /\
                s_id row = schedule_rowid (db w) /\
                s_device_id row = device_id /\ s_enabled row = 1 /\
                Db.device_exists device_id (db w) = true /\
                bound_field real_to_text request_json "start_time"
                  = Some (BoundText (s_start_time row)) /\
                bound_field real_to_text request_json "end_time"
                  = Some (BoundText (s_end_time row)) /\
                bound_field real_to_text request_json "days"
                  = Some (BoundText (s_days row)))) /\
  devices (db w') = devices (db w) /\
  readings (db w') = readings (db w) /\
  schedule_execution_tracker w' = schedule_execution_tracker w /\
  sent w' = sent w.
Proof.
  intros w' answer. subst w' answer. unfold exec, result.
  destruct (create_schedule_cases C real_to_text schedule_rowid request_json device_id w)
    as [(status & Hst & [H|H])
       |(v1 & v2 & v3 & v4 & name & start & end_ & days' &
         H1 & H2 & H3 & H4 & Hall & Hb1 & Hb2 & Hb3 & Hb4 & Hex & H)];
    rewrite H; cbn [fst snd db tick with_db with_schedules devices readings schedules sent
                    schedule_execution_tracker].
  - split; [left; exists status; auto | auto].
  - split; [left; exists status; auto | auto].
  - split; [right|auto]. eexists. cbn [s_id s_device_id s_enabled s_start_time
                                       s_end_time s_days].
    unfold bound_field. rewrite H2, H3, H4, Hb2, Hb3, Hb4. repeat split; auto.
Qed.

(** X25: the times and days of a new schedule are not validated: with
    any four non-empty strings and a registered device the route answers
    200, and the evaluator's query at once returns the new schedule, enabled,
    with the strings as given and the clock's second as creation time. *)
Theorem create_schedule_stores_strings_as_given (C : cloud) real_to_text schedule_rowid
    (request_json : pyval) (name start end_ days : string) (dv : device_row)
    (w : world) :
  Py.get request_json "schedule_name" PNone = Ret (PStr name) ->
  Py.get request_json "start_time" PNone = Ret (PStr start) ->
  Py.get request_json "end_time" PNone = Ret (PStr end_) ->
  Py.get request_json "days" PNone = Ret (PStr days) ->
  name <> EmptyString -> start <> EmptyString ->
  end_ <> EmptyString -> days <> EmptyString ->
  In dv (devices (db w)) ->
  let m := create_schedule C real_to_text schedule_rowid request_json (d_device_id dv) in
  result m w = Ret (200, Some (schedule_rowid (db w))) /\
  In ({| s_id := schedule_rowid (db w); s_device_id := d_device_id dv;
         s_schedule_name := name; s_start_time := start; s_end_time := end_;
         s_days := days; s_enabled := 1; s_created_at := time_time C (ticks w) |}, dv)
     (Db.enabled_schedules (db (exec m w))).
Proof.
  intros H1 H2 H3 H4 Hn Hs He Hd Hdv m.
  assert (Hex : Db.device_exists (d_device_id dv) (db w) = true).
  { unfold Db.device_exists. apply existsb_exists. exists dv.
    split; [exact Hdv | apply String.eqb_refl]. }
  assert (Hrun : m w =
    (Ret (200, Some (schedule_rowid (db w))),
     with_db
       (with_schedules
          (schedules (db w) ++
           [{| s_id := schedule_rowid (db w); s_device_id := d_device_id dv;
               s_schedule_name := name; s_start_time := start;
               s_end_time := end_; s_days := days; s_enabled := 1;
               s_created_at := time_time C (ticks w) |}])
          (db w))
       (tick w))).
  { subst m.
    unfold create_schedule, try_except, bind, lift, get_db, modify_db, unix_time, ret.
    rewrite H1, H2, H3, H4. cbn [fst snd].
    rewrite !truthy_PStr by assumption. cbn [andb negb].
    rewrite Hex. reflexivity. }
  unfold result, exec. rewrite Hrun. cbn [fst snd db with_db].
  split; [reflexivity|].
  apply enabled_schedules_In.
  cbn [fst snd schedules devices with_schedules s_enabled s_device_id].
  split; [apply in_or_app; right; left; reflexivity | auto].
Qed.

Lemma create_schedule_stores_strings_as_given_witness :
  result (create_schedule obliging (fun _ => None) (fun _ => 2)
            (PDict [("schedule_name", PStr "lunch"); ("start_time", PStr "noon");
                    ("end_time", PStr "25:99"); ("days", PStr "someday")])
            (d_device_id plug)) office
  = Ret (200, Some 2).
Proof.
  apply (proj1 (create_schedule_stores_strings_as_given obliging (fun _ => None)
                  (fun _ => 2)
                  (PDict [("schedule_name", PStr "lunch"); ("start_time", PStr "noon");
                          ("end_time", PStr "25:99"); ("days", PStr "someday")])
                  "lunch" "noon" "25:99" "someday" plug office
                  eq_refl eq_refl eq_refl eq_refl
                  ltac:(discriminate) ltac:(discriminate)
                  ltac:(discriminate) ltac:(discriminate)
                  ltac:(left; reflexivity))).
Defined.

(** *** Managing devices *)

Lemma get_token_of_reads (C : cloud) access_id access_secret (w : world) :
  exists token w1,
    get_token_of C access_id access_secret w = (Ret token, w1) /\
    db w1 = db w /\
    schedule_execution_tracker w1 = schedule_execution_tracker w /\
    commands (sent w1) = commands (sent w).
Proof.
  unfold get_token_of.
  destruct access_id as [| | | |aid| |];
    try (exists PNone, w; repeat split; reflexivity).
  destruct access_secret as [| | | |secret| |];
    try (exists PNone, w; repeat split; reflexivity).
  rewrite get_token_spec. eexists. eexists. split; [reflexivity|].
  cbn [db sent schedule_execution_tracker record_request].
  repeat split. rewrite commands_app. apply app_nil_r.
Qed.

(** The outcomes of [add_device]. *)
Lemma add_device_cases (C : cloud) real_to_text device_rowid request_json (w : world) :
  let m := add_device C real_to_text device_rowid request_json in
  m w = (Raise AttributeError, w) \/
  (exists status w1,
      (status = 400 \/ status = 500) /\ m w = (Ret status, w1) /\ db w1 = db w /\
      schedule_execution_tracker w1 = schedule_execution_tracker w /\
      commands (sent w1) = commands (sent w)) \/
  (exists row w1,
      Db.device_exists (d_device_id row) (db w) = false /\
      bound_field real_to_text request_json "device_id"
        = Some (BoundText (d_device_id row)) /\
      m w = (Ret 200, with_db (with_devices (devices (db w) ++ [row]) (db w)) w1) /\
      db w1 = db w /\
      schedule_execution_tracker w1 = schedule_execution_tracker w /\
      commands (sent w1) = commands (sent w)).
Proof.
  intros m. subst m. unfold add_device. unfold bind at 1. unfold lift at 1.
  destruct request_json as [| | | | | |fields]; try (left; reflexivity).
  right. unfold bind, lift, Py.get. cbn [fst snd].
  set (device_id := match Py.assoc "device_id" fields with Some x => x | None => PNone end).
  set (device_name :=
         match Py.assoc "device_name" fields with Some x => x | None => PNone end).
  set (access_id := match Py.assoc "access_id" fields with Some x => x | None => PNone end).
  set (access_secret :=
         match Py.assoc "access_secret" fields with Some x => x | None => PNone end).
  destruct (Py.truthy device_id && Py.truthy device_name
            && Py.truthy access_id && Py.truthy access_secret)%bool;
    cbn [negb]; [|left; exists 400, w; auto 10].
  unfold try_except.
  destruct (get_token_of_reads C access_id access_secret w)
    as (token & w1 & Htok & Hdb & Htr & Hcmd).
  rewrite Htok. cbn [fst snd].
  destruct (Py.truthy token); cbn [negb]; [|left; exists 400, w1; auto 10].
  unfold unix_time, get_db, modify_db, ret. cbn [fst snd db tick].
  assert (Hfail : forall status, status = 400 \/ status = 500 ->
            exists status' w2,
              (status' = 400 \/ status' = 500) /\
              (Ret status, tick w1) = (Ret status', w2) /\ db w2 = db w /\
              schedule_execution_tracker w2 = schedule_execution_tracker w /\
              commands (sent w2) = commands (sent w)).
  { intros status Hst. exists status, (tick w1). auto 10. }
  destruct (bind_text real_to_text device_id) as [|id|] eqn:Hb1;
    destruct (bind_text real_to_text device_name) as [|name|] eqn:Hb2;
    destruct (bind_text real_to_text access_id) as [|aid|] eqn:Hb3;
    destruct (bind_text real_to_text access_secret) as [|secret|] eqn:Hb4;
    cbn [unbindable orb fst snd]; try (left; apply Hfail; solve [auto]).
  rewrite Hdb.
  destruct (Db.device_exists id (db w)) eqn:Hex; cbn [fst snd];
    [left; apply Hfail; auto|].
  right.
  exists {| d_id := device_rowid (db w); d_device_id := id; d_device_name := name;
            d_access_id := aid; d_access_secret := secret;
            d_created_at := time_time C (ticks w1) |}, (tick w1).
  cbn [d_device_id]. split; [exact Hex|].
  split; [unfold bound_field, Py.get; fold device_id; rewrite Hb1; reflexivity|].
  split; [|auto].
  unfold with_db. cbn. rewrite Hdb. reflexivity.
Qed.

Lemma device_exists_ids device_id (d : database) :
  Db.device_exists device_id d = true <-> In device_id (map d_device_id (devices d)).
Proof.
  unfold Db.device_exists. rewrite existsb_exists, in_map_iff. split.
  - intros (dv & Hin & Heq). exists dv. apply String.eqb_eq in Heq. auto.
  - intros (dv & Heq & Hin). exists dv. split; [exact Hin | apply String.eqb_eq, Heq].
Qed.

(** X26: adding a device raises only when the body is not an object
    (the lookups come before the [try]); otherwise it answers 200, 400 or
    500.  It answers 200 only with one new row at the end of the devices
    table, whose device id is the one bound from the body and was not
    registered; with another answer the database is as before.  Readings,
    schedules and the tracker are never touched, and no command is sent. *)
Theorem add_device_adds_one_new_row (C : cloud) real_to_text device_rowid
    (request_json : pyval) (w : world) :
  let w' := exec (add_device C real_to_text device_rowid request_json) w in
  let answer := result (add_device C real_to_text device_rowid request_json) w in
  (answer = Raise AttributeError /\ w' = w /\ is_dict request_json = false \/
   (answer = Ret 400 \/ answer = Ret 500) /\ db w' = db w \/
   answer = Ret 200 /\
   exists row, devices (db w') = (devices (db w) ++ [row])%list /\
               Db.device_exists (d_device_id row) (db w) = false /\
               bound_field real_to_text request_json "device_id"
                 = Some (BoundText (d_device_id row))) /\
  readings (db w') = readings (db w) /\
  schedules (db w') = schedules (db w) /\
  schedule_execution_tracker w' = schedule_execution_tracker w /\
  commands (sent w') = commands (sent w).
Proof.
  intros w' answer. subst w' answer. unfold exec, result.
  destruct (add_device_cases C real_to_text device_rowid request_json w)
    as [H|[(status & w1 & Hst & H & Hdb & Htr & Hcmd)
          |(row & w1 & Hnew & Hid & H & Hdb & Htr & Hcmd)]].
  - rewrite H. cbn [fst snd]. split; [left|auto].
    split; [reflexivity|]. split; [reflexivity|].
    destruct request_json; try reflexivity.
    revert H. unfold add_device, bind, lift, Py.get. cbn [fst snd].
    destruct (negb _); [discriminate|].
    unfold try_except.
    destruct (get_token_of C _ _ w) as [[token|e] w1]; cbn [fst snd].
    + destruct (negb _); [discriminate|].
      unfold unix_time, get_db, modify_db, ret. cbn [fst snd].
      repeat match goal with
             | |- context [bind_text ?r ?v] => destruct (bind_text r v)
             end;
        cbn [unbindable orb fst snd]; try discriminate;
        destruct (Db.device_exists _ _); discriminate.
    + discriminate.
  - rewrite H. cbn [fst snd]. rewrite Hdb.
    split; [right; left|auto]. split; [|reflexivity].
    destruct Hst as [-> | ->]; auto.
  - rewrite H. cbn [fst snd db with_db with_devices devices readings schedules sent
                    schedule_execution_tracker].
    split; [right; right|auto]. split; [reflexivity|]. exists row. auto.
Qed.

(** X27: the devices table never holds two rows with one device id: if
    the device ids are pairwise distinct before [add_device], they are after
    it, whatever the body and whatever the cloud answers. *)
Theorem add_device_keeps_device_ids_distinct (C : cloud) real_to_text device_rowid
    (request_json : pyval) (w : world) :
  NoDup (map d_device_id (devices (db w))) ->
  NoDup (map d_device_id
           (devices (db (exec (add_device C real_to_text device_rowid request_json) w)))).
Proof.
  intros Hnodup. unfold exec.
  destruct (add_device_cases C real_to_text device_rowid request_json w)
    as [H|[(status & w1 & Hst & H & Hdb & Htr & Hcmd)
          |(row & w1 & Hnew & Hid & H & Hdb & Htr & Hcmd)]];
    rewrite H; cbn [snd]; [exact Hnodup | rewrite Hdb; exact Hnodup |].
  cbn [db with_db with_devices devices]. rewrite map_app. cbn [map].
  apply NoDup_app. split; [exact Hnodup|]. split; [|apply NoDup_singleton].
  intros id Hin Hin'. apply list_elem_of_In in Hin, Hin'. destruct Hin' as [<-|[]].
  apply device_exists_ids in Hin. congruence.
Qed.

Lemma add_device_keeps_device_ids_distinct_witness :
  NoDup (map d_device_id
           (devices (db (exec (add_device obliging (fun _ => None) (fun _ => 2)
                                 (PDict [("device_id", PStr "plug-1");
                                         ("device_name", PStr "Again");
                                         ("access_id", PStr "a");
                                         ("access_secret", PStr "s")]))
                           office)))).
Proof.
  apply (add_device_keeps_device_ids_distinct obliging (fun _ => None) (fun _ => 2)).
  cbn. apply NoDup_singleton.
Defined.

(** *** Deleting a device, again *)

Lemma length_append (a b : string) :
  String.length (a ++ b) = (String.length a + String.length b)%nat.
Proof.
  induction a as [|c a IH]; [reflexivity|].
  change (S (String.length (a ++ b)) = S (String.length a + String.length b)).
  f_equal. exact IH.
Qed.

Lemma append_cancel_r (t a b : string) : a ++ t = b ++ t -> a = b.
Proof.
  revert b. induction a as [|c a IH]; intros [|c' b] H.
  - reflexivity.
  - apply (f_equal String.length) in H. rewrite !length_append in H.
    cbn [String.length] in H. lia.
  - apply (f_equal String.length) in H. rewrite !length_append in H.
    cbn [String.length] in H. lia.
  - change (String c (a ++ t) = String c' (b ++ t)) in H.
    injection H as -> H. f_equal. apply IH, H.
Qed.

Lemma command_path_inj (a b : string) :
  "/v1.0/devices/" ++ a ++ "/commands" = "/v1.0/devices/" ++ b ++ "/commands" -> a = b.
Proof.
  intros H. apply (String.app_inj "/v1.0/devices/") in H.
  apply (append_cancel_r _ _ _ H).
Qed.

(** X28: deleting a device that is not registered answers 404 and
    changes nothing, so deleting twice does what deleting once does.  The
    schedules of a deleted device stay in the table but the evaluator's query
    no longer returns them, and an evaluation, under any cloud, sends no
    command to the deleted device. *)
Theorem deleted_device_schedules_are_dormant (C : cloud) (device_id : string)
    (w : world) :
  let w' := exec (delete_device device_id) w in
  (Db.device_exists device_id (db w) = false ->
   delete_device device_id w = (Ret 404, w)) /\
  delete_device device_id w' = (Ret 404, w') /\
  schedules (db w') = schedules (db w) /\
  (forall row, In row (Db.enabled_schedules (db w')) <->
               In row (Db.enabled_schedules (db w)) /\
               s_device_id (fst row) <> device_id) /\
  exists rest,
    sent (exec (check_and_execute_schedules C) w') = (sent w' ++ rest)%list /\
    Forall (fun r => req_method r = POST ->
                     req_path r <> "/v1.0/devices/" ++ device_id ++ "/commands") rest.
Proof.
  intros w'.
  assert (Hmiss : forall w0, Db.device_exists device_id (db w0) = false ->
                             delete_device device_id w0 = (Ret 404, w0)).
  { intros w0 Hex. unfold delete_device, try_except, bind, get_db. cbn [fst snd].
    rewrite Hex. reflexivity. }
  assert (Hw' : db w' = db w /\ Db.device_exists device_id (db w) = false \/
                db w' = Db.delete_device_row device_id
                          (Db.delete_readings device_id (db w))).
  { subst w'. unfold exec, delete_device, try_except, bind, get_db, modify_db.
    cbn [fst snd]. destruct (Db.device_exists device_id (db w)); cbn [negb fst snd];
      [right; reflexivity | left; auto]. }
  assert (Hgone : Db.device_exists device_id (db w') = false).
  { destruct Hw' as [[-> Hex]| ->]; [exact Hex|].
    rewrite device_exists_after_delete, String.eqb_refl. apply andb_false_r. }
  assert (Hsch : schedules (db w') = schedules (db w)).
  { destruct Hw' as [[-> _]| ->]; reflexivity. }
  assert (Hdev : forall dv, In dv (devices (db w')) <->
                            In dv (devices (db w)) /\ d_device_id dv <> device_id).
  { intros dv. destruct Hw' as [[-> Hex]| ->].
    - split; [|tauto]. intros Hin. split; [exact Hin|]. intros Heq.
      assert (Db.device_exists device_id (db w) = true); [|congruence].
      apply device_exists_ids, in_map_iff. exists dv. auto.
    - cbn [devices Db.delete_device_row Db.delete_readings].
      rewrite filter_In, negb_true_iff, String.eqb_neq. reflexivity. }
  assert (Hrows : forall row, In row (Db.enabled_schedules (db w')) <->
                              In row (Db.enabled_schedules (db w)) /\
                              s_device_id (fst row) <> device_id).
  { intros row. rewrite !enabled_schedules_In, Hsch, Hdev. split.
    - intros (Hs & Hen & [Hdv Hne] & Heq). rewrite Heq. auto.
    - intros ((Hs & Hen & Hdv & Heq) & Hne). rewrite Heq in Hne. auto. }
  split; [apply Hmiss|]. split; [apply Hmiss, Hgone|]. split; [exact Hsch|].
  split; [exact Hrows|].
  unfold exec at 1. rewrite check_and_execute_schedules_spec. cbn [snd].
  destruct (loop_effect C (current_time_of (datetime_now C (ticks w')))
              (current_day_of (datetime_now C (ticks w')))
              (Db.enabled_schedules (db w')) (tick w'))
    as (_ & rest & Hs & _ & _ & Hposts).
  exists rest. split; [exact Hs|].
  eapply Forall_impl; [exact Hposts|].
  intros r Hr Hpost Hpath. destruct (Hr Hpost) as (row & Hin & _ & Hp).
  apply Hrows in Hin. destruct Hin as [_ Hne]. apply Hne.
  rewrite Hp in Hpath. apply command_path_inj, Hpath.
Qed.
